(** * facturitrendy: order fetch, invoice drafting and bulk invoicing

    A shallow embedding of the reconciliation core of the application:

    - [trendyol_service.py]: [TrendyolService.get_orders] and
      [TrendyolService._get_orders_multiple_statuses], the label and
      invoice-file methods, the product and package listings;
    - [smartbill_service.py]: the invoice, PDF, series, list and reverse
      methods;
    - [app.py]: [check_credentials], [check_smartbill_credentials],
      [generate_invoice_data_from_order], [bulk_send_to_smartbill],
      [bulk_upload_to_trendyol], the routes behind the two checks and the
      admin writers of the [order_invoices] table;
    - [user_manager.py]: the [users] table, [User.is_admin] and the
      [order_invoices] schema.

    The two providers are oracles (functions from a request to a response);
    the [while True] page loops take fuel and the theorems say how much fuel
    is enough.  Python integers are [Z], Python strings are [string] (bytes,
    ASCII case folding), dictionaries with optional keys are records with
    [option] fields read through the defaults the code passes to [dict.get]. *)

From Stdlib Require Import ZArith Lia String Ascii List Bool DecimalString Sorted.
From stdpp Require Import base tactics option list gmap strings sets.

Local Open Scope string_scope.
Local Open Scope Z_scope.

(** ** Python primitives used by the code *)

Module Py.

(** Truth value of a [str]: non-empty. *)
Definition truthy (s : string) : bool :=
  match s with EmptyString => false | String _ _ => true end.

(** Truth value of an optional string ([None] and [''] are false). *)
Definition truthy_opt (o : option string) : bool :=
  match o with Some s => truthy s | None => false end.

(** [str.lower] on ASCII letters. *)
Definition lower_ascii (c : ascii) : ascii :=
  let n := nat_of_ascii c in
  if (Nat.leb 65 n && Nat.leb n 90)%bool then ascii_of_nat (n + 32) else c.

Fixpoint lower (s : string) : string :=
  match s with
  | EmptyString => EmptyString
  | String c s' => String (lower_ascii c) (lower s')
  end.

(** [a in b] for two strings: [a] occurs in [b] as a substring. *)
Fixpoint contains (a b : string) : bool :=
  String.prefix a b ||
  match b with
  | EmptyString => false
  | String _ b' => contains a b'
  end.

(** [s.replace(old, new)] for a non-empty [old]: occurrences are found
    left to right and do not overlap; [skip] counts the characters of the
    occurrence just replaced that are still to be dropped. *)
Fixpoint replace_go (old new s : string) (skip : nat) : string :=
  match s with
  | EmptyString => EmptyString
  | String c s' =>
      match skip with
      | S k => replace_go old new s' k
      | O =>
          if String.prefix old s
          then new ++ replace_go old new s' (Nat.pred (String.length old))
          else String c (replace_go old new s' 0)
      end
  end.

Definition replace (old new s : string) : string := replace_go old new s 0.

(** [s.split(sep)] for a one-character separator: always at least one
    piece, empty pieces are kept. *)
Fixpoint split (sep : ascii) (s : string) : list string :=
  match s with
  | EmptyString => [EmptyString]
  | String c s' =>
      if Ascii.eqb c sep then EmptyString :: split sep s'
      else match split sep s' with
           | p :: ps => String c p :: ps
           | [] => [String c EmptyString]
           end
  end.

(** ASCII whitespace as [str.strip] sees it: space, \t \n \v \f \r and
    the separators \x1c..\x1f. *)
Definition is_space (c : ascii) : bool :=
  let n := nat_of_ascii c in
  (Nat.eqb n 32 || (Nat.leb 9 n && Nat.leb n 13) || (Nat.leb 28 n && Nat.leb n 31))%bool.

Fixpoint lstrip (s : string) : string :=
  match s with
  | EmptyString => EmptyString
  | String c s' => if is_space c then lstrip s' else s
  end.

(** [rstrip]: a character stays when it is not a space or when something
    stays after it. *)
Fixpoint rstrip (s : string) : string :=
  match s with
  | EmptyString => EmptyString
  | String c s' =>
      match rstrip s' with
      | EmptyString => if is_space c then EmptyString else String c EmptyString
      | r => String c r
      end
  end.

Definition strip (s : string) : string := rstrip (lstrip s).

(** Index normalisation of a slice bound against a sequence of length
    [n]: negative bounds count from the end, everything is clamped to
    [0..n]. *)
Definition clamp (n i : Z) : Z :=
  if i <? 0 then Z.max (i + n) 0 else Z.min i n.

(** [l[a:b]]. *)
Definition slice {A} (l : list A) (a b : Z) : list A :=
  let n := Z.of_nat (length l) in
  let lo := clamp n a in
  let hi := clamp n b in
  firstn (Z.to_nat (hi - lo)) (skipn (Z.to_nat lo) l).

(** [l[:b]]. *)
Definition slice_to {A} (l : list A) (b : Z) : list A :=
  firstn (Z.to_nat (clamp (Z.of_nat (length l)) b)) l.

(** [a // b] for [b > 0] is [Z.div] (floor division). *)
Definition floordiv (a b : Z) : Z := a / b.

(** The double quote. *)
Definition double_quote : ascii := ascii_of_nat 34.

Definition hex_digit (n : nat) : ascii :=
  ascii_of_nat (if Nat.ltb n 10 then 48 + n else 87 + n).

(** One character of [repr(s)]: the enclosing quote and the backslash
    are escaped, \t \n \r are written with their letter, the other control
    characters and \x7f as [\xhh]. *)
Definition repr_char (quote c : ascii) : string :=
  let n := nat_of_ascii c in
  if (Ascii.eqb c quote || Ascii.eqb c "\")%bool then String "\" (String c EmptyString)
  else if Nat.eqb n 9 then "\t"
  else if Nat.eqb n 10 then "\n"
  else if Nat.eqb n 13 then "\r"
  else if (Nat.ltb n 32 || Nat.eqb n 127)%bool then
    String "\" (String "x" (String (hex_digit (n / 16))
                             (String (hex_digit (n mod 16)) EmptyString)))
  else String c EmptyString.

Fixpoint has_char (c : ascii) (s : string) : bool :=
  match s with
  | EmptyString => false
  | String c' s' => Ascii.eqb c c' || has_char c s'
  end.

Fixpoint repr_body (quote : ascii) (s : string) : string :=
  match s with
  | EmptyString => String quote EmptyString
  | String c s' => repr_char quote c ++ repr_body quote s'
  end.

(** [repr(s)] of an ASCII string: in single quotes, unless the string
    has a single quote and no double quote. *)
Definition repr (s : string) : string :=
  let quote :=
    if (has_char "'" s && negb (has_char double_quote s))%bool
    then double_quote else "'"%char in
  String quote (repr_body quote s).

End Py.

(** ** Data model: what the code reads from a marketplace order *)

(** A line of an order ([order['lines'][i]]).  A field is [None] when the
    key is absent; the code supplies the default at each [line.get]. *)
Record Line := {
  sku : option string;
  merchantSku : option string;
  barcode : option string;
  productName : option string;
  quantity : option Z;
  price : option Z;
  vatRate : option string;
}.

Record Address := {
  address1 : option string;
  city : option string;
  district : option string;
  postalCode : option string;
  countryCode : option string;
}.

Record Order := {
  id : option Z;
  orderNumber : option string;
  orderDate : option Z;
  currencyCode : option string;
  invoiceLink : option string;
  lines : list Line;
  invoiceAddress : Address;
  shipmentAddress : Address;
  customerFirstName : option string;
  customerLastName : option string;
  customerEmail : option string;
}.

#[global] Instance Line_eq_dec : EqDecision Line.
Proof. solve_decision. Defined.
#[global] Instance Address_eq_dec : EqDecision Address.
Proof. solve_decision. Defined.
#[global] Instance Order_eq_dec : EqDecision Order.
Proof. solve_decision. Defined.

(** [d.get(k, '')] on an optional string field. *)
Definition get_str (o : option string) : string := default "" o.

(** ** [trendyol_service.py] *)

Module TrendyolService.

(** Query parameters of one request to the order endpoint
    ([orderByField] and [orderByDirection] are constants of the code). *)
Record Params := {
  p_page : Z;
  p_size : Z;
  p_status : option string;
  p_startDate : option string;
  p_endDate : option string;
  p_orderNumber : option string;
}.

(** The page record: the JSON body of the provider and the dictionary
    the client builds after filtering or merging. *)
Record Page := {
  content : list Order;
  page : Z;
  size : Z;
  totalElements : Z;
  totalPages : Z;
}.

(** Outcome of [requests.get] followed by [raise_for_status] and
    [json()]: a body, an [HTTPError] (status code and text), or another
    [RequestException]. *)
Inductive Response :=
| Resp200 (body : Page)
| RespHTTPError (code : Z) (text : string)
| RespRequestException (text : string).

(** What [get_orders] returns: [{'error': .., 'status': ..}] or a page. *)
Inductive OrdersResult :=
| OrdersError (error : string) (status : Z)
| OrdersPage (p : Page).

(** [bool(response)] is [response.ok]: false for the codes on which
    [raise_for_status] raises. *)
Definition response_ok (code : Z) : bool :=
  negb ((400 <=? code) && (code <? 600)).

(** [e.response.status_code if e.response else 500]. *)
Definition http_error_status (code : Z) : Z :=
  if response_ok code then code else 500.

(** The test of the client-side SKU filter on one line. *)
Definition line_matches (sku_filter : string) (l : Line) : bool :=
  Py.contains (Py.lower sku_filter) (Py.lower (get_str (merchantSku l)))
  || Py.contains (Py.lower sku_filter) (Py.lower (get_str (barcode l))).

(** The inner [for line in lines: if ..: append; break]. *)
Definition order_matches (sku_filter : string) (o : Order) : bool :=
  existsb (line_matches sku_filter) (lines o).

Definition sku_filter_orders (sku_filter : string) (l : list Order) : list Order :=
  List.filter (order_matches sku_filter) l.

(** [(total + size - 1) // size if size > 0 else 0]. *)
Definition total_pages (total size : Z) : Z :=
  if 0 <? size then Py.floordiv (total + size - 1) size else 0.

(** The page dictionary built from an in-memory list. *)
Definition paginate (l : list Order) (page size : Z) : Page :=
  let start_idx := page * size in
  let end_idx := start_idx + size in
  let paginated_orders := Py.slice l start_idx end_idx in
  {| content := paginated_orders;
     page := page;
     size := Z.of_nat (length paginated_orders);
     totalElements := Z.of_nat (length l);
     totalPages := total_pages (Z.of_nat (length l)) size |}.

(** [order.get('id') or order.get('orderNumber')]: the id unless it is
    absent or zero, otherwise the order number (possibly absent). *)
Definition order_key (o : Order) : option (Z + string) :=
  match id o with
  | Some i => if i =? 0 then inr <$> orderNumber o else Some (inl i)
  | None => inr <$> orderNumber o
  end.

(** [x.get('orderDate', 0)]. *)
Definition date_key (o : Order) : Z := default 0 (orderDate o).

(** [list.sort(key=..)] is stable: an element goes before the first
    element whose key is not smaller. *)
Fixpoint insert_by_date (x : Order) (l : list Order) : list Order :=
  match l with
  | [] => [x]
  | y :: l' =>
      if date_key x <=? date_key y then x :: y :: l'
      else y :: insert_by_date x l'
  end.

Fixpoint sort_by_date (l : list Order) : list Order :=
  match l with
  | [] => []
  | x :: l' => insert_by_date x (sort_by_date l')
  end.

(** Result of the fetch-all loop of the SKU path. *)
Inductive FetchAll :=
| FetchFailed (error : string) (status : Z)
| Fetched (all_orders : list Order).

Section Client.

(** The marketplace, as seen through [requests.get]. *)
Variable upstream : Params -> Response.
(** [self._format_date]. *)
Variable format_date : string -> string.

Definition fetch_size : Z := 200.

(** [params] of the single-status path. *)
Definition single_params (page size : Z)
    (status start_date end_date order_number : string) : Params :=
  {| p_page := page;
     p_size := size;
     p_status := if Py.truthy status then Some status else None;
     p_startDate := if Py.truthy start_date then Some (format_date start_date) else None;
     p_endDate := if Py.truthy end_date then Some (format_date end_date) else None;
     p_orderNumber := if Py.truthy order_number then Some order_number else None |}.

(** [params] of one request of the multi-status path. *)
Definition multi_params (fetch_page : Z)
    (status start_date end_date order_number : string) : Params :=
  {| p_page := fetch_page;
     p_size := fetch_size;
     p_status := Some status;
     p_startDate := if Py.truthy start_date then Some (format_date start_date) else None;
     p_endDate := if Py.truthy end_date then Some (format_date end_date) else None;
     p_orderNumber := if Py.truthy order_number then Some order_number else None |}.

Definition with_page (params : Params) (fetch_page : Z) : Params :=
  {| p_page := fetch_page;
     p_size := fetch_size;
     p_status := p_status params;
     p_startDate := p_startDate params;
     p_endDate := p_endDate params;
     p_orderNumber := p_orderNumber params |}.

(** The [while True] of the SKU path of [get_orders]. *)
Fixpoint sku_fetch_loop (fuel : nat) (params : Params) (fetch_page : Z)
    (all_orders : list Order) : option FetchAll :=
  match fuel with
  | O => None
  | S fuel' =>
      match upstream (with_page params fetch_page) with
      | Resp200 result =>
          let all_orders' := (all_orders ++ content result)%list in
          if Z.of_nat (length (content result)) <? fetch_size
          then Some (Fetched all_orders')
          else sku_fetch_loop fuel' params (fetch_page + 1) all_orders'
      | RespHTTPError code text =>
          if fetch_page =? 0
          then Some (FetchFailed ("Failed to fetch orders: " ++ text)
                                 (http_error_status code))
          else Some (Fetched all_orders)
      | RespRequestException text =>
          if fetch_page =? 0
          then Some (FetchFailed ("Failed to fetch orders: " ++ text) 500)
          else Some (Fetched all_orders)
      end
  end.

(** The body of [for order in content] of the multi-status path:
    [all_orders] and [seen_order_ids]. *)
Definition add_unseen (acc : list Order * gset (option (Z + string)))
    (o : Order) : list Order * gset (option (Z + string)) :=
  if decide (order_key o ∈ acc.2) then acc
  else ((acc.1 ++ [o])%list, {[order_key o]} ∪ acc.2).

(** The [while True] of one status of [_get_orders_multiple_statuses]. *)
Fixpoint status_fetch_loop (fuel : nat) (status start_date end_date
    order_number : string) (fetch_page : Z)
    (acc : list Order * gset (option (Z + string)))
    : option (list Order * gset (option (Z + string))) :=
  match fuel with
  | O => None
  | S fuel' =>
      match upstream (multi_params fetch_page status start_date end_date order_number) with
      | Resp200 result =>
          let acc' := fold_left add_unseen (content result) acc in
          if Z.of_nat (length (content result)) <? fetch_size
          then Some acc'
          else status_fetch_loop fuel' status start_date end_date
                 order_number (fetch_page + 1) acc'
      | RespHTTPError _ _ => Some acc
      | RespRequestException _ => Some acc
      end
  end.

(** [for status in statuses]. *)
Fixpoint statuses_loop (fuel : nat) (statuses : list string)
    (start_date end_date order_number : string)
    (acc : list Order * gset (option (Z + string)))
    : option (list Order * gset (option (Z + string))) :=
  match statuses with
  | [] => Some acc
  | status :: rest =>
      match status_fetch_loop fuel status start_date end_date order_number 0 acc with
      | Some acc' => statuses_loop fuel rest start_date end_date order_number acc'
      | None => None
      end
  end.

Definition _get_orders_multiple_statuses (fuel : nat)
    (statuses : list string) (page size : Z)
    (start_date end_date order_number sku_filter : string) : option Page :=
  match statuses_loop fuel statuses start_date end_date order_number ([], ∅) with
  | None => None
  | Some (all_orders, _) =>
      let all_orders :=
        if Py.truthy sku_filter then sku_filter_orders sku_filter all_orders
        else all_orders in
      Some (paginate (sort_by_date all_orders) page size)
  end.

(** [get_orders]; [None] only when a page loop runs out of fuel. *)
Definition get_orders (fuel : nat) (page size : Z)
    (status start_date end_date order_number sku_filter : string)
    : option OrdersResult :=
  if Py.truthy status && Py.contains "," status then
    OrdersPage <$>
      _get_orders_multiple_statuses fuel (map Py.strip (Py.split "," status))
        page size start_date end_date order_number sku_filter
  else
    let params := single_params page size status start_date end_date order_number in
    if Py.truthy sku_filter then
      match sku_fetch_loop fuel params 0 [] with
      | None => None
      | Some (FetchFailed error status) => Some (OrdersError error status)
      | Some (Fetched all_orders) =>
          Some (OrdersPage (paginate (sku_filter_orders sku_filter all_orders) page size))
      end
    else
      match upstream params with
      | Resp200 result => Some (OrdersPage result)
      | RespHTTPError code text =>
          Some (OrdersError ("Failed to fetch orders: " ++ text) (http_error_status code))
      | RespRequestException text =>
          Some (OrdersError ("Failed to fetch orders: " ++ text) 500)
      end.

End Client.

End TrendyolService.

(** ** [user_manager.py]: users and the [order_invoices] table *)

Module UserManager.

Record User := {
  id : Z;
  username : string;
  trendyol_api_key : option string;
  trendyol_api_secret : option string;
  trendyol_supplier_id : option string;
  smartbill_api_token : option string;
  smartbill_email : option string;
  smartbill_company_cif : option string;
  smartbill_gestiune : option string;
  role : string;
  is_authenticated : bool;
}.

Definition is_admin (self : User) : bool := String.eqb (role self) "admin".

(** A row of [order_invoices] ([created_at] is never read by the code
    modelled here). *)
Record Row := {
  row_id : Z;
  user_id : Z;
  order_id : string;
  invoice_series : string;
  invoice_number : string;
}.

(** The table and the [AUTOINCREMENT] counter. *)
Record DB := {
  rows : list Row;
  next_id : Z;
}.

Definition key_of (r : Row) : Z * string := (user_id r, order_id r).

Definition has_key (uid : Z) (oid : string) (r : Row) : bool :=
  (user_id r =? uid) && String.eqb (order_id r) oid.

(** [SELECT .. WHERE user_id = ? AND order_id = ?] followed by
    [fetchone()]. *)
Definition select_one (uid : Z) (oid : string) (db : DB) : option Row :=
  List.find (has_key uid oid) (rows db).

(** [SELECT order_id .. WHERE user_id = ?]. *)
Definition select_order_ids (uid : Z) (db : DB) : list string :=
  map order_id (List.filter (fun r => user_id r =? uid) (rows db)).

(** [DELETE .. WHERE user_id = ? AND order_id = ?]. *)
Definition delete_order (uid : Z) (oid : string) (db : DB) : DB :=
  {| rows := List.filter (fun r => negb (has_key uid oid r)) (rows db);
     next_id := next_id db |}.

(** [INSERT INTO order_invoices (user_id, order_id, invoice_series,
    invoice_number)]: [None] is the [IntegrityError] of
    [UNIQUE(user_id, order_id)]. *)
Definition insert (uid : Z) (oid series number : string) (db : DB) : option DB :=
  if existsb (has_key uid oid) (rows db) then None
  else Some {| rows := (rows db ++
                 [{| row_id := next_id db; user_id := uid; order_id := oid;
                     invoice_series := series; invoice_number := number |}])%list;
               next_id := next_id db + 1 |}.

(** [DELETE .. WHERE id = ? AND user_id = ?] with its [rowcount]. *)
Definition delete_by_id (rid uid : Z) (db : DB) : DB * nat :=
  let hit r := (row_id r =? rid) && (user_id r =? uid) in
  ({| rows := List.filter (fun r => negb (hit r)) (rows db);
      next_id := next_id db |},
   length (List.filter hit (rows db))).

(** [UPDATE .. SET order_id = ?, invoice_series = ?, invoice_number = ?
    WHERE id = ? AND user_id = ?]; [None] is the [IntegrityError] raised
    when the new key is already held by another row. *)
Definition update_by_id (rid uid : Z) (oid series number : string) (db : DB)
    : option DB :=
  let hit r := (row_id r =? rid) && (user_id r =? uid) in
  if existsb (fun r => hit r) (rows db)
     && existsb (fun r => has_key uid oid r && negb (row_id r =? rid)) (rows db)
  then None
  else Some {| rows := map (fun r =>
                 if hit r
                 then {| row_id := row_id r; user_id := user_id r; order_id := oid;
                         invoice_series := series; invoice_number := number |}
                 else r) (rows db);
               next_id := next_id db |}.

(** The schema's constraints: [UNIQUE(user_id, order_id)], the primary
    key, and ids below the [AUTOINCREMENT] counter. *)
Definition unique_keys (db : DB) : Prop := NoDup (map key_of (rows db)).

Definition well_formed (db : DB) : Prop :=
  unique_keys db
  /\ NoDup (map row_id (rows db))
  /\ Forall (fun r => row_id r < next_id db) (rows db).

(** Number of rows recorded for one (user, order). *)
Definition count_rows (uid : Z) (oid : string) (db : DB) : nat :=
  length (List.filter (has_key uid oid) (rows db)).

End UserManager.

(** ** [smartbill_service.py] *)

Module SmartBillService.

Record Service := {
  api_token : option string;
  email : option string;
  company_cif : option string;
}.

(** One product line of the invoice payload. *)
Record Product := {
  p_code : string;
  p_name : string;
  p_productDescription : string;
  p_measuringUnitName : string;
  p_currency : string;
  p_quantity : Z;
  p_price : Z;
  p_isTaxIncluded : bool;
  p_taxPercentage : string;
  p_saveToDb : bool;
  p_warehouseName : string;
}.

Record Client := {
  c_name : string;
  c_vatCode : string;
  c_isTaxPayer : bool;
  c_address : string;
  c_city : string;
  c_county : string;
  c_country : string;
  c_email : string;
  c_saveToDb : bool;
}.

(** The invoice-creation payload ([invoice_data]). *)
Record InvoiceData := {
  companyVatCode : string;
  useIntraCif : bool;
  seriesName : string;
  client : Client;
  issueDate : string;
  currency : string;
  useStock : bool;
  products : list Product;
  inv_orderNumber : string;
}.

(** The dictionary [create_invoice] returns: the provider's JSON body or
    [{'error': ..}]; only these keys are read by the callers. *)
Record InvoiceJson := {
  j_error : option string;
  j_series : option string;
  j_number : option string;
}.

Definition error_dict (msg : string) : InvoiceJson :=
  {| j_error := Some msg; j_series := None; j_number := None |}.

(** Outcome of [requests.post]: a response (status, text, parsed body),
    a [RequestException], or an exception of another class. *)
Inductive HttpOutcome :=
| Http (status_code : Z) (text : string) (json : InvoiceJson)
| HttpRequestException (text : string)
| HttpOtherException (text : string).

(** A call either returns a dictionary or lets an exception through. *)
Inductive CallResult :=
| Returned (result : InvoiceJson)
| Raised (text : string).

(** What [get_document_series] hands back to the draft builder: a
    dictionary with or without a ['list'] of series (each with or without a
    ['name']), or an exception. *)
Inductive SeriesResult :=
| SeriesDict (list_ : option (list (option string)))
| SeriesRaised.

Definition has_headers (self : Service) : bool :=
  Py.truthy_opt (email self) && Py.truthy_opt (api_token self).

Definition str_of_Z (z : Z) : string :=
  DecimalString.NilZero.string_of_int (Z.to_int z).

(** [text[:200]]. *)
Definition text200 (text : string) : string := String.substring 0 200 text.

Section Provider.

(** The invoicing provider behind [requests.post(.../invoice)] and
    behind the request of [get_document_series]. *)
Variable post_invoice : InvoiceData -> HttpOutcome.
Variable series_request : Service -> SeriesResult.

Definition get_document_series (self : Service) : SeriesResult :=
  if negb (has_headers self) then SeriesDict None
  else if negb (Py.truthy_opt (company_cif self)) then SeriesDict None
  else series_request self.

Definition create_invoice (self : Service) (invoice_data : InvoiceData)
    : CallResult :=
  if negb (has_headers self) then
    Returned (error_dict "Invalid SmartBill credentials (missing email or API token)")
  else if negb (Py.truthy_opt (company_cif self)) then
    Returned (error_dict "Missing company CIF")
  else
    match post_invoice invoice_data with
    | Http status_code text json =>
        if status_code =? 200 then Returned json
        else if status_code =? 400 then
          Returned (error_dict ("Bad request - invalid invoice data: " ++ text))
        else if status_code =? 401 then
          Returned (error_dict ("Invalid SmartBill credentials (401): " ++ text200 text))
        else if status_code =? 403 then
          Returned (error_dict ("Access forbidden (403): " ++ text200 text))
        else
          Returned (error_dict ("SmartBill API error: " ++ str_of_Z status_code
                                  ++ " - " ++ text200 text))
    | HttpRequestException text =>
        Returned (error_dict ("Connection error: " ++ text))
    | HttpOtherException text => Raised text
    end.

End Provider.

End SmartBillService.

(** ** [app.py] *)

Module App.

Import UserManager SmartBillService.

(** [a or b] on two strings. *)
Definition por (a b : string) : string := if Py.truthy a then a else b.

(** [a or b] where [a] may also be [None]. *)
Definition por_opt (a : option string) (b : string) : string :=
  match a with Some s => por s b | None => b end.

Definition check_credentials (current_user : User) : bool :=
  if negb (is_authenticated current_user) then false
  else if is_admin current_user then false
  else Py.truthy_opt (trendyol_api_key current_user)
       && Py.truthy_opt (trendyol_api_secret current_user)
       && Py.truthy_opt (trendyol_supplier_id current_user).

Definition check_smartbill_credentials (current_user : User) : bool :=
  if negb (is_authenticated current_user) then false
  else if is_admin current_user then false
  else Py.truthy_opt (smartbill_api_token current_user)
       && Py.truthy_opt (smartbill_email current_user)
       && Py.truthy_opt (smartbill_company_cif current_user).

(** The [if]/[elif] chain on [line.get('sku', '')] of
    [generate_invoice_data_from_order], branch by branch, in order. *)
Definition sku_overrides : list (string * string) :=
  [ ("TYBE5ZISTJCR2Q5O74", "6290360593661");
    ("TYBZTU26IL7M50OR26", "6290360599168");
    ("TYBOOEG4YXK6HCXL86", "6291108735411");
    ("PMPE7SEBBAN4ZPP211", "6290360599120");
    ("TYBO6S9ZD26OA6NI63", "6290360598888");
    ("TYB46RAYZ8NJKLLI50", "6290362345749");
    ("776291108737194", "6291108737194");
    ("PMPGPLCV5FBWOBKL66", "6290306595771");
    ("TYB50R0MDLQTMSGA13", "6290362345749");
    ("TYBMF5JUXY6R2ILI26", "6290362345749");
    ("TYBG2PCBBTTXM2Z558", "6298043160865");
    ("TYBOOEG4YXK6HCXL86", "6291108735411");
    ("TYBUZOW2O04GCF0H47", "6290306595771");
    ("DH-6290362340362", "6290362340362");
    ("DH-6291107456485", "6291107456485");
    ("DH-6290362345749", "6290362345749");
    ("TYB50R0MDLQTMSGA13", "6290362345749");
    ("344259RYI9KM4NWZ", "6290362340362");
    ("TYBDVN19MS50NE4L05", "6291108737194");
    ("PMPNUJML9VHN1WSL78", "6290362346548");
    ("TYBY6WXHAX51S4K146", "6290362346548");
    ("TYBO6S9ZD26OA6NI63", "6290360598888");
    ("TYBZTU26IL7M50OR26", "6290360599168");
    ("DH-6295199802700", "6295199802700");
    ("DH-6294015181272", "6294015181272");
    ("DH-6291108738504", "6291108738504");
    ("DH-6290360598918", "6290360598918");
    ("899365NXPSOQXOR5", "6290360599113");
    ("344259RYI9KM4NWZ", "6290362340362");
    ("DH-6290362340638", "6290362340638");
    ("TYBC9FYOAYWMH5V824", "6298043160865");
    ("2992155993566", "6290362349679");
    ("54512289WHIP1", "6290362349648");
    ("PMPX7MWI02JJOZ5O03", "6290360595764");
    ("PMPCHUVPFHKM851K80", "6290362340638");
    ("4064666318097", "1100011127");
    ("TYBVLGRVD5MIVGV049", "6290360598901");
    ("TYB1LV9CP4QBMKDL08", "6298043160964");
    ("PMPIHBSEOOZSJJB821", "6290362344506");
    ("PMP9V4UX54QSMIVM71", "6290362346531");
    ("TYBNTUAF3RG4369H97", "6291108737194");
    ("TYBNTUAF3RG4369H97", "6291108730515");
    ("TYBN0O65AFCYAWO087", "6298043160964");
    ("TYB61GZIOG8D9CHN23", "6298043160964");
    ("TYC14OQK3N169892658027912", "6291108738290") ].

(** An [if]/[elif] chain of equality tests: the first branch whose key
    equals [k] is taken. *)
Fixpoint elif_chain (k : string) (branches : list (string * string))
    : option string :=
  match branches with
  | [] => None
  | (key, value) :: rest =>
      if String.eqb k key then Some value else elif_chain k rest
  end.

(** [codul] after the statements of the loop body that assign it. *)
Definition codul (line : Line) : string :=
  let codul := get_str (merchantSku line) in
  let codul :=
    if String.eqb (get_str (merchantSku line)) "merchantSku"
    then get_str (sku line) else codul in
  match elif_chain (get_str (sku line)) sku_overrides with
  | Some code => code
  | None => codul
  end.

(** The series name with the OSS suffix:
    [series_name.replace('-OSS', '') + '-OSS']. *)
Definition oss_suffix (series_name : string) : string :=
  Py.replace "-OSS" "" series_name ++ "-OSS".

Section Draft.

(** [coduripostale.net]: city and county of a postal code when the
    page has them, [None] on any failure. *)
Variable postal_lookup : string -> option (string * string).
Variable post_invoice : InvoiceData -> HttpOutcome.
Variable series_request : Service -> SeriesResult.
Variable getenv : string -> option string.
(** [date.today().isoformat()]. *)
Variable today : string.
Variable current_user : User.

(** [SmartBillService.__init__]: an argument or the environment. *)
Definition new_service (api_token email company_cif : option string) : Service :=
  let pick a name := if Py.truthy_opt a then a else getenv name in
  {| api_token := pick api_token "SMARTBILL_API_TOKEN";
     email := pick email "SMARTBILL_EMAIL";
     company_cif := pick company_cif "SMARTBILL_COMPANY_CIF" |}.

Definition get_smartbill_service : option Service :=
  if negb (is_authenticated current_user) then None
  else Some (new_service (smartbill_api_token current_user)
                         (smartbill_email current_user)
                         (smartbill_company_cif current_user)).

Definition product_of_line (order : Order) (warehouse_name : string)
    (line : Line) : Product :=
  {| p_code := codul line;
     p_name := get_str (productName line);
     p_productDescription :=
       "Numar comanda Trendyol:" ++ get_str (orderNumber order);
     p_measuringUnitName := "buc";
     p_currency := default "RON" (currencyCode order);
     p_quantity := default 1 (quantity line);
     p_price := default 0 (price line);
     p_isTaxIncluded := true;
     p_taxPercentage := get_str (vatRate line);
     p_saveToDb := false;
     p_warehouseName := warehouse_name |}.

(** The series name before the OSS rule: the name of the first series
    the provider lists, or the placeholder. *)
Definition first_series_name : string :=
  let series_name := "SERIE_FACTURA" in
  match get_smartbill_service with
  | None => series_name
  | Some smartbill_service =>
      match get_document_series series_request smartbill_service with
      | SeriesDict (Some (first_series :: _)) => default series_name first_series
      | _ => series_name
      end
  end.

Definition generate_invoice_data_from_order (order : Order) (user : User)
    (use_gestiune : bool) : InvoiceData :=
  let warehouse_name :=
    if use_gestiune then por_opt (smartbill_gestiune user) "" else "" in
  let foloseste_stock := use_gestiune in
  let products := map (product_of_line order warehouse_name) (lines order) in
  let invoice_addr := invoiceAddress order in
  let shipment_addr := shipmentAddress order in
  let city0 := por (get_str (city invoice_addr)) (get_str (city shipment_addr)) in
  let county0 := por (get_str (district invoice_addr)) (get_str (district shipment_addr)) in
  let postal_code :=
    por (get_str (postalCode invoice_addr)) (get_str (postalCode shipment_addr)) in
  let '(city1, county1) :=
    if Py.truthy postal_code then
      match postal_lookup postal_code with
      | Some (c2, c3) => (if Py.truthy city0 then city0 else c2, c3)
      | None => (city0, county0)
      end
    else (city0, county0) in
  let company_vat_code := por_opt (smartbill_company_cif user) "YOUR_COMPANY_VAT_CODE" in
  let is_oss := negb (bool_decide (currencyCode order = Some "RON"
                                   \/ currencyCode order = None)) in
  let series_name := first_series_name in
  let series_name := if is_oss then oss_suffix series_name else series_name in
  let customer_name :=
    por (Py.strip (get_str (customerFirstName order) ++ " "
                   ++ get_str (customerLastName order))) "N/A" in
  let vat_code := "-" in
  {| companyVatCode := company_vat_code;
     useIntraCif := is_oss;
     seriesName := series_name;
     client :=
       {| c_name := customer_name;
          c_vatCode := vat_code;
          c_isTaxPayer := false;
          c_address := por (get_str (address1 invoice_addr))
                           (get_str (address1 shipment_addr));
          c_city := city1;
          c_county := county1;
          c_country := por (por (get_str (countryCode invoice_addr))
                                (get_str (countryCode shipment_addr))) "RO";
          c_email := get_str (customerEmail order);
          c_saveToDb := true |};
     issueDate := today;
     currency := get_str (currencyCode order);
     useStock := foloseste_stock;
     products := products;
     inv_orderNumber := get_str (orderNumber order) |}.

End Draft.

(** *** [bulk_send_to_smartbill] *)

(** The JSON body of the request. *)
Record BulkRequest := {
  order_count : Z;
  rq_status : string;
  rq_startDate : string;
  rq_endDate : string;
  rq_orderNumber : string;
  rq_sku : string;
}.

(** Calls that leave the process, in the order they are made. *)
Inductive Event :=
| GetOrders (page : Z)
| GenerateInvoiceData (order : Order)
| CreateInvoice (invoice_data : InvoiceData).

(** The response: [{'error': ..}] with a status, or the summary
    [{'success': True, 'total': .., 'successful': .., 'failed': ..,
    'errors': ..}]. *)
Inductive BulkResponse :=
| BulkError (error : string) (status : Z)
| BulkSummary (total successful failed : Z) (errors : list string).

(** The variables of the per-order loop. *)
Record BulkState := {
  successful : Z;
  failed : Z;
  errors : list string;
  db : DB;
  trace : list Event;
}.

(** [f"Order {order.get('orderNumber', 'N/A')}: {msg}"]. *)
Definition error_line (order : Order) (msg : string) : string :=
  "Order " ++ default "N/A" (orderNumber order) ++ ": " ++ msg.

(** [failed += 1; errors.append(..)]. *)
Definition count_failure (st : BulkState) (order : Order) (msg : string) : BulkState :=
  {| successful := successful st;
     failed := failed st + 1;
     errors := (errors st ++ [error_line order msg])%list;
     db := db st;
     trace := trace st |}.

Definition log (st : BulkState) (evs : list Event) : BulkState :=
  {| successful := successful st;
     failed := failed st;
     errors := errors st;
     db := db st;
     trace := (trace st ++ evs)%list |}.

(** The filter of [orders_without_invoice]. *)
Definition needs_invoice (existing_invoice_orders : gset string) (order : Order) : bool :=
  negb (bool_decide (get_str (orderNumber order) ∈ existing_invoice_orders))
  && negb (Py.truthy_opt (invoiceLink order)).

Section Bulk.

Variable upstream : TrendyolService.Params -> TrendyolService.Response.
Variable format_date : string -> string.
Variable postal_lookup : string -> option (string * string).
Variable post_invoice : InvoiceData -> HttpOutcome.
Variable series_request : Service -> SeriesResult.
Variable getenv : string -> option string.
Variable today : string.
(** The text of the exception the [sqlite3] block raises while the
    mapping of an order is recorded, if it raises. *)
Variable sqlite_fault : Order -> option string.
Variable current_user : User.

(** The [while True] that gathers the orders, 200 per call. *)
Fixpoint gather_orders (page_fuel fuel : nat) (rq : BulkRequest) (page : Z)
    (all_orders : list Order) (tr : list Event)
    : option ((string + list Order) * list Event) :=
  match fuel with
  | O => None
  | S fuel' =>
      let tr := (tr ++ [GetOrders page])%list in
      match TrendyolService.get_orders upstream format_date page_fuel page 200
              (rq_status rq) (rq_startDate rq) (rq_endDate rq)
              (rq_orderNumber rq) (rq_sku rq) with
      | None => None
      | Some (TrendyolService.OrdersError error _) =>
          Some (inl ("Failed to fetch orders: " ++ error), tr)
      | Some (TrendyolService.OrdersPage result) =>
          let orders := TrendyolService.content result in
          match orders with
          | [] => Some (inr all_orders, tr)
          | _ =>
              let all_orders := (all_orders ++ orders)%list in
              if Z.of_nat (length orders) <? 200 then Some (inr all_orders, tr)
              else gather_orders page_fuel fuel' rq (page + 1) all_orders tr
          end
      end
  end.

(** The [sqlite3] block of the loop: delete the row of this user and
    order, insert the new one, commit.  [inr] is the exception. *)
Definition record_mapping (order : Order) (series number order_number : string)
    (d : DB) : DB + string :=
  match sqlite_fault order with
  | Some text => inr text
  | None =>
      match insert (id current_user) order_number series number
              (delete_order (id current_user) order_number d) with
      | Some d' => inl d'
      | None => inr "UNIQUE constraint failed: order_invoices.user_id, order_invoices.order_id"
      end
  end.

(** The body of [for order in orders_to_process]. *)
Definition process_order (st : BulkState) (order : Order) : BulkState :=
  let user := current_user in
  let invoice_data :=
    generate_invoice_data_from_order postal_lookup series_request getenv today
      current_user order user true in
  let st := log st [GenerateInvoiceData order] in
  match get_smartbill_service getenv current_user with
  | None => count_failure st order "'NoneType' object has no attribute 'create_invoice'"
  | Some smartbill_service =>
      let st := log st [CreateInvoice invoice_data] in
      match create_invoice post_invoice smartbill_service invoice_data with
      | Raised text => count_failure st order text
      | Returned result =>
          match j_error result with
          | Some error => count_failure st order error
          | None =>
              let st := {| successful := successful st + 1;
                           failed := failed st;
                           errors := errors st;
                           db := db st;
                           trace := trace st |} in
              let series := get_str (j_series result) in
              let number := get_str (j_number result) in
              let order_number := get_str (orderNumber order) in
              if Py.truthy series && Py.truthy number && Py.truthy order_number then
                match record_mapping order series number order_number (db st) with
                | inl d' => {| successful := successful st;
                               failed := failed st;
                               errors := errors st;
                               db := d';
                               trace := trace st |}
                | inr text => count_failure st order text
                end
              else st
          end
      end
  end.

Definition existing_invoice_orders (d : DB) : gset string :=
  list_to_set (select_order_ids (id current_user) d).

(** [orders_without_invoice[:order_count]]. *)
Definition orders_to_process (rq : BulkRequest) (d : DB)
    (all_orders : list Order) : list Order :=
  Py.slice_to (List.filter (needs_invoice (existing_invoice_orders d)) all_orders)
              (order_count rq).

Definition initial_state (d : DB) (tr : list Event) : BulkState :=
  {| successful := 0; failed := 0; errors := []; db := d; trace := tr |}.

Definition summary (to_process : list Order) (st : BulkState) : BulkResponse :=
  BulkSummary (Z.of_nat (length to_process)) (successful st) (failed st)
              (Py.slice_to (errors st) 10).

(** The endpoint: the response, the table afterwards and the calls
    made.  [None] only when a page loop runs out of fuel. *)
Definition bulk_send_to_smartbill (page_fuel fuel : nat) (rq : BulkRequest)
    (d : DB) : option (BulkResponse * DB * list Event) :=
  if negb (check_credentials current_user) then
    Some (BulkError "Trendyol credentials not configured." 401, d, [])
  else if negb (check_smartbill_credentials current_user) then
    Some (BulkError "SmartBill credentials not configured." 401, d, [])
  else
    match gather_orders page_fuel fuel rq 0 [] [] with
    | None => None
    | Some (inl error, tr) => Some (BulkError error 500, d, tr)
    | Some (inr all_orders, tr) =>
        let to_process := orders_to_process rq d all_orders in
        let st := fold_left process_order to_process (initial_state d tr) in
        Some (summary to_process st, db st, trace st)
    end.

End Bulk.

(** *** The other writers of [order_invoices] *)

(** A JSON reply with its status, or a redirect. *)
Inductive Reply :=
| Json (status : Z) (error : option string) (message : option string)
| RedirectTo (endpoint : string).

(** The decorator [admin_required]. *)
Definition admin_required (current_user : User) (f : Reply * DB) (d : DB)
    : Reply * DB :=
  if negb (is_authenticated current_user) || negb (is_admin current_user)
  then (RedirectTo "index", d)
  else f.

Definition admin_add_invoice (current_user : User)
    (form_order_id form_series form_number : string) (d : DB) : Reply * DB :=
  admin_required current_user
    (let order_id := Py.strip form_order_id in
     let series := Py.strip form_series in
     let number := Py.strip form_number in
     if negb (Py.truthy order_id) || negb (Py.truthy series) || negb (Py.truthy number)
     then (Json 400 (Some "All fields are required") None, d)
     else
       match select_one (id current_user) order_id d with
       | Some _ =>
           (Json 409 (Some ("Invoice already exists for order " ++ order_id)) None, d)
       | None =>
           match insert (id current_user) order_id series number d with
           | Some d' => (Json 200 None (Some "Invoice added successfully"), d')
           | None => (Json 500 (Some "UNIQUE constraint failed") None, d)
           end
       end) d.

Definition admin_edit_invoice (current_user : User) (invoice_id : Z)
    (form_order_id form_series form_number : string) (d : DB) : Reply * DB :=
  admin_required current_user
    (let order_id := Py.strip form_order_id in
     let series := Py.strip form_series in
     let number := Py.strip form_number in
     if negb (Py.truthy order_id) || negb (Py.truthy series) || negb (Py.truthy number)
     then (Json 400 (Some "All fields are required") None, d)
     else if negb (existsb (fun r => (row_id r =? invoice_id)
                                     && (user_id r =? id current_user)) (rows d))
     then (Json 404 (Some "Invoice not found") None, d)
     else if existsb (fun r => has_key (id current_user) order_id r
                               && negb (row_id r =? invoice_id)) (rows d)
     then (Json 409 (Some ("Invoice already exists for order " ++ order_id)) None, d)
     else
       match update_by_id invoice_id (id current_user) order_id series number d with
       | Some d' => (Json 200 None (Some "Invoice updated successfully"), d')
       | None => (Json 500 (Some "UNIQUE constraint failed") None, d)
       end) d.

Definition admin_delete_invoice (current_user : User) (invoice_id : Z) (d : DB)
    : Reply * DB :=
  admin_required current_user
    (let '(d', rowcount) := delete_by_id invoice_id (id current_user) d in
     if Nat.eqb rowcount 0 then (Json 404 (Some "Invoice not found") None, d)
     else (Json 200 None (Some "Invoice deleted successfully"), d')) d.

Section CreateOne.

Variable post_invoice : InvoiceData -> HttpOutcome.
Variable getenv : string -> option string.
Variable current_user : User.

(** [create_smartbill_invoice]: the payload comes from the request. *)
Definition create_smartbill_invoice (invoice_data : InvoiceData) (d : DB)
    : Reply * DB :=
  if negb (check_smartbill_credentials current_user) then
    (Json 401 (Some "SmartBill credentials not configured.") None, d)
  else
    let order_id := inv_orderNumber invoice_data in
    if negb (Py.truthy order_id) then
      (Json 400 (Some "Order number is required") None, d)
    else
      match select_one (id current_user) order_id d with
      | Some _ =>
          (Json 409 (Some ("Invoice already exists for order " ++ order_id)) None, d)
      | None =>
          match get_smartbill_service getenv current_user with
          | None =>
              (Json 500 (Some "'NoneType' object has no attribute 'create_invoice'") None, d)
          | Some smartbill_service =>
              match create_invoice post_invoice smartbill_service invoice_data with
              | Raised text => (Json 500 (Some text) None, d)
              | Returned result =>
                  match j_error result with
                  | Some error => (Json 500 (Some error) None, d)
                  | None =>
                      let invoice_series := get_str (j_series result) in
                      let invoice_number := get_str (j_number result) in
                      match insert (id current_user) order_id invoice_series
                              invoice_number d with
                      | Some d' =>
                          (Json 200 None
                             (Some ("Invoice " ++ invoice_series ++ "-" ++ invoice_number
                                    ++ " created successfully")), d')
                      | None => (Json 500 (Some "UNIQUE constraint failed") None, d)
                      end
                  end
              end
          end
      end.

End CreateOne.

(** The orders for which the loop built a draft. *)
Fixpoint attempted (tr : list Event) : list Order :=
  match tr with
  | [] => []
  | GenerateInvoiceData order :: tr' => order :: attempted tr'
  | _ :: tr' => attempted tr'
  end.

End App.

(** ** The multi-status fetch as the specification words it *)

Module MultiStatusSpec.

Import TrendyolService.

(** De-duplication by order identifier: an order stays, and every later
    order with the same identifier goes. *)
Fixpoint dedup_by_key (l : list Order) : list Order :=
  match l with
  | [] => []
  | o :: l' =>
      o :: List.filter (fun x => negb (bool_decide (order_key x = order_key o)))
             (dedup_by_key l')
  end.

Section Spec.

Variable upstream : Params -> Response.
Variable format_date : string -> string.

(** One paginated fetch for one status: the pages in order, up to the
    first short page or the first failed request. *)
Fixpoint fetch_status (fuel : nat) (status start_date end_date
    order_number : string) (fetch_page : Z) : option (list Order) :=
  match fuel with
  | O => None
  | S fuel' =>
      match upstream (multi_params format_date fetch_page status start_date
                        end_date order_number) with
      | Resp200 result =>
          if Z.of_nat (length (content result)) <? fetch_size
          then Some (content result)
          else app (content result) <$>
                 fetch_status fuel' status start_date end_date order_number
                   (fetch_page + 1)
      | _ => Some []
      end
  end.

(** Fetch A and B separately, merge, de-duplicate, (filter by SKU,)
    sort by date, apply the page window. *)
Definition merged_fetch (fuel : nat) (A B : string) (page size : Z)
    (start_date end_date order_number sku_filter : string) : option Page :=
  match fetch_status fuel A start_date end_date order_number 0,
        fetch_status fuel B start_date end_date order_number 0 with
  | Some orders_a, Some orders_b =>
      let unique := dedup_by_key (orders_a ++ orders_b)%list in
      let kept :=
        if Py.truthy sku_filter then sku_filter_orders sku_filter unique
        else unique in
      Some (paginate (sort_by_date kept) page size)
  | _, _ => None
  end.

End Spec.

End MultiStatusSpec.

(** ** Vocabulary for the page loops *)

Module FetchSpec.

Import TrendyolService.

(** An order whose identifier is not in [seen]. *)
Definition unseen (seen : gset (option (Z + string))) (x : Order) : bool :=
  negb (bool_decide (order_key x ∈ seen)).

(** A response that raises in the [try] of a page loop. *)
Definition failed (r : Response) : bool :=
  match r with
  | Resp200 _ => false
  | RespHTTPError _ _ => true
  | RespRequestException _ => true
  end.

(** A response that ends a page loop: a failure, or fewer orders than
    [fetch_size]. *)
Definition stops (r : Response) : bool :=
  match r with
  | Resp200 result => Z.of_nat (length (content result)) <? fetch_size
  | RespHTTPError _ _ => true
  | RespRequestException _ => true
  end.

(** The order dates never decrease along the list. *)
Definition ascending_by_date (l : list Order) : Prop :=
  StronglySorted (fun x y => date_key x <= date_key y) l.

(** What the seen-set loop keeps true: the kept orders have distinct
    identifiers, all of them in the seen set. *)
Definition kept_are_seen (acc : list Order * gset (option (Z + string))) : Prop :=
  NoDup (map order_key acc.1) /\ forall o, In o acc.1 -> order_key o ∈ acc.2.

End FetchSpec.

(** ** Vocabulary for the invoicing endpoints *)

Module BatchSpec.

Import UserManager SmartBillService App.

(** An outcome of the invoice request other than a 200 response. *)
Definition rejected (outcome : HttpOutcome) : bool :=
  match outcome with
  | Http status_code _ _ => negb (status_code =? 200)
  | HttpRequestException _ => true
  | HttpOtherException _ => true
  end.

(** The rows of the table that belong to other users than [uid]. *)
Definition rows_of_others (uid : Z) (d : DB) : list Row :=
  List.filter (fun r => negb (user_id r =? uid)) (rows d).

(** An event of the gathering loop. *)
Definition is_fetch (e : Event) : bool :=
  match e with
  | GetOrders _ => true
  | _ => false
  end.

End BatchSpec.

(** ** Invoice PDFs and their upload to the marketplace *)

Module InvoiceUpload.

Import SmartBillService.

(** [str(order.get('id', '')).strip()]. *)
Definition package_id_of (order : Order) : string :=
  match id order with
  | Some i => Py.strip (str_of_Z i)
  | None => ""
  end.

Import UserManager App.

(** Outcome of [requests.get(.../invoice/pdf)]: a response (status,
    content, text), a [RequestException], or an exception of another
    class. *)
Inductive PdfOutcome :=
| PdfHttp (status_code : Z) (content text : string)
| PdfRequestException (text : string)
| PdfOtherException (text : string).

(** What [get_invoice_pdf] returns: the bytes or [{'error': ..}]. *)
Inductive PdfResult :=
| PdfContent (content : string)
| PdfError (error : string).

(** Outcome of the [requests.post] of [upload_invoice_file] followed by
    [raise_for_status]: a response that passes (its status), an [HTTPError]
    (status, text of the exception, the ['message'] of the JSON body if the
    body is JSON and has one), or another [RequestException]. *)
Inductive UploadOutcome :=
| UploadHttp (status_code : Z)
| UploadHTTPError (status_code : Z) (text : string) (message : option string)
| UploadRequestException (text : string).

(** What [upload_invoice_file] returns. *)
Inductive UploadResult :=
| UploadSuccess (status : Z)
| UploadError (error : string) (status : Z).

(** Whitespace as [int] skips it around a number: space and
    \t \n \v \f \r. *)
Definition int_space (c : ascii) : bool :=
  let n := nat_of_ascii c in
  (Nat.eqb n 32 || (Nat.leb 9 n && Nat.leb n 13))%bool.

Fixpoint skip_spaces (s : string) : string :=
  match s with
  | EmptyString => EmptyString
  | String c s' => if int_space c then skip_spaces s' else s
  end.

Definition digit_value (c : ascii) : option Z :=
  let n := nat_of_ascii c in
  if (Nat.leb 48 n && Nat.leb n 57)%bool then Some (Z.of_nat (n - 48)) else None.

(** The run of digits and underscores at the head of [s]: its value, the
    number of its digits and what follows it.  [None] when two underscores
    meet or the run ends with one. *)
Fixpoint scan_digits (s : string) (value digits : Z) (after_underscore : bool)
    : option (Z * Z * string) :=
  match s with
  | EmptyString => if after_underscore then None else Some (value, digits, s)
  | String c s' =>
      match digit_value c with
      | Some v => scan_digits s' (10 * value + v) (digits + 1) false
      | None =>
          if Ascii.eqb c "_" then
            if after_underscore then None else scan_digits s' value digits true
          else if after_underscore then None
          else Some (value, digits, s)
      end
  end.

(** [sys.int_info.default_max_str_digits] of CPython 3.11. *)
Definition max_str_digits : Z := 4300.

(** [int(s)] for a [str] of ASCII characters: spaces around the number,
    one optional sign, digits with single underscores between them.  [inr]
    is the text of the [ValueError]. *)
Definition py_int (s : string) : Z + string :=
  let invalid : Z + string :=
    inr ("invalid literal for int() with base 10: " ++ text200 (Py.repr s)) in
  let t := skip_spaces s in
  let '(negative, t) :=
    match t with
    | String "+" r => (false, r)
    | String "-" r => (true, r)
    | _ => (false, t)
    end in
  match t with
  | String "_" _ => invalid
  | _ =>
      match scan_digits t 0 0 false with
      | None => invalid
      | Some (value, digits, rest) =>
          if max_str_digits <? digits then
            inr ("Exceeds the limit (4300 digits) for integer string conversion: "
                 ++ "value has " ++ str_of_Z digits
                 ++ " digits; use sys.set_int_max_str_digits() to increase the limit")
          else if digits =? 0 then invalid
          else if Py.truthy (skip_spaces rest) then invalid
          else inl (if negative then - value else value)
      end
  end.

Section Providers.

Variable pdf_request : string -> string -> PdfOutcome.
Variable upload_request : Z -> string -> string -> UploadOutcome.

(** [SmartBillService.get_invoice_pdf]; [inr] is an exception that is
    not caught. *)
Definition get_invoice_pdf (self : Service) (series number : string)
    : PdfResult + string :=
  if negb (has_headers self) then
    inl (PdfError "Invalid SmartBill credentials (missing email or API token)")
  else if negb (Py.truthy_opt (company_cif self)) then
    inl (PdfError "Missing company CIF")
  else
    match pdf_request series number with
    | PdfHttp status_code content text =>
        if status_code =? 200 then inl (PdfContent content)
        else if status_code =? 401 then
          inl (PdfError "Invalid SmartBill credentials")
        else if status_code =? 403 then
          inl (PdfError "Access forbidden - check your SmartBill plan or permissions")
        else if status_code =? 404 then
          inl (PdfError ("Invoice not found: " ++ series ++ "-" ++ number))
        else
          inl (PdfError ("SmartBill API error: " ++ str_of_Z status_code
                         ++ " - " ++ text200 text))
    | PdfRequestException text => inl (PdfError ("Connection error: " ++ text))
    | PdfOtherException text => inr text
    end.

(** [TrendyolService.upload_invoice_file] with the default
    [invoice_number] and [invoice_datetime]; [inr] is the [ValueError] of
    [int(shipment_package_id)], raised before the [try]. *)
Definition upload_invoice_file (shipment_package_id pdf_content filename : string)
    : UploadResult + string :=
  match py_int shipment_package_id with
  | inr text => inr text
  | inl package =>
      match upload_request package pdf_content filename with
      | UploadHttp status_code => inl (UploadSuccess status_code)
      | UploadHTTPError code text message =>
          let status_code := TrendyolService.http_error_status code in
          let error_msg := "Failed to upload invoice file: " ++ text in
          let error_msg :=
            if TrendyolService.response_ok code
            then default error_msg message else error_msg in
          inl (UploadError error_msg status_code)
      | UploadRequestException text =>
          inl (UploadError ("Failed to upload invoice file: " ++ text) 500)
      end
  end.

End Providers.

(** The JSON body of the bulk-upload request. *)
Record UploadRequest := {
  upload_count : Z;
  up_status : string;
  up_startDate : string;
  up_endDate : string;
  up_orderNumber : string;
  up_sku : string;
}.

(** The filters of the request, as the gathering loop reads them. *)
Definition filters_of (rq : UploadRequest) : BulkRequest :=
  {| order_count := upload_count rq;
     rq_status := up_status rq;
     rq_startDate := up_startDate rq;
     rq_endDate := up_endDate rq;
     rq_orderNumber := up_orderNumber rq;
     rq_sku := up_sku rq |}.

(** Calls of the service methods during a bulk upload, in order. *)
Inductive UploadEvent :=
| Fetch (e : Event)
| GetInvoicePdf (series number : string)
| UploadInvoiceFile (package_id filename : string).

(** The variables of the per-item loop. *)
Record UploadState := {
  up_successful : Z;
  up_failed : Z;
  up_errors : list string;
  up_trace : list UploadEvent;
}.

Definition up_fail (st : UploadState) (order : Order) (msg : string)
    (evs : list UploadEvent) : UploadState :=
  {| up_successful := up_successful st;
     up_failed := up_failed st + 1;
     up_errors := (up_errors st ++ [error_line order msg])%list;
     up_trace := (up_trace st ++ evs)%list |}.

(** [invoice_mappings]: a dict built row by row, so the last row of an
    order id is the one it keeps. *)
Definition invoice_mappings (uid : Z) (d : DB) : gmap string (string * string) :=
  list_to_map
    (rev (map (fun r => (order_id r, (invoice_series r, invoice_number r)))
            (List.filter (fun r => user_id r =? uid) (rows d)))).

(** [orders_to_upload_all]: the orders with a mapping and without an
    invoice link, each with its mapping. *)
Definition orders_to_upload_all (mappings : gmap string (string * string))
    (all_orders : list Order) : list (Order * (string * string)) :=
  omap (fun order =>
          match orderNumber order with
          | Some order_number =>
              match mappings !! order_number with
              | Some invoice =>
                  if negb (Py.truthy_opt (invoiceLink order))
                  then Some (order, invoice) else None
              | None => None
              end
          | None => None
          end) all_orders.

Section Bulk.

Variable upstream : TrendyolService.Params -> TrendyolService.Response.
Variable format_date : string -> string.
Variable pdf_request : string -> string -> PdfOutcome.
Variable upload_request : Z -> string -> string -> UploadOutcome.
Variable getenv : string -> option string.
Variable current_user : User.

(** The body of [for item in orders_to_upload]. *)
Definition upload_item (st : UploadState) (item : Order * (string * string))
    : UploadState :=
  let '(order, (series, number)) := item in
  let package_id := package_id_of order in
  match get_smartbill_service getenv current_user with
  | None => up_fail st order "'NoneType' object has no attribute 'get_invoice_pdf'" []
  | Some smartbill_service =>
      let asked := [GetInvoicePdf series number] in
      match get_invoice_pdf pdf_request smartbill_service series number with
      | inr text => up_fail st order text asked
      | inl (PdfError error) => up_fail st order error asked
      | inl (PdfContent pdf_content) =>
          let filename :=
            "invoice_" ++ package_id ++ "_" ++ series ++ "_" ++ number ++ ".pdf" in
          let sent := (asked ++ [UploadInvoiceFile package_id filename])%list in
          match upload_invoice_file upload_request package_id pdf_content filename with
          | inr text => up_fail st order text sent
          | inl (UploadError error _) => up_fail st order error sent
          | inl (UploadSuccess _) =>
              {| up_successful := up_successful st + 1;
                 up_failed := up_failed st;
                 up_errors := up_errors st;
                 up_trace := (up_trace st ++ sent)%list |}
          end
      end
  end.

(** [bulk_upload_to_trendyol]: the response and the calls made; [None]
    only when a page loop runs out of fuel. *)
Definition bulk_upload_to_trendyol (page_fuel fuel : nat) (rq : UploadRequest)
    (d : DB) : option (BulkResponse * list UploadEvent) :=
  if negb (check_credentials current_user) then
    Some (BulkError "Trendyol credentials not configured." 401, [])
  else if negb (check_smartbill_credentials current_user) then
    Some (BulkError "SmartBill credentials not configured." 401, [])
  else
    let mappings := invoice_mappings (id current_user) d in
    if bool_decide (mappings = ∅) then
      Some (BulkError "No SmartBill invoices found in database" 400, [])
    else
      match gather_orders upstream format_date page_fuel fuel (filters_of rq)
              0 [] [] with
      | None => None
      | Some (inl error, tr) => Some (BulkError error 500, map Fetch tr)
      | Some (inr all_orders, tr) =>
          let orders_to_upload :=
            Py.slice_to (orders_to_upload_all mappings all_orders)
                        (upload_count rq) in
          let st := fold_left upload_item orders_to_upload
                      {| up_successful := 0; up_failed := 0; up_errors := [];
                         up_trace := map Fetch tr |} in
          Some (BulkSummary (Z.of_nat (length orders_to_upload))
                  (up_successful st) (up_failed st)
                  (Py.slice_to (up_errors st) 10),
                up_trace st)
      end.

End Bulk.

(** The orders for which a PDF was asked, as (series, number). *)
Fixpoint pdfs_asked (tr : list UploadEvent) : list (string * string) :=
  match tr with
  | [] => []
  | GetInvoicePdf series number :: tr' => (series, number) :: pdfs_asked tr'
  | _ :: tr' => pdfs_asked tr'
  end.

End InvoiceUpload.

(** ** Shipping labels *)

Module ShippingLabel.

Import UserManager App.

(** Outcome of [requests.get(.../cargo-label)]: a response (status and
    content) or a [RequestException] raised by the request itself. *)
Inductive LabelResponse :=
| LabelHttp (status_code : Z) (content : string)
| LabelRequestException (text : string).

(** [TrendyolService.get_shipping_label]: the label, if any, and a
    status.  [raise_for_status] raises on the statuses for which the response
    is not [ok]. *)
Definition get_shipping_label (label_request : string -> LabelResponse)
    (package_id : string) : option string * Z :=
  match label_request package_id with
  | LabelHttp status_code content =>
      if negb (TrendyolService.response_ok status_code) then
        (None, TrendyolService.http_error_status status_code)
      else if (status_code =? 204) || negb (Py.truthy content) then (None, 404)
      else (Some content, status_code)
  | LabelRequestException _ => (None, 500)
  end.

(** [error_messages.get(status_code, 'Label not available')]. *)
Definition error_messages (status_code : Z) : string :=
  if status_code =? 401 then "Unauthorized: Invalid or expired credentials"
  else if status_code =? 403 then "Forbidden: Access denied"
  else if status_code =? 404 then "Label not found or not generated yet"
  else if status_code =? 429 then "Rate limited: Please try again later"
  else if status_code =? 500 then "Server error while fetching label"
  else "Label not available".

(** The reply of [download_label]: the file or a JSON error with its
    status. *)
Inductive LabelReply :=
| LabelFile (data download_name : string)
| LabelJson (error : string) (status : Z).

Definition download_label (label_request : string -> LabelResponse)
    (current_user : User) (package_id : string) : LabelReply :=
  if negb (check_credentials current_user) then
    LabelJson "Trendyol credentials not configured." 401
  else
    let '(label_data, status_code) := get_shipping_label label_request package_id in
    match label_data with
    | Some data =>
        if status_code =? 200
        then LabelFile data ("label_" ++ package_id ++ ".pdf")
        else LabelJson (error_messages status_code) status_code
    | None => LabelJson (error_messages status_code) status_code
    end.

End ShippingLabel.

(** ** [user_manager.py]: the [users] table *)

Module Accounts.

Import UserManager.

(** The seven optional credential columns, in the order of the schema;
    in the table they hold ciphertexts, in a call clear values. *)
Record Secrets := {
  s_trendyol_api_key : option string;
  s_trendyol_api_secret : option string;
  s_trendyol_supplier_id : option string;
  s_smartbill_api_token : option string;
  s_smartbill_email : option string;
  s_smartbill_company_cif : option string;
  s_smartbill_gestiune : option string;
}.

(** A row of [users]; [u_role] is [NULL] when the row was created with
    [role=None]. *)
Record UserRow := {
  u_id : Z;
  u_username : string;
  u_password_hash : string;
  u_secrets : Secrets;
  u_role : option string;
}.

(** The table and its [AUTOINCREMENT] counter. *)
Record UsersDB := {
  users : list UserRow;
  next_user_id : Z;
}.

Section Crypto.

(** [generate_password_hash] and [check_password_hash] of werkzeug, and
    the Fernet cipher of the manager.  The salt of the hash and the IV of
    the token are left out: one value per input. *)
Variable hash_password : string -> string.
Variable check_password_hash : string -> string -> bool.
Variable encrypt : string -> string.
Variable decrypt : string -> string.

(** [_encrypt] and [_decrypt]: [None] stays [None]. *)
Definition _encrypt (value : option string) : option string := encrypt <$> value.
Definition _decrypt (value : option string) : option string := decrypt <$> value.

Definition on_secrets (f : option string -> option string) (s : Secrets) : Secrets :=
  {| s_trendyol_api_key := f (s_trendyol_api_key s);
     s_trendyol_api_secret := f (s_trendyol_api_secret s);
     s_trendyol_supplier_id := f (s_trendyol_supplier_id s);
     s_smartbill_api_token := f (s_smartbill_api_token s);
     s_smartbill_email := f (s_smartbill_email s);
     s_smartbill_company_cif := f (s_smartbill_company_cif s);
     s_smartbill_gestiune := f (s_smartbill_gestiune s) |}.

(** [create_user]: [False] is the [IntegrityError] of the [UNIQUE]
    username. *)
Definition create_user (username password : string) (secrets : Secrets)
    (role : option string) (db : UsersDB) : bool * UsersDB :=
  if existsb (fun r => String.eqb (u_username r) username) (users db)
  then (false, db)
  else (true,
        {| users := (users db ++
             [{| u_id := next_user_id db;
                 u_username := username;
                 u_password_hash := hash_password password;
                 u_secrets := on_secrets _encrypt secrets;
                 u_role := role |}])%list;
           next_user_id := next_user_id db + 1 |}).

(** The [User] built from a row: the secrets decrypted, the role
    ['user'] when the column is empty. *)
Definition user_of_row (row : UserRow) : User :=
  let s := on_secrets _decrypt (u_secrets row) in
  {| id := u_id row;
     username := u_username row;
     trendyol_api_key := s_trendyol_api_key s;
     trendyol_api_secret := s_trendyol_api_secret s;
     trendyol_supplier_id := s_trendyol_supplier_id s;
     smartbill_api_token := s_smartbill_api_token s;
     smartbill_email := s_smartbill_email s;
     smartbill_company_cif := s_smartbill_company_cif s;
     smartbill_gestiune := s_smartbill_gestiune s;
     role := if Py.truthy_opt (u_role row) then default "" (u_role row) else "user";
     is_authenticated := true |}.

Definition authenticate_user (username password : string) (db : UsersDB)
    : option User :=
  match List.find (fun r => String.eqb (u_username r) username) (users db) with
  | Some row =>
      if check_password_hash (u_password_hash row) password
      then Some (user_of_row row) else None
  | None => None
  end.

Definition get_user_by_id (user_id : Z) (db : UsersDB) : option User :=
  user_of_row <$> List.find (fun r => u_id r =? user_id) (users db).

Definition get_all_users (db : UsersDB) : list User := map user_of_row (users db).

(** The columns [update_user] sets: each argument that is not [None]. *)
Definition updated_row (username password : option string) (secrets : Secrets)
    (role : option string) (row : UserRow) : UserRow :=
  let keep (new old : option string) :=
    match new with Some v => _encrypt (Some v) | None => old end in
  {| u_id := u_id row;
     u_username := default (u_username row) username;
     u_password_hash := default (u_password_hash row) (hash_password <$> password);
     u_secrets :=
       {| s_trendyol_api_key :=
            keep (s_trendyol_api_key secrets) (s_trendyol_api_key (u_secrets row));
          s_trendyol_api_secret :=
            keep (s_trendyol_api_secret secrets) (s_trendyol_api_secret (u_secrets row));
          s_trendyol_supplier_id :=
            keep (s_trendyol_supplier_id secrets) (s_trendyol_supplier_id (u_secrets row));
          s_smartbill_api_token :=
            keep (s_smartbill_api_token secrets) (s_smartbill_api_token (u_secrets row));
          s_smartbill_email :=
            keep (s_smartbill_email secrets) (s_smartbill_email (u_secrets row));
          s_smartbill_company_cif :=
            keep (s_smartbill_company_cif secrets) (s_smartbill_company_cif (u_secrets row));
          s_smartbill_gestiune :=
            keep (s_smartbill_gestiune secrets) (s_smartbill_gestiune (u_secrets row)) |};
     u_role := match role with Some r => Some r | None => u_role row end |}.

(** [x is not None]. *)
Definition given (x : option string) : bool :=
  match x with Some _ => true | None => false end.

(** [not updates]: every argument is [None]. *)
Definition nothing_to_update (username password : option string)
    (secrets : Secrets) (role : option string) : bool :=
  negb (given username) && negb (given password)
  && negb (given (s_trendyol_api_key secrets))
  && negb (given (s_trendyol_api_secret secrets))
  && negb (given (s_trendyol_supplier_id secrets))
  && negb (given (s_smartbill_api_token secrets))
  && negb (given (s_smartbill_email secrets))
  && negb (given (s_smartbill_company_cif secrets))
  && negb (given (s_smartbill_gestiune secrets))
  && negb (given role).

(** [update_user]: [False] when there is nothing to set, and on the
    [IntegrityError] raised when the row exists and the new username is held
    by another row. *)
Definition update_user (user_id : Z) (username password : option string)
    (secrets : Secrets) (role : option string) (db : UsersDB) : bool * UsersDB :=
  if nothing_to_update username password secrets role then (false, db)
  else
    let clash :=
      match username with
      | Some name =>
          existsb (fun r => u_id r =? user_id) (users db)
          && existsb (fun r => String.eqb (u_username r) name
                               && negb (u_id r =? user_id)) (users db)
      | None => false
      end in
    if clash then (false, db)
    else (true,
          {| users := map (fun r => if u_id r =? user_id
                                    then updated_row username password secrets role r
                                    else r) (users db);
             next_user_id := next_user_id db |}).

(** [delete_user]: [rowcount > 0]. *)
Definition delete_user (user_id : Z) (db : UsersDB) : bool * UsersDB :=
  (existsb (fun r => u_id r =? user_id) (users db),
   {| users := List.filter (fun r => negb (u_id r =? user_id)) (users db);
      next_user_id := next_user_id db |}).

(** [admin_delete_user] for a signed-in admin: the flashed message and
    the table afterwards. *)
Definition admin_delete_user (current_user : User) (user_id : Z) (db : UsersDB)
    : string * UsersDB :=
  if negb (is_authenticated current_user) || negb (is_admin current_user) then
    ("You need admin privileges to access this page.", db)
  else if user_id =? id current_user then
    ("You cannot delete your own account.", db)
  else
    match get_user_by_id user_id db with
    | None => ("User not found.", db)
    | Some user =>
        let '(success, db') := delete_user user_id db in
        if success
        then ("User " ++ username user ++ " deleted successfully.", db')
        else ("Failed to delete user.", db')
    end.

End Crypto.

(** The constraints of the schema: unique usernames, unique ids, ids
    below the counter. *)
Definition accounts_ok (db : UsersDB) : Prop :=
  NoDup (map u_username (users db))
  /\ NoDup (map u_id (users db))
  /\ Forall (fun r => u_id r < next_user_id db) (users db).

End Accounts.

(** ** The two single-invoice upload routes *)

Module SingleUpload.

Import UserManager SmartBillService App InvoiceUpload.

(** [s.endswith(suffix)]. *)
Fixpoint endswith (suffix s : string) : bool :=
  String.eqb suffix s
  || match s with
     | EmptyString => false
     | String _ s' => endswith suffix s'
     end.

(** The file of the form, if one was sent: its name and its content.  A
    [FileStorage] is true when its name is not empty. *)
Definition Upload := option (string * string).

Definition file_name (pdf_file : Upload) : string :=
  match pdf_file with Some (name, _) => name | None => "" end.

Section Routes.

(** [werkzeug.utils.secure_filename]. *)
Variable secure_filename : string -> string.
Variable pdf_request : string -> string -> PdfOutcome.
Variable upload_request : Z -> string -> string -> UploadOutcome.
Variable getenv : string -> option string.
Variable current_user : User.

(** [login_required]. *)
Definition login_required (f : Reply) : Reply :=
  if is_authenticated current_user then f else RedirectTo "login".

(** [upload_invoice_to_trendyol]. *)
Definition upload_invoice_to_trendyol (form_order_id : string) (pdf_file : Upload)
    : Reply :=
  login_required
    (let order_id := Py.strip form_order_id in
     if negb (Py.truthy order_id) || negb (Py.truthy (file_name pdf_file)) then
       Json 400 (Some "Order ID and PDF file are required") None
     else if negb (endswith ".pdf" (Py.lower (file_name pdf_file))) then
       Json 400 (Some "Only PDF files are allowed") None
     else if negb (check_credentials current_user) then
       Json 401 (Some "Trendyol credentials not configured.") None
     else
       let pdf_content := match pdf_file with Some (_, c) => c | None => "" end in
       let filename :=
         secure_filename ("invoice_" ++ order_id ++ "_" ++ file_name pdf_file) in
       match upload_invoice_file upload_request order_id pdf_content filename with
       | inr text => Json 500 (Some text) None
       | inl (UploadError error status) => Json status (Some error) None
       | inl (UploadSuccess _) =>
           Json 200 None
             (Some ("Invoice uploaded successfully for shipment package " ++ order_id))
       end).

(** [upload_smartbill_invoice_to_trendyol]; the three fields of the JSON
    body, [''] when absent. *)
Definition upload_smartbill_invoice_to_trendyol
    (data_shipment_package_id data_series data_number : string) : Reply :=
  login_required
    (let shipment_package_id := Py.strip data_shipment_package_id in
     let series := Py.strip data_series in
     let number := Py.strip data_number in
     if negb (Py.truthy shipment_package_id) || negb (Py.truthy series)
        || negb (Py.truthy number) then
       Json 400 (Some "Shipment package ID, series, and number are required") None
     else if negb (check_credentials current_user) then
       Json 401 (Some "Trendyol credentials not configured.") None
     else if negb (check_smartbill_credentials current_user) then
       Json 401 (Some "SmartBill credentials not configured.") None
     else
       match get_smartbill_service getenv current_user with
       | None => Json 500 (Some "'NoneType' object has no attribute 'get_invoice_pdf'") None
       | Some smartbill_service =>
           match get_invoice_pdf pdf_request smartbill_service series number with
           | inr text => Json 500 (Some text) None
           | inl (PdfError error) =>
               Json 500 (Some ("Failed to download invoice from SmartBill: " ++ error)) None
           | inl (PdfContent pdf_content) =>
               let filename :=
                 "invoice_" ++ shipment_package_id ++ "_" ++ series ++ "_" ++ number
                 ++ ".pdf" in
               match upload_invoice_file upload_request shipment_package_id
                       pdf_content filename with
               | inr text => Json 500 (Some text) None
               | inl (UploadError error status) => Json status (Some error) None
               | inl (UploadSuccess _) =>
                   Json 200 None
                     (Some ("Invoice " ++ series ++ "-" ++ number
                            ++ " uploaded directly to Trendyol for package "
                            ++ shipment_package_id))
               end
           end
       end).

End Routes.

End SingleUpload.

(** ** Two read routes: [/api/orders] and [/api/smartbill/invoice/pdf] *)

Module ReadRoutes.

Import UserManager SmartBillService App InvoiceUpload.

(** The reply of [/api/orders]. *)
Inductive OrdersReply :=
| OrdersJson (result : TrendyolService.Page)
| OrdersFail (error : string) (status : Z)
| OrdersRedirect (endpoint : string).

(** [int(request.args.get(name, default))]: the default when the
    argument is absent, [inr] with the text of the [ValueError] when it is
    not a number. *)
Definition int_arg (default : Z) (arg : option string) : Z + string :=
  match arg with
  | None => inl default
  | Some s => py_int s
  end.

(** The reply of [/api/smartbill/invoice/pdf]. *)
Inductive PdfReply :=
| PdfFile (content download_name : string)
| PdfJson (error : string) (status : Z)
| PdfRedirect (endpoint : string).

Section Routes.

Variable upstream : TrendyolService.Params -> TrendyolService.Response.
Variable format_date : string -> string.
Variable pdf_request : string -> string -> PdfOutcome.
Variable getenv : string -> option string.
Variable current_user : User.

(** The route [get_orders] of [app.py]; [None] only when a page loop of
    the service runs out of fuel. *)
Definition api_orders (fuel : nat) (arg_page arg_size : option string)
    (status start_date end_date order_number sku : string) : option OrdersReply :=
  if negb (is_authenticated current_user) then Some (OrdersRedirect "login")
  else if negb (check_credentials current_user) then
    Some (OrdersFail "Trendyol credentials not configured." 401)
  else
    match int_arg 0 arg_page with
    | inr text => Some (OrdersFail text 500)
    | inl page =>
        match int_arg 50 arg_size with
        | inr text => Some (OrdersFail text 500)
        | inl size =>
            match TrendyolService.get_orders upstream format_date fuel page size
                    status start_date end_date order_number sku with
            | None => None
            | Some (TrendyolService.OrdersError error status_code) =>
                Some (OrdersFail error status_code)
            | Some (TrendyolService.OrdersPage result) => Some (OrdersJson result)
            end
        end
    end.

(** The route [get_smartbill_invoice_pdf]. *)
Definition get_smartbill_invoice_pdf (series number : string) : PdfReply :=
  if negb (is_authenticated current_user) then PdfRedirect "login"
  else if negb (check_smartbill_credentials current_user) then
    PdfJson "SmartBill credentials not fully configured." 401
  else if negb (Py.truthy series) || negb (Py.truthy number) then
    PdfJson "Both series and number are required" 400
  else
    match get_smartbill_service getenv current_user with
    | None => PdfJson "'NoneType' object has no attribute 'get_invoice_pdf'" 500
    | Some smartbill_service =>
        match get_invoice_pdf pdf_request smartbill_service series number with
        | inr text => PdfJson text 500
        | inl (PdfError error_msg) =>
            if Py.contains "credentials" (Py.lower error_msg) then
              PdfJson error_msg 401
            else if Py.contains "forbidden" (Py.lower error_msg) then
              PdfJson error_msg 403
            else if Py.contains "not found" (Py.lower error_msg)
                    || Py.contains "404" error_msg then
              PdfJson ("Invoice " ++ series ++ "-" ++ number ++ " not found") 404
            else PdfJson error_msg 500
        | inl (PdfContent content) =>
            PdfFile content ("invoice_" ++ series ++ "_" ++ number ++ ".pdf")
        end
    end.

End Routes.

(** A marketplace whose HTTP errors carry a status on which
    [raise_for_status] raises. *)
Definition raises_on_error_status
    (upstream : TrendyolService.Params -> TrendyolService.Response) : Prop :=
  forall params code text,
    upstream params = TrendyolService.RespHTTPError code text -> 400 <= code < 600.

End ReadRoutes.

(** ** The other methods of the two clients *)

Module MarketplaceClient.

(** Outcome of a [requests.get] of the marketplace followed by
    [raise_for_status] and [json()]: the body, which the code passes on
    unread, an [HTTPError] (status code and text), or another
    [RequestException]. *)
Inductive Fetched (Body : Type) : Type :=
| FetchedBody (body : Body)
| FetchedHTTPError (code : Z) (text : string)
| FetchedRequestException (text : string).

Arguments FetchedBody {Body} body.
Arguments FetchedHTTPError {Body} code text.
Arguments FetchedRequestException {Body} text.

(** What a method returns: the body or [{'error': .., 'status': ..}]. *)
Inductive Listing (Body : Type) : Type :=
| ListingBody (body : Body)
| ListingError (error : string) (status : Z).

Arguments ListingBody {Body} body.
Arguments ListingError {Body} error status.

(** Query parameters of the product endpoint. *)
Record ProductParams := {
  pp_page : Z;
  pp_size : Z;
  pp_barcode : option string;
  pp_approved : option bool;
}.

Section Client.

Context {Body : Type}.
Variable products_request : ProductParams -> Fetched Body.
Variable packages_request : TrendyolService.Params -> Fetched Body.
Variable format_date : string -> string.

Definition get_products (page size : Z) (barcode : string)
    (approved : option bool) : Listing Body :=
  let params :=
    {| pp_page := page;
       pp_size := size;
       pp_barcode := if Py.truthy barcode then Some barcode else None;
       pp_approved := approved |} in
  match products_request params with
  | FetchedBody body => ListingBody body
  | FetchedHTTPError code text =>
      ListingError ("Failed to fetch products: " ++ text)
                   (TrendyolService.http_error_status code)
  | FetchedRequestException text =>
      ListingError ("Failed to fetch products: " ++ text) 500
  end.

Definition get_shipment_packages (page size : Z)
    (status start_date end_date order_number : string) : Listing Body :=
  let params :=
    TrendyolService.single_params format_date page size status start_date
      end_date order_number in
  match packages_request params with
  | FetchedBody body => ListingBody body
  | FetchedHTTPError code text =>
      ListingError ("Failed to fetch shipment packages: " ++ text)
                   (TrendyolService.http_error_status code)
  | FetchedRequestException text =>
      ListingError ("Failed to fetch shipment packages: " ++ text) 500
  end.

End Client.

End MarketplaceClient.

Module InvoicingClient.

Import SmartBillService.

(** Outcome of a request of the invoicing provider: a response (status,
    text and, for a 200, the parsed body), a [RequestException], or an
    exception of another class. *)
Inductive Answered (Body : Type) : Type :=
| Answer (status_code : Z) (text : string) (json : Body)
| AnswerRequestException (text : string)
| AnswerOtherException (text : string).

Arguments Answer {Body} status_code text json.
Arguments AnswerRequestException {Body} text.
Arguments AnswerOtherException {Body} text.

(** What a method returns: the body or [{'error': ..}]. *)
Inductive Outcome (Body : Type) : Type :=
| Done (body : Body)
| ErrorDict (error : string).

Arguments Done {Body} body.
Arguments ErrorDict {Body} error.

(** The body of the series request, as far as the code reads it: a
    dictionary with or without a ['list'] of series, each with or without a
    ['name'] and a ['nextNumber']. *)
Record SeriesEntry := {
  se_name : option string;
  se_nextNumber : option Z;
}.

Record SeriesJson := {
  se_list : option (list SeriesEntry);
}.

Section Provider.

Context {Body : Type}.
(** The three requests, each with the service that sends it and the
    parameters the method adds. *)
Variable series_get : Service -> string -> Answered SeriesJson.
Variable invoices_get :
  Service -> option string -> option string -> option string -> Answered Body.
Variable reverse_post : Service -> string -> string -> string -> Answered Body.
(** [datetime.now().strftime('%Y-%m-%d')]. *)
Variable today : string.

(** [get_document_series] with its error dictionaries told apart; [inr]
    is an exception that is not caught. *)
Definition get_document_series (self : Service) (document_type : string)
    : Outcome SeriesJson + string :=
  if negb (has_headers self) then
    inl (ErrorDict "Missing SmartBill credentials (email or API token)")
  else if negb (Py.truthy_opt (company_cif self)) then
    inl (ErrorDict "Missing company CIF")
  else
    match series_get self document_type with
    | Answer status_code text json =>
        if status_code =? 200 then inl (Done json)
        else if status_code =? 401 then
          inl (ErrorDict "Invalid SmartBill credentials")
        else if status_code =? 403 then
          inl (ErrorDict "Access forbidden - check your SmartBill plan or rate limit")
        else
          inl (ErrorDict ("SmartBill API error: " ++ str_of_Z status_code
                          ++ " - " ++ text200 text))
    | AnswerRequestException text => inl (ErrorDict ("Connection error: " ++ text))
    | AnswerOtherException text => inr text
    end.

(** A filter is sent when it is given and not empty. *)
Definition sent (filter : option string) : option string :=
  if Py.truthy_opt filter then filter else None.

Definition list_invoices (self : Service) (series number date : option string)
    : Outcome Body + string :=
  if negb (has_headers self) then
    inl (ErrorDict "Missing SmartBill credentials (email or API token)")
  else if negb (Py.truthy_opt (company_cif self)) then
    inl (ErrorDict "Missing company CIF")
  else
    match invoices_get self (sent series) (sent number) (sent date) with
    | Answer status_code text json =>
        if status_code =? 200 then inl (Done json)
        else if status_code =? 400 then
          inl (ErrorDict ("Bad request - check your parameters: " ++ text))
        else if status_code =? 401 then
          inl (ErrorDict "Invalid SmartBill credentials")
        else if status_code =? 403 then
          inl (ErrorDict "Access forbidden - check your SmartBill plan or rate limit")
        else
          inl (ErrorDict ("SmartBill API error: " ++ str_of_Z status_code
                          ++ " - " ++ text))
    | AnswerRequestException text => inl (ErrorDict ("Connection error: " ++ text))
    | AnswerOtherException text => inr text
    end.

Definition reverse_invoice (self : Service) (series number : string)
    (issue_date : option string) : Outcome Body + string :=
  if negb (has_headers self) then
    inl (ErrorDict "Missing SmartBill credentials (email or API token)")
  else if negb (Py.truthy_opt (company_cif self)) then
    inl (ErrorDict "Missing company CIF")
  else
    let issueDate :=
      match issue_date with
      | Some d => if Py.truthy d then d else today
      | None => today
      end in
    match reverse_post self series number issueDate with
    | Answer status_code text json =>
        if status_code =? 200 then inl (Done json)
        else if status_code =? 401 then
          inl (ErrorDict "Invalid SmartBill credentials")
        else if status_code =? 403 then
          inl (ErrorDict "Access forbidden - check your SmartBill plan or permissions")
        else if status_code =? 404 then
          inl (ErrorDict ("Invoice not found: " ++ series ++ "-" ++ number))
        else
          inl (ErrorDict ("SmartBill API error: " ++ str_of_Z status_code
                          ++ " - " ++ text200 text))
    | AnswerRequestException text => inl (ErrorDict ("Connection error: " ++ text))
    | AnswerOtherException text => inr text
    end.

End Provider.

(** What the draft builder reads of a result of [get_document_series]:
    whether it has a ['list'] and the names in it. *)
Definition names_read (result : Outcome SeriesJson + string) : SeriesResult :=
  match result with
  | inl (Done json) => SeriesDict (map se_name <$> se_list json)
  | inl (ErrorDict _) => SeriesDict None
  | inr _ => SeriesRaised
  end.

End InvoicingClient.

(** ** The other routes behind the credential checks *)

Module CheckedRoutes.

Import UserManager SmartBillService App InvoiceUpload ReadRoutes.
Import MarketplaceClient InvoicingClient.

(** The reply of a JSON route: a body, [{'error': ..}] with a status, or
    the redirect of [login_required]. *)
Inductive JsonReply (Body : Type) : Type :=
| ReplyJson (body : Body)
| ReplyError (error : string) (status : Z)
| ReplyRedirect (endpoint : string).

Arguments ReplyJson {Body} body.
Arguments ReplyError {Body} error status.
Arguments ReplyRedirect {Body} endpoint.

(** The body of the reply of [get_next_invoice_number]. *)
Record NextNumber := {
  nn_seriesName : string;
  nn_nextNumber : string;
  nn_combined : string;
  nn_cif : string;
}.

Fixpoint zeros (n : nat) : string :=
  match n with
  | O => EmptyString
  | S n' => String "0" (zeros n')
  end.

(** [s.zfill(width)]: zeros on the left, after the sign if there is
    one. *)
Definition zfill (width : nat) (s : string) : string :=
  let fill := zeros (width - String.length s) in
  match s with
  | EmptyString => fill
  | String c r =>
      if (Ascii.eqb c "+" || Ascii.eqb c "-")%bool then String c (fill ++ r)
      else fill ++ s
  end.

Section Routes.

Context {Body : Type}.
Variable products_request : ProductParams -> Fetched Body.
Variable packages_request : TrendyolService.Params -> Fetched Body.
Variable format_date : string -> string.
Variable series_get : Service -> string -> Answered SeriesJson.
Variable invoices_get :
  Service -> option string -> option string -> option string -> Answered Body.
Variable reverse_post : Service -> string -> string -> string -> Answered Body.
Variable today : string.
Variable getenv : string -> option string.
Variable current_user : User.

(** [return jsonify({'error': result['error']}), result.get('status', 500)]
    or [jsonify(result)]. *)
Definition listing_reply (result : Listing Body) : JsonReply Body :=
  match result with
  | ListingError error status_code => ReplyError error status_code
  | ListingBody body => ReplyJson body
  end.

(** The route [get_products]; [approved] is the query argument, if
    given. *)
Definition get_products (arg_page arg_size : option string) (barcode : string)
    (arg_approved : option string) : JsonReply Body :=
  if negb (is_authenticated current_user) then ReplyRedirect "login"
  else if negb (check_credentials current_user) then
    ReplyError "Trendyol credentials not configured." 401
  else
    match int_arg 0 arg_page with
    | inr text => ReplyError text 500
    | inl page =>
        match int_arg 50 arg_size with
        | inr text => ReplyError text 500
        | inl size =>
            let approved :=
              match arg_approved with
              | Some a => Some (String.eqb (Py.lower a) "true")
              | None => None
              end in
            listing_reply
              (MarketplaceClient.get_products products_request page size barcode
                 approved)
        end
    end.

(** The route [get_shipment_packages]. *)
Definition get_shipment_packages (arg_page arg_size : option string)
    (status start_date end_date order_number : string) : JsonReply Body :=
  if negb (is_authenticated current_user) then ReplyRedirect "login"
  else if negb (check_credentials current_user) then
    ReplyError "Trendyol credentials not configured." 401
  else
    match int_arg 0 arg_page with
    | inr text => ReplyError text 500
    | inl page =>
        match int_arg 50 arg_size with
        | inr text => ReplyError text 500
        | inl size =>
            listing_reply
              (MarketplaceClient.get_shipment_packages packages_request
                 format_date page size status start_date end_date order_number)
        end
    end.

(** The route [get_smartbill_series]; [arg_type] is the query argument
    [type], if given. *)
Definition get_smartbill_series (arg_type : option string) : JsonReply SeriesJson :=
  if negb (is_authenticated current_user) then ReplyRedirect "login"
  else if negb (check_smartbill_credentials current_user) then
    ReplyError "SmartBill credentials not fully configured." 401
  else
    match get_smartbill_service getenv current_user with
    | None => ReplyError "'NoneType' object has no attribute 'get_document_series'" 500
    | Some smartbill_service =>
        let document_type := default "f" arg_type in
        match InvoicingClient.get_document_series series_get smartbill_service
                document_type with
        | inr text => ReplyError text 500
        | inl (ErrorDict error) => ReplyError error 500
        | inl (Done result) => ReplyJson result
        end
    end.

(** The route [get_next_invoice_number]. *)
Definition get_next_invoice_number : JsonReply NextNumber :=
  if negb (is_authenticated current_user) then ReplyRedirect "login"
  else if negb (check_smartbill_credentials current_user) then
    ReplyError "SmartBill credentials not configured." 401
  else
    match get_smartbill_service getenv current_user with
    | None => ReplyError "'NoneType' object has no attribute 'get_document_series'" 500
    | Some smartbill_service =>
        match InvoicingClient.get_document_series series_get smartbill_service "f" with
        | inr text => ReplyError text 500
        | inl (ErrorDict error) => ReplyError error 500
        | inl (Done series_result) =>
            match se_list series_result with
            | Some (first_series :: _) =>
                let series_name := get_str (se_name first_series) in
                let next_number :=
                  zfill 4 (match se_nextNumber first_series with
                           | Some n => str_of_Z n
                           | None => "1"
                           end) in
                ReplyJson {| nn_seriesName := series_name;
                             nn_nextNumber := next_number;
                             nn_combined := series_name ++ next_number;
                             nn_cif := por_opt (smartbill_company_cif current_user) "" |}
            | _ => ReplyError "No invoice series found in SmartBill account" 404
            end
        end
    end.

(** The route [list_smartbill_invoices]; the three query arguments, if
    given. *)
Definition list_smartbill_invoices (series number date : option string)
    : JsonReply Body :=
  if negb (is_authenticated current_user) then ReplyRedirect "login"
  else if negb (check_smartbill_credentials current_user) then
    ReplyError "SmartBill credentials not fully configured." 401
  else
    match get_smartbill_service getenv current_user with
    | None => ReplyError "'NoneType' object has no attribute 'list_invoices'" 500
    | Some smartbill_service =>
        match InvoicingClient.list_invoices invoices_get smartbill_service series
                number date with
        | inr text => ReplyError text 500
        | inl (ErrorDict error) => ReplyError error 500
        | inl (Done result) => ReplyJson result
        end
    end.

(** The route [reverse_smartbill_invoice]; the three fields of the JSON
    body, [''] when absent. *)
Definition reverse_smartbill_invoice (data_series data_number data_issueDate : string)
    : JsonReply Body :=
  if negb (is_authenticated current_user) then ReplyRedirect "login"
  else if negb (check_smartbill_credentials current_user) then
    ReplyError "SmartBill credentials not configured." 401
  else
    let series := Py.strip data_series in
    let number := Py.strip data_number in
    let issue_date := Py.strip data_issueDate in
    if negb (Py.truthy series) || negb (Py.truthy number) then
      ReplyError "Both series and number are required" 400
    else
      match get_smartbill_service getenv current_user with
      | None => ReplyError "'NoneType' object has no attribute 'reverse_invoice'" 500
      | Some smartbill_service =>
          match InvoicingClient.reverse_invoice reverse_post today smartbill_service
                  series number
                  (if Py.truthy issue_date then Some issue_date else None) with
          | inr text => ReplyError text 500
          | inl (ErrorDict error_msg) =>
              if Py.contains "credentials" (Py.lower error_msg) then
                ReplyError error_msg 401
              else if Py.contains "forbidden" (Py.lower error_msg) then
                ReplyError error_msg 403
              else if Py.contains "not found" (Py.lower error_msg) then
                ReplyError error_msg 404
              else ReplyError error_msg 500
          | inl (Done result) => ReplyJson result
          end
      end.

End Routes.

End CheckedRoutes.

(** ** Concrete data used by the examples *)

Module Scenario.

Import TrendyolService SmartBillService.

Definition no_address : Address :=
  {| address1 := None; city := None; district := None; postalCode := None;
     countryCode := None |}.

Definition line_of (raw_sku merchant_sku bar : string) : Line :=
  {| sku := Some raw_sku; merchantSku := Some merchant_sku; barcode := Some bar;
     productName := Some "Parfum"; quantity := Some 1; price := Some 100;
     vatRate := Some "19" |}.

Definition order_of (package_id : Z) (number : string) (date : Z)
    (cur : string) (link : option string) (ls : list Line) : Order :=
  {| id := Some package_id; orderNumber := Some number; orderDate := Some date;
     currencyCode := Some cur; invoiceLink := link; lines := ls;
     invoiceAddress := no_address; shipmentAddress := no_address;
     customerFirstName := Some "Ana"; customerLastName := Some "Pop";
     customerEmail := None |}.

(** A marketplace that holds [stock] and serves it page by page,
    whatever the filters. *)
Definition marketplace (stock : list Order) (params : Params) : Response :=
  let served := Py.slice stock (p_page params * p_size params)
                  (p_page params * p_size params + p_size params) in
  Resp200 {| content := served;
             page := p_page params;
             size := Z.of_nat (length served);
             totalElements := Z.of_nat (length stock);
             totalPages := total_pages (Z.of_nat (length stock)) (p_size params) |}.

(** A marketplace that holds one stock per status. *)
Definition marketplace_by_status (created picking : list Order)
    (params : Params) : Response :=
  match p_status params with
  | Some "Created" => marketplace created params
  | Some "Picking" => marketplace picking params
  | _ => marketplace [] params
  end.

(** A marketplace that answers every request with an HTTP 503. *)
Definition marketplace_down (params : Params) : Response :=
  RespHTTPError 503 "503 Server Error".

(** A marketplace whose first page is full and whose second request
    fails. *)
Definition marketplace_flaky (first_page : list Order) (params : Params) : Response :=
  if p_page params =? 0 then
    Resp200 {| content := first_page; page := 0;
               size := Z.of_nat (length first_page);
               totalElements := 400; totalPages := 2 |}
  else RespRequestException "Connection aborted".

Definition o1 : Order := order_of 101 "A1" 10 "RON" None [line_of "S1" "M-ONE" "111"].
Definition o2 : Order := order_of 102 "A2" 20 "RON" None [line_of "S2" "M-TWO" "222"].
Definition o3 : Order := order_of 103 "A3" 30 "EUR" None [line_of "S3" "M-THREE" "333"].
Definition o4 : Order := order_of 104 "A4" 40 "RON" None [line_of "S4" "M-FOUR" "444"].
Definition o5 : Order := order_of 105 "A5" 50 "RON" None [line_of "S5" "M-FIVE" "555"].
Definition o6 : Order :=
  order_of 106 "A6" 60 "RON" (Some "https://invoice") [line_of "S6" "M-SIX" "666"].

Definition o7 : Order := order_of 107 "A7" 70 "RON" None [line_of "S7" "M-SEVEN" "777"].
Definition o8 : Order := order_of 108 "A8" 80 "RON" None [line_of "S8" "M-EIGHT" "888"].
Definition o9 : Order := order_of 109 "A9" 90 "RON" None [line_of "S9" "M-NINE" "999"].
Definition o10 : Order := order_of 110 "A10" 100 "RON" None [line_of "S10" "M-TEN" "000"].

(** Ten fetched orders: [o2] will be mapped already, [o6] carries an
    invoice link, the other eight are eligible. *)
Definition ten_orders : list Order := [o1; o2; o3; o4; o5; o6; o7; o8; o9; o10].

Definition five_orders : list Order := [o1; o2; o3; o4; o5].

(** An order billed to an address with a postal code, and one with no
    customer, address or line at all. *)
Definition address_cluj : Address :=
  {| address1 := Some "Str. Unirii 1"; city := Some "Cluj";
     district := Some "Centru"; postalCode := Some "400001";
     countryCode := None |}.

Definition order_to_cluj : Order :=
  {| id := Some 111; orderNumber := Some "A11"; orderDate := Some 110;
     currencyCode := Some "RON"; invoiceLink := None;
     lines := [line_of "S1" "M-ONE" "111"];
     invoiceAddress := address_cluj; shipmentAddress := no_address;
     customerFirstName := None; customerLastName := None;
     customerEmail := None |}.

(** The postal-code site, knowing one code. *)
Definition postal_site (code : string) : option (string * string) :=
  if String.eqb code "400001" then Some ("Cluj-Napoca", "Cluj") else None.

(** [sqlite3] raises while the mapping of one order number is recorded. *)
Definition locked_for (number : string) (order : Order) : option string :=
  if String.eqb (get_str (orderNumber order)) number
  then Some "database is locked" else None.

Import UserManager App.

(** The table after an earlier run recorded an invoice for ["A2"]. *)
Definition db_with_A2 : DB :=
  {| rows := [{| row_id := 1; user_id := 7; order_id := "A2";
                 invoice_series := "TRD"; invoice_number := "0007" |}];
     next_id := 2 |}.

Definition seller : User :=
  {| UserManager.id := 7; username := "seller";
     trendyol_api_key := Some "key"; trendyol_api_secret := Some "secret";
     trendyol_supplier_id := Some "42";
     smartbill_api_token := Some "token"; smartbill_email := Some "a@b.ro";
     smartbill_company_cif := Some "RO1"; smartbill_gestiune := None;
     role := "user"; is_authenticated := true |}.

Definition admin : User :=
  {| UserManager.id := 1; username := "admin";
     trendyol_api_key := Some "key"; trendyol_api_secret := Some "secret";
     trendyol_supplier_id := Some "42";
     smartbill_api_token := Some "token"; smartbill_email := Some "a@b.ro";
     smartbill_company_cif := Some "RO1"; smartbill_gestiune := None;
     role := "admin"; is_authenticated := true |}.

Definition empty_db : DB := {| rows := []; next_id := 1 |}.

Definition no_env (name : string) : option string := None.
Definition no_postal (code : string) : option (string * string) := None.
Definition one_series (self : Service) : SeriesResult :=
  SeriesDict (Some [Some "TRD"]).
Definition same_date (d : string) : string := d.
Definition no_fault (order : Order) : option string := None.

(** An invoicing provider that numbers every invoice ["0001"] in the
    series it is asked for. *)
Definition provider_ok (invoice_data : InvoiceData) : HttpOutcome :=
  Http 200 "" {| j_error := None; j_series := Some (seriesName invoice_data);
                 j_number := Some "0001" |}.

(** The same provider, answering 400 for one order number. *)
Definition provider_rejecting (bad : string) (invoice_data : InvoiceData)
    : HttpOutcome :=
  if String.eqb (inv_orderNumber invoice_data) bad
  then Http 400 "invalid product" (error_dict "")
  else provider_ok invoice_data.

Definition request (n : Z) (sku_filter : string) : BulkRequest :=
  {| order_count := n; rq_status := ""; rq_startDate := ""; rq_endDate := "";
     rq_orderNumber := ""; rq_sku := sku_filter |}.

(** A provider that answers 200 with a series and no number. *)
Definition provider_without_number (invoice_data : InvoiceData) : HttpOutcome :=
  Http 200 "" {| j_error := None; j_series := Some (seriesName invoice_data);
                 j_number := None |}.

(** A second seller, with a row of its own for ["A2"]. *)
Definition other_seller_row : Row :=
  {| row_id := 1; user_id := 8; order_id := "A2";
     invoice_series := "XYZ"; invoice_number := "0042" |}.

Definition db_of_other_seller : DB :=
  {| rows := [other_seller_row]; next_id := 2 |}.

Import InvoiceUpload.

(** An invoicing provider that has every PDF, and one that lacks the PDF
    of one invoice number. *)
Definition pdf_ok (series number : string) : PdfOutcome := PdfHttp 200 "%PDF" "".

Definition pdf_missing_for (bad : string) (series number : string) : PdfOutcome :=
  if String.eqb number bad then PdfHttp 404 "" "not found" else pdf_ok series number.

(** A marketplace that takes every file, and one that refuses every file
    with a 400 and a message in its JSON body. *)
Definition upload_ok (package : Z) (pdf_content filename : string) : UploadOutcome :=
  UploadHttp 200.

Definition upload_refused (package : Z) (pdf_content filename : string)
    : UploadOutcome :=
  UploadHTTPError 400 "400 Client Error" (Some "Invoice already sent").

Definition upload_rq (n : Z) : UploadRequest :=
  {| upload_count := n; up_status := ""; up_startDate := ""; up_endDate := "";
     up_orderNumber := ""; up_sku := "" |}.

(** The table after invoices were recorded for ["A1"] and ["A3"]. *)
Definition db_two_invoices : DB :=
  {| rows := [{| row_id := 1; user_id := 7; order_id := "A1";
                 invoice_series := "TRD"; invoice_number := "0001" |};
              {| row_id := 2; user_id := 7; order_id := "A3";
                 invoice_series := "TRD"; invoice_number := "0003" |}];
     next_id := 3 |}.

Import Accounts.

(** Stand-ins for the hash and the cipher. *)
Definition toy_hash (password : string) : string := String "h" password.
Definition toy_check (hashed password : string) : bool :=
  String.eqb hashed (toy_hash password).
Definition toy_encrypt (value : string) : string := String "#" value.
Definition toy_decrypt (token : string) : string :=
  match token with
  | String _ value => value
  | EmptyString => EmptyString
  end.

Definition seller_secrets : Secrets :=
  {| s_trendyol_api_key := Some "key"; s_trendyol_api_secret := Some "secret";
     s_trendyol_supplier_id := Some "42";
     s_smartbill_api_token := Some "token"; s_smartbill_email := Some "a@b.ro";
     s_smartbill_company_cif := Some "RO1"; s_smartbill_gestiune := None |}.

Definition no_secrets : Secrets :=
  {| s_trendyol_api_key := None; s_trendyol_api_secret := None;
     s_trendyol_supplier_id := None; s_smartbill_api_token := None;
     s_smartbill_email := None; s_smartbill_company_cif := None;
     s_smartbill_gestiune := None |}.

(** The table with the administrator as its only row. *)
Definition only_admin : UsersDB :=
  {| users := [{| u_id := 1; u_username := "admin";
                  u_password_hash := toy_hash "root";
                  u_secrets := no_secrets; u_role := Some "admin" |}];
     next_user_id := 2 |}.

End Scenario.

(** * Properties *)

(** ** Python primitives *)

Example py_replace_ex1 : Py.replace "-OSS" "" "TRD-OSS" = "TRD".
Proof. reflexivity. Qed.

Example py_replace_ex2 : Py.replace "-OSS" "" "-O-OSSSS" = "-OSS".
Proof. reflexivity. Qed.

Example py_split_ex : Py.split "," "Created, Picking,,x" = ["Created"; " Picking"; ""; "x"].
Proof. reflexivity. Qed.

Example py_strip_ex : Py.strip "  a b  " = "a b".
Proof. reflexivity. Qed.

Example py_slice_ex1 : Py.slice [1;2;3;4;5] (-6) (-3) = [1;2].
Proof. reflexivity. Qed.

Example py_slice_ex2 : Py.slice_to [1;2;3] (-1) = [1;2].
Proof. reflexivity. Qed.

Example py_contains_ex : Py.contains (Py.lower "Ab") (Py.lower "xxaBy") = true.
Proof. reflexivity. Qed.

Module PyFacts.

Lemma clamp_nonneg n i : 0 <= i -> Py.clamp n i = Z.min i n.
Proof. intros H. unfold Py.clamp. destruct (Z.ltb_spec i 0); [lia | reflexivity]. Qed.

(** With a non-negative bound, [l[:b]] is the first [b] elements. *)
Lemma slice_to_firstn {A} (l : list A) (b : Z) :
  0 <= b -> Py.slice_to l b = firstn (Z.to_nat b) l.
Proof.
  intros H. unfold Py.slice_to. rewrite clamp_nonneg by assumption.
  destruct (Z.le_ge_cases b (Z.of_nat (length l))) as [Hle | Hge].
  - rewrite Z.min_l by assumption. reflexivity.
  - rewrite Z.min_r by assumption. rewrite Nat2Z.id.
    rewrite firstn_all. symmetry. apply firstn_all2. lia.
Qed.

(** With non-negative bounds, [l[a:a+n]] is the window of [n] elements
    that starts at index [a]. *)
Lemma slice_window {A} (l : list A) (a n : Z) :
  0 <= a -> 0 <= n ->
  Py.slice l a (a + n) = firstn (Z.to_nat n) (skipn (Z.to_nat a) l).
Proof.
  intros Ha Hn. unfold Py.slice.
  rewrite !clamp_nonneg by lia.
  set (len := Z.of_nat (length l)).
  destruct (Z.le_ge_cases a len) as [Hle | Hge].
  - rewrite (Z.min_l a) by assumption.
    destruct (Z.le_ge_cases (a + n) len) as [Hle' | Hge'].
    + rewrite Z.min_l by assumption. f_equal. lia.
    + rewrite Z.min_r by assumption.
      rewrite !firstn_all2; [reflexivity | |];
        rewrite length_skipn; subst len; lia.
  - rewrite (Z.min_r a) by assumption. rewrite Z.min_r by lia.
    replace (len - len) with 0 by lia. simpl.
    rewrite (skipn_all2 (n := Z.to_nat a)) by (subst len; lia).
    destruct (Z.to_nat n); reflexivity.
Qed.

Lemma in_firstn {A} (n : nat) (l : list A) (x : A) :
  In x (firstn n l) -> In x l.
Proof.
  intros H. rewrite <- (firstn_skipn n l). apply in_or_app. left. assumption.
Qed.

Lemma slice_to_incl {A} (l : list A) (b : Z) : incl (Py.slice_to l b) l.
Proof.
  unfold Py.slice_to. intros x Hx.
  rewrite <- (firstn_skipn (Z.to_nat (Py.clamp (Z.of_nat (length l)) b)) l).
  apply in_or_app. left. assumption.
Qed.

Lemma slice_to_length {A} (l : list A) (b : Z) :
  (length (Py.slice_to l b) <= length l)%nat.
Proof. unfold Py.slice_to. rewrite length_firstn. lia. Qed.

(** ["-OSS"] starts with a character that does not occur again in it, so
    appending it to a non-empty string creates no occurrence at the
    front. *)
Lemma prefix_oss_app (t : string) :
  t <> "" -> String.prefix "-OSS" t = false ->
  String.prefix "-OSS" (t ++ "-OSS") = false.
Proof.
  intros Hne Hp.
  destruct t as [|c1 [|c2 [|c3 [|c4 r]]]]; [congruence | | | |];
    cbv [String.append] in *; cbn -[ascii_dec] in *; subst;
    repeat match goal with
           | |- context [ascii_dec ?a ?b] => destruct (ascii_dec a b); try discriminate
           | H : context [ascii_dec ?a ?b] |- _ => destruct (ascii_dec a b); try discriminate
           end;
    try reflexivity; try congruence;
    try (destruct r; discriminate).
Qed.

Lemma replace_unfold (old new : string) (c : ascii) (s : string) :
  Py.replace old new (String c s) =
  if String.prefix old (String c s)
  then new ++ Py.replace_go old new s (Nat.pred (String.length old))
  else String c (Py.replace old new s).
Proof. reflexivity. Qed.

(** Stripping ["-OSS"] from [t ++ "-OSS"] gives [t] back when [t] itself
    has no occurrence. *)
Lemma strip_oss_app (t : string) :
  Py.contains "-OSS" t = false -> Py.replace "-OSS" "" (t ++ "-OSS") = t.
Proof.
  induction t as [|c t IH]; intros Hc; [reflexivity |].
  change (String c t ++ "-OSS") with (String c (t ++ "-OSS")).
  rewrite replace_unfold.
  cbn [Py.contains] in Hc. apply orb_false_iff in Hc as [Hp Hc].
  change (String c (t ++ "-OSS")) with (String c t ++ "-OSS").
  rewrite prefix_oss_app by (assumption || discriminate).
  f_equal. apply IH. assumption.
Qed.

(** A name without ["-OSS"] is left alone by the replacement. *)
Lemma strip_oss_id (t : string) :
  Py.contains "-OSS" t = false -> Py.replace "-OSS" "" t = t.
Proof.
  induction t as [|c t IH]; intros Hc; [reflexivity |].
  rewrite replace_unfold.
  cbn [Py.contains] in Hc. apply orb_false_iff in Hc as [Hp Hc].
  rewrite Hp. f_equal. apply IH. assumption.
Qed.

End PyFacts.

(** ** The draft: product codes and the OSS series rule *)

Module DraftFacts.

Import UserManager SmartBillService App.

(** Whatever the override chain finds wins over the merchant SKU and
    over the raw-SKU fallback. *)
Lemma codul_override (line : Line) (code : string) :
  elif_chain (get_str (sku line)) sku_overrides = Some code ->
  codul line = code.
Proof. intros H. unfold codul. rewrite H. reflexivity. Qed.

(** Without a matching branch: the merchant SKU, or the raw SKU when the
    merchant SKU is the placeholder. *)
Lemma codul_fallback (line : Line) :
  elif_chain (get_str (sku line)) sku_overrides = None ->
  codul line =
    if String.eqb (get_str (merchantSku line)) "merchantSku"
    then get_str (sku line) else get_str (merchantSku line).
Proof. intros H. unfold codul. rewrite H. reflexivity. Qed.

(** Every branch of the chain is reached by its key, except the second
    branch for ["TYBNTUAF3RG4369H97"]. *)
Lemma override_branch_taken (k v : string) :
  In (k, v) sku_overrides ->
  (k, v) <> ("TYBNTUAF3RG4369H97", "6291108730515") ->
  elif_chain k sku_overrides = Some v.
Proof.
  intros Hin Hne. unfold sku_overrides in Hin. simpl in Hin.
  repeat (destruct Hin as [Hin | Hin];
          [inversion Hin; subst; first [reflexivity | congruence] |]).
  contradiction.
Qed.

(** C6 (the code against the claim).  The override table has the literal
    entry ["TYBNTUAF3RG4369H97"] -> ["6291108730515"], yet a line whose raw
    SKU is exactly that key gets the code ["6291108737194"]: an earlier
    branch of the chain tests the same key, so the later one is never
    reached. *)
Theorem override_entry_shadowed :
  In ("TYBNTUAF3RG4369H97", "6291108730515") sku_overrides
  /\ codul (Scenario.line_of "TYBNTUAF3RG4369H97" "M-SKU" "123") = "6291108737194"
  /\ codul (Scenario.line_of "TYBNTUAF3RG4369H97" "M-SKU" "123") <> "6291108730515".
Proof.
  split; [| split].
  - unfold sku_overrides. do 41 right. left. reflexivity.
  - reflexivity.
  - discriminate.
Qed.

Lemma oss_suffix_twice (s : string) :
  Py.contains "-OSS" (Py.replace "-OSS" "" s) = false ->
  oss_suffix (oss_suffix s) = oss_suffix s.
Proof.
  intros H. unfold oss_suffix at 1.
  unfold oss_suffix. rewrite PyFacts.strip_oss_app by assumption. reflexivity.
Qed.

(** The rule is not idempotent on every name: one left-to-right pass
    over ["-O-OSSSS"] leaves ["-OSS"] behind. *)
Lemma oss_suffix_not_idempotent :
  oss_suffix (oss_suffix "-O-OSSSS") <> oss_suffix "-O-OSSSS".
Proof. vm_compute. discriminate. Qed.

Section Draft.

Variable postal_lookup : string -> option (string * string).
Variable series_request : Service -> SeriesResult.
Variable getenv : string -> option string.
Variable today : string.
Variable current_user : User.

Let draft := generate_invoice_data_from_order postal_lookup series_request
               getenv today current_user.
Let series := first_series_name series_request getenv current_user.

Lemma draft_home_currency (order : Order) (user : User) (g : bool) :
  currencyCode order = Some "RON" ->
  useIntraCif (draft order user g) = false
  /\ seriesName (draft order user g) = series.
Proof.
  intros H. subst draft series. unfold generate_invoice_data_from_order.
  destruct (if Py.truthy _ then _ else _) as [c1 c2]. cbn.
  rewrite H. rewrite bool_decide_eq_true_2 by (left; reflexivity).
  split; reflexivity.
Qed.

Lemma draft_foreign_currency (order : Order) (user : User) (g : bool) (c : string) :
  currencyCode order = Some c -> c <> "RON" ->
  useIntraCif (draft order user g) = true
  /\ seriesName (draft order user g) = Py.replace "-OSS" "" series ++ "-OSS".
Proof.
  intros H Hc. subst draft series. unfold generate_invoice_data_from_order.
  destruct (if Py.truthy _ then _ else _) as [c1 c2]. cbn.
  rewrite H. rewrite bool_decide_eq_false_2.
  - split; reflexivity.
  - intros [E | E]; congruence.
Qed.

End Draft.

(** C7 (amended).  The OSS rule is idempotent on every series name that
    one pass of the replacement clears of ["-OSS"]; the draft of an order
    in ["RON"] has [useIntraCif = False] and the provider's series name
    unchanged; the draft of an order in another currency has
    [useIntraCif = True] and the series name stripped of ["-OSS"] with
    ["-OSS"] appended once, which is the name itself followed by ["-OSS"]
    when the name has no ["-OSS"] in it. *)
Theorem oss_rule (postal_lookup : string -> option (string * string))
    (series_request : Service -> SeriesResult)
    (getenv : string -> option string) (today : string)
    (current_user user : User) (order : Order) (g : bool) (s : string) :
  let draft := generate_invoice_data_from_order postal_lookup series_request
                 getenv today current_user order user g in
  let series := first_series_name series_request getenv current_user in
  (Py.contains "-OSS" (Py.replace "-OSS" "" s) = false ->
     oss_suffix (oss_suffix s) = oss_suffix s)
  /\ (currencyCode order = Some "RON" ->
        useIntraCif draft = false /\ seriesName draft = series)
  /\ (forall c, currencyCode order = Some c -> c <> "RON" ->
        useIntraCif draft = true
        /\ seriesName draft = Py.replace "-OSS" "" series ++ "-OSS"
        /\ (Py.contains "-OSS" series = false -> seriesName draft = series ++ "-OSS")).
Proof.
  cbv zeta. split; [apply oss_suffix_twice | split].
  - apply draft_home_currency.
  - intros c Hc Hne.
    destruct (draft_foreign_currency postal_lookup series_request getenv today
                current_user order user g c Hc Hne) as [H1 H2].
    split; [assumption | split; [assumption |]].
    intros Hno. rewrite H2. rewrite PyFacts.strip_oss_id by assumption. reflexivity.
Qed.

Lemma oss_rule_witness :
  oss_suffix (oss_suffix "TRD-OSS") = oss_suffix "TRD-OSS"
  /\ seriesName (generate_invoice_data_from_order Scenario.no_postal
                   Scenario.one_series Scenario.no_env "2025-01-31"
                   Scenario.seller Scenario.o3 Scenario.seller true) = "TRD-OSS".
Proof.
  destruct (oss_rule Scenario.no_postal Scenario.one_series Scenario.no_env
              "2025-01-31" Scenario.seller Scenario.seller Scenario.o3 true
              "TRD-OSS") as [H1 [_ H3]].
  split.
  - apply H1. reflexivity.
  - destruct (H3 "EUR" eq_refl ltac:(discriminate)) as [_ [_ H]].
    apply H. reflexivity.
Defined.

End DraftFacts.

(** ** Credential checks *)

Module CredentialFacts.

Import UserManager SmartBillService App InvoiceUpload ShippingLabel.
Import SingleUpload ReadRoutes MarketplaceClient InvoicingClient CheckedRoutes.

Lemma admin_fails_checks (u : User) :
  is_admin u = true ->
  check_credentials u = false /\ check_smartbill_credentials u = false.
Proof.
  intros H. unfold check_credentials, check_smartbill_credentials.
  rewrite H. destruct (is_authenticated u); split; reflexivity.
Qed.

(** A user who passes the invoicing check has a service with headers and a
    company CIF. *)
Lemma service_of_checked (getenv : string -> option string) (u : User) :
  check_smartbill_credentials u = true ->
  exists svc,
    get_smartbill_service getenv u = Some svc
    /\ has_headers svc = true
    /\ Py.truthy_opt (company_cif svc) = true.
Proof.
  unfold check_smartbill_credentials, get_smartbill_service, new_service, has_headers.
  destruct (is_authenticated u); cbn [negb]; [| discriminate].
  destruct (is_admin u); [discriminate |].
  intros H. apply andb_true_iff in H as [H Hc]. apply andb_true_iff in H as [Ht He].
  eexists. split; [reflexivity |]. cbn [api_token email company_cif].
  rewrite Ht, He, Hc. cbn. rewrite Ht, He, Hc. auto.
Qed.




(** The same request from a seller with credentials does reach the
    providers. *)
Example seller_reaches_providers :
  bulk_send_to_smartbill (Scenario.marketplace [Scenario.o1]) Scenario.same_date
    Scenario.no_postal Scenario.provider_ok Scenario.one_series Scenario.no_env
    "2025-01-31" Scenario.no_fault Scenario.seller 3 3 (Scenario.request 5 "")
    Scenario.empty_db
  = Some (BulkSummary 1 1 0 [],
          {| rows := [{| row_id := 1; user_id := 7; order_id := "A1";
                         invoice_series := "TRD"; invoice_number := "0001" |}];
             next_id := 2 |},
          [GetOrders 0; GenerateInvoiceData Scenario.o1;
           CreateInvoice (generate_invoice_data_from_order Scenario.no_postal
                            Scenario.one_series Scenario.no_env "2025-01-31"
                            Scenario.seller Scenario.o1 Scenario.seller true)]).
Proof. vm_compute. reflexivity. Qed.

End CredentialFacts.

(** ** Bulk-create: which orders are processed *)

Module BulkFacts.

Import UserManager SmartBillService App.

Lemma attempted_app (a b : list Event) :
  attempted (a ++ b)%list = (attempted a ++ attempted b)%list.
Proof.
  induction a as [|e a IH]; [reflexivity |].
  destruct e; simpl; rewrite IH; reflexivity.
Qed.

(** A mapped order number is one that [select_one] finds. *)
Lemma existing_iff_selected (u : User) (d : DB) (number : string) :
  number ∈ existing_invoice_orders u d <->
  select_one (id u) number d <> None.
Proof.
  unfold existing_invoice_orders, select_order_ids, select_one.
  rewrite elem_of_list_to_set, list_elem_of_In, in_map_iff.
  split.
  - intros [r [Hr Hin]]. apply filter_In in Hin as [Hin Hu].
    intros Hnone. apply (find_none _ _ Hnone) in Hin.
    unfold has_key in Hin. rewrite Hu in Hin. subst number.
    rewrite String.eqb_refl in Hin. discriminate.
  - intros Hsome. destruct (List.find _ _) as [r|] eqn:Hf; [| congruence].
    apply find_some in Hf as [Hin Hk]. unfold has_key in Hk.
    apply andb_true_iff in Hk as [Hu Ho]. apply String.eqb_eq in Ho.
    exists r. split; [assumption |]. apply filter_In. split; assumption.
Qed.

Section Run.

Variable upstream : TrendyolService.Params -> TrendyolService.Response.
Variable format_date : string -> string.
Variable postal_lookup : string -> option (string * string).
Variable post_invoice : InvoiceData -> HttpOutcome.
Variable series_request : Service -> SeriesResult.
Variable getenv : string -> option string.
Variable today : string.
Variable sqlite_fault : Order -> option string.
Variable current_user : User.

Let step := process_order postal_lookup post_invoice series_request getenv
              today sqlite_fault current_user.
Let gather := gather_orders upstream format_date.
Let run := bulk_send_to_smartbill upstream format_date postal_lookup
             post_invoice series_request getenv today sqlite_fault current_user.

Lemma step_attempted (st : BulkState) (order : Order) :
  attempted (trace (step st order)) = (attempted (trace st) ++ [order])%list.
Proof.
  subst step. unfold process_order, count_failure, log.
  repeat case_match; cbn [trace]; rewrite ?attempted_app; cbn [attempted];
    rewrite ?app_nil_r; reflexivity.
Qed.

Lemma loop_attempted (l : list Order) (st : BulkState) :
  attempted (trace (fold_left step l st)) = (attempted (trace st) ++ l)%list.
Proof.
  revert st. induction l as [|o l IH]; intros st; simpl.
  - rewrite app_nil_r. reflexivity.
  - rewrite IH, step_attempted, <- app_assoc. reflexivity.
Qed.

Lemma gather_attempted page_fuel fuel rq page all_orders tr r tr' :
  gather page_fuel fuel rq page all_orders tr = Some (r, tr') ->
  attempted tr' = attempted tr.
Proof.
  subst gather. revert page all_orders tr.
  induction fuel as [|fuel IH]; intros page all_orders tr H; [discriminate |].
  cbn [gather_orders] in H.
  assert (Hlog : attempted (tr ++ [GetOrders page])%list = attempted tr)
    by (rewrite attempted_app; cbn; apply app_nil_r).
  repeat case_match; simplify_eq; try assumption;
    try (apply IH in H; rewrite H; assumption).
Qed.

(** What a run does once both checks pass and the gathering loop has
    returned the fetched orders. *)
Lemma run_unfold page_fuel fuel rq d all_orders tr0 :
  check_credentials current_user = true ->
  check_smartbill_credentials current_user = true ->
  gather page_fuel fuel rq 0 [] [] = Some (inr all_orders, tr0) ->
  run page_fuel fuel rq d =
    let to_process := orders_to_process current_user rq d all_orders in
    let st := fold_left step to_process (initial_state d tr0) in
    Some (summary to_process st, db st, trace st).
Proof.
  intros H1 H2 Hg. subst run step gather. unfold bulk_send_to_smartbill.
  rewrite H1, H2. cbn [negb]. rewrite Hg. reflexivity.
Qed.

(** C1.  With both checks passed, fetched orders [all_orders] and a
    non-negative [order_count], the orders for which a draft is built
    and an invoice requested are, in order, the first [order_count] of
    the fetched orders whose number is not in the user's mapping table
    and that carry no invoice link; an order that is mapped or carries a
    link is never attempted, on a first run or on a re-run. *)
Theorem bulk_processes_first_eligible page_fuel fuel rq d all_orders tr0 :
  check_credentials current_user = true ->
  check_smartbill_credentials current_user = true ->
  gather page_fuel fuel rq 0 [] [] = Some (inr all_orders, tr0) ->
  0 <= order_count rq ->
  exists response d' tr,
    run page_fuel fuel rq d = Some (response, d', tr)
    /\ attempted tr =
         firstn (Z.to_nat (order_count rq))
           (List.filter
              (fun o => negb (bool_decide
                                (select_one (id current_user)
                                   (get_str (orderNumber o)) d <> None))
                        && negb (Py.truthy_opt (invoiceLink o)))
              all_orders)
    /\ (forall o, In o (attempted tr) ->
          In o all_orders
          /\ select_one (id current_user) (get_str (orderNumber o)) d = None
          /\ Py.truthy_opt (invoiceLink o) = false).
Proof.
  intros H1 H2 Hg Hn.
  rewrite (run_unfold page_fuel fuel rq d all_orders tr0 H1 H2 Hg). cbv zeta.
  eexists _, _, _. split; [reflexivity |].
  rewrite loop_attempted. cbn [initial_state trace].
  rewrite (gather_attempted _ _ _ _ _ _ _ _ Hg). cbn [attempted app].
  unfold orders_to_process. rewrite PyFacts.slice_to_firstn by assumption.
  assert (Hext : forall o,
             needs_invoice (existing_invoice_orders current_user d) o =
             negb (bool_decide (select_one (id current_user)
                                  (get_str (orderNumber o)) d <> None))
             && negb (Py.truthy_opt (invoiceLink o))).
  { intros o. unfold needs_invoice. f_equal. f_equal.
    apply bool_decide_ext. apply existing_iff_selected. }
  rewrite (filter_ext _ _ Hext).
  split; [reflexivity |].
  intros o Ho. apply PyFacts.in_firstn in Ho.
  apply filter_In in Ho as [Hin Hb].
  apply andb_true_iff in Hb as [Hb1 Hb2].
  apply negb_true_iff in Hb1, Hb2. apply bool_decide_eq_false in Hb1.
  split; [assumption | split; [| assumption]].
  destruct (select_one _ _ d); [exfalso; apply Hb1; discriminate | reflexivity].
Qed.

End Run.

Lemma bulk_processes_first_eligible_witness :
  exists response d' tr,
    bulk_send_to_smartbill (Scenario.marketplace Scenario.ten_orders)
      Scenario.same_date Scenario.no_postal Scenario.provider_ok
      Scenario.one_series Scenario.no_env "2025-01-31" Scenario.no_fault
      Scenario.seller 3 3 (Scenario.request 5 "") Scenario.db_with_A2
    = Some (response, d', tr)
    /\ attempted tr =
         [Scenario.o1; Scenario.o3; Scenario.o4; Scenario.o5; Scenario.o7].
Proof.
  destruct (bulk_processes_first_eligible
              (Scenario.marketplace Scenario.ten_orders)
              Scenario.same_date Scenario.no_postal Scenario.provider_ok
              Scenario.one_series Scenario.no_env "2025-01-31" Scenario.no_fault
              Scenario.seller 3 3 (Scenario.request 5 "") Scenario.db_with_A2
              Scenario.ten_orders [GetOrders 0]
              eq_refl eq_refl ltac:(vm_compute; reflexivity) ltac:(cbn; lia))
    as (response & d' & tr & Hrun & Hatt & _).
  exists response, d', tr. split; [exact Hrun |].
  rewrite Hatt. vm_compute. reflexivity.
Defined.

End BulkFacts.

(** ** Bulk-create: the summary *)

Module SummaryFacts.

Import UserManager SmartBillService App.

Lemma has_key_after_delete (uid : Z) (oid : string) (d : DB) :
  existsb (has_key uid oid) (rows (delete_order uid oid d)) = false.
Proof.
  unfold delete_order. cbn [rows].
  induction (rows d) as [|r l IH]; [reflexivity |].
  cbn [List.filter]. destruct (has_key uid oid r) eqn:Hk; cbn [negb].
  - assumption.
  - cbn [existsb]. rewrite Hk, IH. reflexivity.
Qed.

(** Delete-then-insert never trips the uniqueness constraint. *)
Lemma insert_after_delete (uid : Z) (oid series number : string) (d : DB) :
  insert uid oid series number (delete_order uid oid d) =
  Some {| rows := (rows (delete_order uid oid d) ++
                   [{| row_id := next_id d; user_id := uid; order_id := oid;
                       invoice_series := series; invoice_number := number |}])%list;
          next_id := next_id d + 1 |}.
Proof. unfold insert. rewrite has_key_after_delete. reflexivity. Qed.

Section Run.

Variable upstream : TrendyolService.Params -> TrendyolService.Response.
Variable format_date : string -> string.
Variable postal_lookup : string -> option (string * string).
Variable post_invoice : InvoiceData -> HttpOutcome.
Variable series_request : Service -> SeriesResult.
Variable getenv : string -> option string.
Variable today : string.
Variable sqlite_fault : Order -> option string.
Variable current_user : User.

Let step := process_order postal_lookup post_invoice series_request getenv
              today sqlite_fault current_user.
Let run := bulk_send_to_smartbill upstream format_date postal_lookup
             post_invoice series_request getenv today sqlite_fault current_user.

(** How the counters and the error list stand after some orders, with
    respect to where they stood before. *)
Record progress (l : list Order) (st st' : BulkState) : Prop := {
  succ_lo : successful st <= successful st';
  succ_hi : successful st' <= successful st + Z.of_nat (length l);
  fail_lo : failed st <= failed st';
  fail_hi : failed st' <= failed st + Z.of_nat (length l);
  counted : successful st + failed st + Z.of_nat (length l)
            <= successful st' + failed st';
  counted_once :
    Forall (fun o => sqlite_fault o = None) l ->
    successful st' + failed st' =
    successful st + failed st + Z.of_nat (length l);
  new_errors :
    exists extra,
      errors st' = (errors st ++ extra)%list
      /\ Z.of_nat (length extra) = failed st' - failed st
      /\ Forall (fun e => exists o msg, In o l /\ e = error_line o msg) extra;
}.

Lemma step_progress (st : BulkState) (order : Order) :
  progress [order] st (step st order).
Proof.
  subst step. unfold process_order, record_mapping. cbv zeta.
  assert (Hins := insert_after_delete).
  assert (Hin : In order [order]) by (left; reflexivity).
  repeat case_match; simplify_eq;
    (split; cbn [successful failed errors count_failure log length Z.of_nat];
     [lia | lia | lia | lia | lia | |]);
    try (intros Hf; apply Forall_inv in Hf; first [congruence | cbn; lia]);
    first
      [ exists []; rewrite app_nil_r;
        split; [reflexivity | split; [cbn; lia | constructor]]
      | eexists [_]; split; [reflexivity | split; [cbn; lia |]];
        constructor; [eexists _, _; split; [exact Hin | reflexivity] | constructor] ].
Qed.

Lemma progress_trans (l1 l2 : list Order) (a b c : BulkState) :
  progress l1 a b -> progress l2 b c -> progress (l1 ++ l2)%list a c.
Proof.
  intros [A1 A2 A3 A4 A5 A6 (e1 & E1 & L1 & F1)]
         [B1 B2 B3 B4 B5 B6 (e2 & E2 & L2 & F2)].
  split; rewrite ?length_app, ?Nat2Z.inj_add; try lia.
  - intros Hf. apply Forall_app in Hf as [Hf1 Hf2].
    specialize (A6 Hf1). specialize (B6 Hf2). lia.
  - exists (e1 ++ e2)%list. split; [| split].
    + rewrite E2, E1, app_assoc. reflexivity.
    + rewrite length_app, Nat2Z.inj_add. lia.
    + apply Forall_app. split.
      * eapply List.Forall_impl; [| exact F1].
        intros e (o & msg & Hin & He). exists o, msg.
        split; [apply in_or_app; left; assumption | assumption].
      * eapply List.Forall_impl; [| exact F2].
        intros e (o & msg & Hin & He). exists o, msg.
        split; [apply in_or_app; right; assumption | assumption].
Qed.

Lemma loop_progress (l : list Order) (st : BulkState) :
  progress l st (fold_left step l st).
Proof.
  revert st. induction l as [|o l IH]; intros st.
  - cbn. split; cbn; try lia.
    exists []. rewrite app_nil_r. split; [reflexivity | split; [cbn; lia | constructor]].
  - cbn [fold_left].
    change (progress ([o] ++ l)%list st (fold_left step l (step st o))).
    eapply progress_trans; [apply step_progress | apply IH].
Qed.

(** The parts of the batch contract that hold on every run: the loop
    reaches every order to process whatever happened to the ones before,
    [total] is their number, every order raises at least one of the two
    counters and each counter by at most one, the reported errors are the
    first ten messages, each message starts with the number of an order
    of the batch, and when recording a mapping never raises the two
    counters add up to [total]. *)
Lemma batch_summary page_fuel fuel rq d all_orders tr0 :
  check_credentials current_user = true ->
  check_smartbill_credentials current_user = true ->
  gather_orders upstream format_date page_fuel fuel rq 0 [] []
    = Some (inr all_orders, tr0) ->
  let to_process := orders_to_process current_user rq d all_orders in
  exists n_ok n_failed all_errors d' tr,
    run page_fuel fuel rq d
      = Some (BulkSummary (Z.of_nat (length to_process)) n_ok n_failed
                (firstn 10 all_errors), d', tr)
    /\ attempted tr = to_process
    /\ 0 <= n_ok <= Z.of_nat (length to_process)
    /\ 0 <= n_failed <= Z.of_nat (length to_process)
    /\ Z.of_nat (length to_process) <= n_ok + n_failed
    /\ Z.of_nat (length all_errors) = n_failed
    /\ Forall (fun e => exists o msg,
                 In o to_process
                 /\ e = "Order " ++ default "N/A" (orderNumber o) ++ ": " ++ msg)
         all_errors
    /\ (Forall (fun o => sqlite_fault o = None) to_process ->
        n_ok + n_failed = Z.of_nat (length to_process)).
Proof.
  intros H1 H2 Hg to_process. subst run.
  rewrite (BulkFacts.run_unfold _ _ _ _ _ _ _ _ _ _ _ _ _ _ _ H1 H2 Hg).
  cbv zeta. fold to_process. fold step.
  destruct (loop_progress to_process (initial_state d tr0))
    as [A1 A2 A3 A4 A5 A6 (extra & E & L & F)].
  cbn [initial_state successful failed errors] in *.
  set (st := fold_left step to_process (initial_state d tr0)) in *.
  exists (successful st), (failed st), (errors st), (db st), (trace st).
  split.
  { unfold summary. rewrite PyFacts.slice_to_firstn by lia. reflexivity. }
  split.
  { subst st step. rewrite BulkFacts.loop_attempted. cbn [initial_state trace].
    rewrite (BulkFacts.gather_attempted _ _ _ _ _ _ _ _ _ _ Hg). reflexivity. }
  rewrite E. cbn [app].
  repeat split; try lia; assumption.
Qed.

End Run.

(** The scenario of the specification: the provider answers 400 for the
    third of five orders; the batch goes on and reports four successes,
    one failure and one message, about order ["A3"]. *)
Example third_of_five_rejected :
  exists d' tr,
    bulk_send_to_smartbill (Scenario.marketplace Scenario.five_orders)
      Scenario.same_date Scenario.no_postal (Scenario.provider_rejecting "A3")
      Scenario.one_series Scenario.no_env "2025-01-31" Scenario.no_fault
      Scenario.seller 3 3 (Scenario.request 5 "") Scenario.empty_db
    = Some (BulkSummary 5 4 1
              ["Order A3: Bad request - invalid invoice data: invalid product"],
            d', tr).
Proof. eexists _, _. vm_compute. reflexivity. Qed.

(** C3 (the code against the claim).  One order to process, the invoice
    is created, and [sqlite3] raises while its mapping is recorded:
    [successful] was already incremented, the handler increments [failed],
    and the summary counts the one order on both sides. *)
Theorem recording_failure_counted_twice :
  bulk_send_to_smartbill (Scenario.marketplace [Scenario.o1])
    Scenario.same_date Scenario.no_postal Scenario.provider_ok
    Scenario.one_series Scenario.no_env "2025-01-31" (Scenario.locked_for "A1")
    Scenario.seller 3 3 (Scenario.request 5 "") Scenario.empty_db
  = Some (BulkSummary 1 1 1 ["Order A1: database is locked"],
          Scenario.empty_db,
          [GetOrders 0; GenerateInvoiceData Scenario.o1;
           CreateInvoice (generate_invoice_data_from_order Scenario.no_postal
                            Scenario.one_series Scenario.no_env "2025-01-31"
                            Scenario.seller Scenario.o1 Scenario.seller true)]).
Proof. vm_compute. reflexivity. Qed.

End SummaryFacts.

(** ** The mapping table: one row per (user, order) *)

Module StoreFacts.

Import UserManager SmartBillService App.

Lemma has_key_iff (uid : Z) (oid : string) (r : Row) :
  has_key uid oid r = true <-> key_of r = (uid, oid).
Proof.
  unfold has_key, key_of. rewrite andb_true_iff, Z.eqb_eq, String.eqb_eq.
  split; [intros [-> ->]; reflexivity | intros [= -> ->]; split; reflexivity].
Qed.

Lemma no_key_iff (uid : Z) (oid : string) (l : list Row) :
  existsb (has_key uid oid) l = false <-> ~ In (uid, oid) (map key_of l).
Proof.
  induction l as [|r l IH]; cbn; [tauto |].
  rewrite orb_false_iff, IH.
  destruct (has_key uid oid r) eqn:Hk.
  - apply has_key_iff in Hk. split; [intros [? _]; discriminate | tauto].
  - split; [| tauto]. intros [_ Hn] [He | Hin]; [| tauto].
    apply has_key_iff in He. congruence.
Qed.

Lemma NoDup_cons_In {A} (a : A) (l : list A) :
  NoDup (a :: l) <-> ~ In a l /\ NoDup l.
Proof. rewrite NoDup_cons, list_elem_of_In. reflexivity. Qed.

Lemma NoDup_cons_intro {A} (a : A) (l : list A) :
  ~ In a l -> NoDup l -> NoDup (a :: l).
Proof. intros. apply NoDup_cons_In. split; assumption. Qed.

Lemma in_map_filter {A B} (f : A -> B) (p : A -> bool) (l : list A) (b : B) :
  In b (map f (List.filter p l)) -> In b (map f l).
Proof.
  rewrite !in_map_iff. intros (a & Ha & Hin).
  apply filter_In in Hin as [Hin _]. eauto.
Qed.

Lemma NoDup_map_filter {A B} (f : A -> B) (p : A -> bool) (l : list A) :
  NoDup (map f l) -> NoDup (map f (List.filter p l)).
Proof.
  induction l as [|a l IH]; cbn; [trivial |].
  intros H. apply NoDup_cons_In in H as [Hn Hd].
  destruct (p a); cbn; [| auto].
  apply NoDup_cons_intro; [| auto].
  intros Hin. apply Hn. eapply in_map_filter. exact Hin.
Qed.

Lemma NoDup_map_snoc {A B} (f : A -> B) (l : list A) (a : A) :
  NoDup (map f l) -> ~ In (f a) (map f l) -> NoDup (map f (l ++ [a])).
Proof.
  intros Hd Hn. rewrite map_app. cbn.
  apply NoDup_app. split; [assumption |]. split.
  - intros x Hx Hx'. apply list_elem_of_In in Hx, Hx'.
    cbn in Hx'. destruct Hx' as [<- | []]. contradiction.
  - apply NoDup_cons_intro; [intros [] | constructor].
Qed.

Lemma Forall_filter_keep {A} (P : A -> Prop) (p : A -> bool) (l : list A) :
  Forall P l -> Forall P (List.filter p l).
Proof.
  rewrite !List.Forall_forall. intros H x Hx.
  apply filter_In in Hx as [Hx _]. auto.
Qed.

Lemma unique_count (d : DB) (uid : Z) (oid : string) :
  unique_keys d -> (count_rows uid oid d <= 1)%nat.
Proof.
  unfold unique_keys, count_rows. induction (rows d) as [|r l IH]; cbn; [lia |].
  intros H. apply NoDup_cons_In in H as [Hn Hd]. specialize (IH Hd).
  destruct (has_key uid oid r) eqn:Hk; cbn; [| assumption].
  apply has_key_iff in Hk. rewrite Hk in Hn.
  apply no_key_iff in Hn.
  assert (Hnil : List.filter (has_key uid oid) l = []).
  { clear -Hn. induction l as [|x l IH]; [reflexivity |].
    cbn in *. apply orb_false_iff in Hn as [Hx Hl]. rewrite Hx. auto. }
  rewrite Hnil. cbn. lia.
Qed.

Lemma delete_order_wf (uid : Z) (oid : string) (d : DB) :
  well_formed d -> well_formed (delete_order uid oid d).
Proof.
  intros (Hk & Hi & Hb). unfold well_formed, unique_keys, delete_order. cbn.
  split; [apply NoDup_map_filter; assumption |].
  split; [apply NoDup_map_filter; assumption | apply Forall_filter_keep; assumption].
Qed.

Lemma delete_by_id_wf (rid uid : Z) (d : DB) :
  well_formed d -> well_formed (delete_by_id rid uid d).1.
Proof.
  intros (Hk & Hi & Hb). unfold well_formed, unique_keys, delete_by_id. cbn.
  split; [apply NoDup_map_filter; assumption |].
  split; [apply NoDup_map_filter; assumption | apply Forall_filter_keep; assumption].
Qed.

Lemma insert_wf (uid : Z) (oid series number : string) (d d' : DB) :
  well_formed d -> insert uid oid series number d = Some d' -> well_formed d'.
Proof.
  intros (Hk & Hi & Hb) H. unfold insert in H.
  destruct (existsb _ _) eqn:He; [discriminate |]. simplify_eq.
  apply no_key_iff in He.
  unfold well_formed, unique_keys. cbn [rows next_id].
  split; [apply (NoDup_map_snoc key_of); assumption |].
  split.
  - apply (NoDup_map_snoc row_id); [assumption |]. cbn [row_id].
    intros Hin. apply in_map_iff in Hin as (r & Hr & Hin).
    rewrite List.Forall_forall in Hb. specialize (Hb r Hin). lia.
  - apply Forall_app. split.
    + eapply List.Forall_impl; [| exact Hb]. cbn. intros; lia.
    + constructor; [cbn; lia | constructor].
Qed.

(** After an insert there is exactly one row for the key, and it holds
    the series and number just given. *)
Lemma insert_recorded (uid : Z) (oid series number : string) (d d' : DB) :
  insert uid oid series number d = Some d' ->
  count_rows uid oid d' = 1%nat
  /\ exists r, select_one uid oid d' = Some r
               /\ invoice_series r = series /\ invoice_number r = number.
Proof.
  intros H. unfold insert in H.
  destruct (existsb _ _) eqn:He; [discriminate |]. simplify_eq.
  assert (Hself : has_key uid oid
                    {| row_id := next_id d; user_id := uid; order_id := oid;
                       invoice_series := series; invoice_number := number |} = true)
    by (apply has_key_iff; reflexivity).
  unfold count_rows, select_one. cbn [rows].
  revert He. induction (rows d) as [|x l IH]; cbn [existsb app]; intros He.
  - cbn. rewrite Hself. cbn. split; [reflexivity | eauto].
  - apply orb_false_iff in He as [Hx Hl]. cbn. rewrite Hx. auto.
Qed.

Section Update.

Variables (rid uid : Z) (oid series number : string).

Let hit (r : Row) : bool := (row_id r =? rid) && (user_id r =? uid).
Let upd (r : Row) : Row :=
  if hit r
  then {| row_id := row_id r; user_id := user_id r; order_id := oid;
          invoice_series := series; invoice_number := number |}
  else r.

Lemma upd_key (r : Row) :
  key_of (upd r) = if hit r then (uid, oid) else key_of r.
Proof.
  unfold upd. destruct (hit r) eqn:H; [| reflexivity].
  unfold hit in H. apply andb_true_iff in H as [_ H]. apply Z.eqb_eq in H.
  unfold key_of. cbn. congruence.
Qed.

Lemma upd_row_id (r : Row) : row_id (upd r) = row_id r.
Proof. unfold upd. destruct (hit r); reflexivity. Qed.

Lemma hit_row_id (r : Row) : hit r = true -> row_id r = rid.
Proof.
  unfold hit. intros H. apply andb_true_iff in H as [H _].
  apply Z.eqb_eq. assumption.
Qed.

(** The update keeps the keys distinct when the only rows that hold
    the new key are rows with the updated id. *)
Lemma upd_keys_distinct (l : list Row) :
  NoDup (map key_of l) -> NoDup (map row_id l) ->
  (forall y, In y l -> has_key uid oid y = true -> row_id y = rid) ->
  NoDup (map key_of (map upd l)).
Proof.
  induction l as [|r l IH]; intros Hk Hi Hc; [constructor |].
  cbn in Hk, Hi. apply NoDup_cons_In in Hk as [Hkn Hkd].
  apply NoDup_cons_In in Hi as [Hin Hid].
  assert (Hother : forall x, In x l -> row_id x <> row_id r).
  { intros x Hx E. apply Hin. apply in_map_iff. eauto. }
  cbn [map]. apply NoDup_cons_intro.
  - intros Hmem. apply in_map_iff in Hmem as (x & Hx & Hxin).
    apply in_map_iff in Hxin as (y & <- & Hy).
    rewrite !upd_key in Hx.
    destruct (hit r) eqn:Hr, (hit y) eqn:Hy'.
    + apply hit_row_id in Hr, Hy'. apply (Hother y Hy). congruence.
    + apply hit_row_id in Hr. apply (Hother y Hy).
      rewrite Hr. apply Hc; [right; assumption |].
      apply has_key_iff. assumption.
    + apply hit_row_id in Hy'. apply (Hother y Hy).
      rewrite Hy'. symmetry. apply Hc; [left; reflexivity |].
      apply has_key_iff. congruence.
    + apply Hkn. apply in_map_iff. exists y. split; assumption.
  - apply IH; [assumption | assumption |].
    intros y Hy. apply Hc. right. assumption.
Qed.

Lemma update_by_id_wf (d d' : DB) :
  well_formed d -> update_by_id rid uid oid series number d = Some d' ->
  well_formed d'.
Proof.
  intros (Hk & Hi & Hb) H. unfold update_by_id in H.
  destruct (existsb _ _ && existsb _ _) eqn:He; [discriminate |]. simplify_eq.
  unfold well_formed, unique_keys in *. cbn [rows next_id].
  change (NoDup (map key_of (map upd (rows d)))
          /\ NoDup (map row_id (map upd (rows d)))
          /\ Forall (fun r => row_id r < next_id d) (map upd (rows d))).
  assert (Hid : map row_id (map upd (rows d)) = map row_id (rows d)).
  { rewrite map_map. apply map_ext. apply upd_row_id. }
  split; [| split].
  - destruct (existsb (fun r => hit r) (rows d)) eqn:Hhit.
    + change (existsb (fun r => (row_id r =? rid) && (user_id r =? uid)) (rows d))
        with (existsb (fun r => hit r) (rows d)) in He.
      rewrite Hhit in He. cbn [andb] in He.
      apply upd_keys_distinct; [assumption | assumption |].
      intros y Hy Hyk.
      destruct (Z.eqb_spec (row_id y) rid) as [E | E]; [assumption |].
      exfalso. rewrite <- not_true_iff_false in He. apply He.
      apply existsb_exists. exists y. split; [assumption |].
      rewrite Hyk. apply Z.eqb_neq in E. rewrite E. reflexivity.
    + assert (Hsame : map upd (rows d) = rows d).
      { clear -Hhit. induction (rows d) as [|r l IH]; [reflexivity |].
        cbn in Hhit. apply orb_false_iff in Hhit as [Hr Hl].
        cbn. unfold upd at 1. rewrite Hr. f_equal. auto. }
      rewrite Hsame. assumption.
  - rewrite Hid. assumption.
  - rewrite List.Forall_forall in *. intros x Hx.
    apply in_map_iff in Hx as (y & <- & Hy). rewrite upd_row_id. auto.
Qed.

End Update.

Lemma record_mapping_wf sqlite_fault (u : User) (order : Order)
    (series number order_number : string) (d d' : DB) :
  well_formed d ->
  record_mapping sqlite_fault u order series number order_number d = inl d' ->
  well_formed d'
  /\ count_rows (id u) order_number d' = 1%nat
  /\ exists r, select_one (id u) order_number d' = Some r
               /\ invoice_series r = series /\ invoice_number r = number.
Proof.
  intros Hwf H. unfold record_mapping in H.
  destruct (sqlite_fault order); [discriminate |].
  destruct (insert _ _ _ _ _) as [d''|] eqn:Hins; [| discriminate]. simplify_eq.
  split.
  - eapply insert_wf; [| exact Hins]. apply delete_order_wf. assumption.
  - eapply insert_recorded. exact Hins.
Qed.

Section Run.

Variable upstream : TrendyolService.Params -> TrendyolService.Response.
Variable format_date : string -> string.
Variable postal_lookup : string -> option (string * string).
Variable post_invoice : InvoiceData -> HttpOutcome.
Variable series_request : Service -> SeriesResult.
Variable getenv : string -> option string.
Variable today : string.
Variable sqlite_fault : Order -> option string.
Variable current_user : User.

Let step := process_order postal_lookup post_invoice series_request getenv
              today sqlite_fault current_user.

Lemma step_wf (st : BulkState) (order : Order) :
  well_formed (db st) -> well_formed (db (step st order)).
Proof.
  intros Hwf. subst step. unfold process_order. cbv zeta.
  repeat case_match; cbn [db count_failure log]; try assumption.
  match goal with
  | H : record_mapping _ _ _ _ _ _ _ = inl _ |- _ =>
      apply record_mapping_wf in H; [apply H | assumption]
  end.
Qed.

Lemma loop_wf (l : list Order) (st : BulkState) :
  well_formed (db st) -> well_formed (db (fold_left step l st)).
Proof.
  revert st. induction l as [|o l IH]; intros st H; [assumption |].
  cbn. apply IH. apply step_wf. assumption.
Qed.

Lemma run_wf page_fuel fuel rq d response d' tr :
  well_formed d ->
  bulk_send_to_smartbill upstream format_date postal_lookup post_invoice
    series_request getenv today sqlite_fault current_user page_fuel fuel rq d
  = Some (response, d', tr) ->
  well_formed d'.
Proof.
  intros Hwf H. unfold bulk_send_to_smartbill in H.
  repeat case_match; simplify_eq; try assumption.
  apply loop_wf. assumption.
Qed.

Lemma create_wf (invoice_data : InvoiceData) (d : DB) :
  well_formed d ->
  well_formed (create_smartbill_invoice post_invoice getenv current_user
                 invoice_data d).2.
Proof.
  intros Hwf. unfold create_smartbill_invoice.
  repeat case_match; cbn [snd]; try assumption.
  eapply insert_wf; eassumption.
Qed.

Let draft (order : Order) :=
  generate_invoice_data_from_order postal_lookup series_request getenv today
    current_user order current_user true.

(** The step of the loop for an order the provider accepts with a series
    and a number: the rows of the (user, order) are deleted, the other rows
    stay, and one new row is appended under the next id. *)
Lemma step_replaces (st : BulkState) (order : Order) (text : string)
    (json : InvoiceJson) :
  check_smartbill_credentials current_user = true ->
  post_invoice (draft order) = Http 200 text json ->
  j_error json = None ->
  Py.truthy (get_str (j_series json)) && Py.truthy (get_str (j_number json))
    && Py.truthy (get_str (orderNumber order)) = true ->
  sqlite_fault order = None ->
  db (step st order)
  = {| rows := (List.filter
                  (fun r => negb (has_key (id current_user)
                                    (get_str (orderNumber order)) r))
                  (rows (db st))
                ++ [{| row_id := next_id (db st);
                       user_id := id current_user;
                       order_id := get_str (orderNumber order);
                       invoice_series := get_str (j_series json);
                       invoice_number := get_str (j_number json) |}])%list;
       next_id := next_id (db st) + 1 |}.
Proof.
  intros Hc Hp He Hm Hf. subst step draft. unfold process_order. cbv zeta.
  destruct (CredentialFacts.service_of_checked getenv current_user Hc)
    as (svc & Hs & Hh & Hcif).
  rewrite Hs. unfold create_invoice. rewrite Hh, Hcif. cbn [negb].
  rewrite Hp. cbn [Z.eqb Pos.eqb]. rewrite He. cbn [db log successful failed errors trace].
  rewrite Hm. unfold record_mapping. rewrite Hf.
  unfold insert. cbn [rows next_id delete_order].
  assert (Hgone : existsb (has_key (id current_user) (get_str (orderNumber order)))
                    (List.filter
                       (fun r => negb (has_key (id current_user)
                                         (get_str (orderNumber order)) r))
                       (rows (db st))) = false).
  { induction (rows (db st)) as [|r l IH]; [reflexivity |].
    cbn [List.filter]. destruct (has_key _ _ r) eqn:Hk; cbn [negb]; [exact IH |].
    cbn [existsb]. rewrite Hk, IH. reflexivity. }
  rewrite Hgone. reflexivity.
Qed.

Lemma find_other_key (uid : Z) (oid oid' : string) (l : list Row) (r' : Row) :
  oid' <> oid ->
  user_id r' = uid -> order_id r' = oid' ->
  List.find (has_key uid oid)
    (List.filter (fun r => negb (has_key uid oid' r)) l ++ [r'])
  = List.find (has_key uid oid) l.
Proof.
  intros Hne Hu Ho.
  assert (Hr' : has_key uid oid r' = false).
  { unfold has_key. rewrite Ho. apply andb_false_iff. right.
    apply String.eqb_neq. assumption. }
  induction l as [|r l IH]; cbn [List.filter app List.find].
  - rewrite Hr'. reflexivity.
  - destruct (has_key uid oid' r) eqn:Hk'; cbn [negb].
    + assert (Hk : has_key uid oid r = false).
      { apply has_key_iff in Hk'. unfold has_key, key_of in *.
        injection Hk' as _ Hk'. rewrite Hk'. apply andb_false_iff. right.
        apply String.eqb_neq. assumption. }
      rewrite Hk. exact IH.
    + cbn [app List.find]. destruct (has_key uid oid r); [reflexivity | exact IH].
Qed.

(** The step of an order leaves the row of every other order number of
    the user as it was. *)
Lemma step_keeps_other_orders (st : BulkState) (order : Order) (oid : string) :
  get_str (orderNumber order) <> oid ->
  select_one (id current_user) oid (db (step st order))
  = select_one (id current_user) oid (db st).
Proof.
  intros Hne. subst step. unfold process_order, record_mapping. cbv zeta.
  repeat case_match; simplify_eq; cbn [db count_failure log]; try reflexivity.
  match goal with
  | H : insert _ _ _ _ _ = Some _ |- _ =>
      unfold insert in H; destruct (existsb _ _); [discriminate |];
      injection H as <-
  end.
  unfold select_one. cbn [rows delete_order].
  apply find_other_key; [assumption | reflexivity | reflexivity].
Qed.

Lemma loop_keeps_other_orders (l : list Order) (st : BulkState) (oid : string) :
  ~ In oid (map (fun o => get_str (orderNumber o)) l) ->
  select_one (id current_user) oid (db (fold_left step l st))
  = select_one (id current_user) oid (db st).
Proof.
  revert st. induction l as [|o l IH]; intros st Hn; [reflexivity |].
  cbn [fold_left]. rewrite IH by (intros Hin; apply Hn; right; exact Hin).
  apply step_keeps_other_orders. intros E. apply Hn. left. exact E.
Qed.

Lemma find_after_none {A} (p : A -> bool) (l l' : list A) :
  List.find p l = None -> List.find p (l ++ l') = List.find p l'.
Proof.
  induction l as [|a l IH]; [reflexivity |].
  cbn [List.find app]. destruct (p a); [discriminate | exact IH].
Qed.

(** In a loop over orders with distinct numbers, the row written for an
    accepted order is still the row of its number when the loop ends. *)
Lemma loop_records (l : list Order) (st : BulkState) (order : Order)
    (text : string) (json : InvoiceJson) :
  NoDup (map (fun o => get_str (orderNumber o)) l) ->
  In order l ->
  check_smartbill_credentials current_user = true ->
  post_invoice (draft order) = Http 200 text json ->
  j_error json = None ->
  Py.truthy (get_str (j_series json)) && Py.truthy (get_str (j_number json))
    && Py.truthy (get_str (orderNumber order)) = true ->
  sqlite_fault order = None ->
  exists r,
    select_one (id current_user) (get_str (orderNumber order))
      (db (fold_left step l st)) = Some r
    /\ invoice_series r = get_str (j_series json)
    /\ invoice_number r = get_str (j_number json).
Proof.
  intros Hd Hin Hc Hp He Hm Hf. revert st Hd Hin.
  induction l as [|o l IH]; intros st Hd Hin; [destruct Hin |].
  cbn [map] in Hd. apply NoDup_cons_In in Hd as [Hn Hd].
  cbn [fold_left]. destruct Hin as [-> | Hin]; [| apply IH; assumption].
  rewrite loop_keeps_other_orders by exact Hn.
  rewrite (step_replaces st order text json Hc Hp He Hm Hf).
  unfold select_one. cbn [rows].
  eexists. split; [| split].
  - assert (Hnone : List.find (has_key (id current_user) (get_str (orderNumber order)))
                      (List.filter
                         (fun r => negb (has_key (id current_user)
                                           (get_str (orderNumber order)) r))
                         (rows (db st))) = None).
    { induction (rows (db st)) as [|r l' IH']; [reflexivity |].
      cbn [List.filter]. destruct (has_key _ _ r) eqn:Hk; cbn [negb]; [exact IH' |].
      cbn [List.find]. rewrite Hk. exact IH'. }
    rewrite (find_after_none _ _ _ Hnone). cbn [List.find].
    assert (Hself : forall s n,
               has_key (id current_user) (get_str (orderNumber order))
                 {| row_id := next_id (db st); user_id := id current_user;
                    order_id := get_str (orderNumber order);
                    invoice_series := s; invoice_number := n |} = true)
      by (intros; apply has_key_iff; reflexivity).
    rewrite Hself. reflexivity.
  - reflexivity.
  - reflexivity.
Qed.

Lemma found_is_counted (uid : Z) (oid : string) (d : DB) (r : Row) :
  select_one uid oid d = Some r -> (1 <= count_rows uid oid d)%nat.
Proof.
  unfold select_one, count_rows. induction (rows d) as [|x l IH]; [discriminate |].
  cbn [List.find List.filter]. destruct (has_key uid oid x); cbn [length]; [lia | exact IH].
Qed.

End Run.

Lemma admin_add_wf (u : User) (a b c : string) (d : DB) :
  well_formed d -> well_formed (admin_add_invoice u a b c d).2.
Proof.
  intros Hwf. unfold admin_add_invoice, admin_required.
  repeat case_match; simplify_eq; cbn [snd]; try assumption.
  eapply insert_wf; eassumption.
Qed.

Lemma admin_edit_wf (u : User) (rid : Z) (a b c : string) (d : DB) :
  well_formed d -> well_formed (admin_edit_invoice u rid a b c d).2.
Proof.
  intros Hwf. unfold admin_edit_invoice, admin_required.
  repeat case_match; simplify_eq; cbn [snd]; try assumption.
  eapply update_by_id_wf; eassumption.
Qed.

Lemma admin_delete_wf (u : User) (rid : Z) (d : DB) :
  well_formed d -> well_formed (admin_delete_invoice u rid d).2.
Proof.
  intros Hwf. unfold admin_delete_invoice, admin_required.
  pose proof (delete_by_id_wf rid (id u) d Hwf) as Hdel.
  repeat case_match; simplify_eq; cbn [snd fst] in *; assumption.
Qed.

(** C2.  On a table that has at most one row per (user, order), with
    distinct row ids below the counter: no key has two rows; the [sqlite3]
    block of bulk-create, when it commits, leaves exactly one row for the
    (user, order), holding the new series and number (the prior row is
    replaced, not duplicated); and bulk-create, single create and the
    admin add, edit and delete all leave a table with the same property.
    The step of bulk-create for an order that the provider accepts with a
    series and a number deletes the rows of the (user, order), keeps the
    others and appends one row with the new series and number under the
    next id; and after a run over orders with distinct numbers, every order
    so accepted has exactly one row, which holds its series and number. *)
Theorem one_mapping_per_order (d : DB) :
  well_formed d ->
  (forall uid oid, (count_rows uid oid d <= 1)%nat)
  /\ (forall sqlite_fault u order series number order_number d',
        record_mapping sqlite_fault u order series number order_number d = inl d' ->
        well_formed d'
        /\ count_rows (id u) order_number d' = 1%nat
        /\ exists r, select_one (id u) order_number d' = Some r
                     /\ invoice_series r = series /\ invoice_number r = number)
  /\ (forall upstream format_date postal_lookup post_invoice series_request
             getenv today sqlite_fault u page_fuel fuel rq response d' tr,
        bulk_send_to_smartbill upstream format_date postal_lookup post_invoice
          series_request getenv today sqlite_fault u page_fuel fuel rq d
        = Some (response, d', tr) ->
        well_formed d' /\ forall uid oid, (count_rows uid oid d' <= 1)%nat)
  /\ (forall post_invoice getenv u invoice_data,
        well_formed (create_smartbill_invoice post_invoice getenv u invoice_data d).2)
  /\ (forall u a b c, well_formed (admin_add_invoice u a b c d).2)
  /\ (forall u rid a b c, well_formed (admin_edit_invoice u rid a b c d).2)
  /\ (forall u rid, well_formed (admin_delete_invoice u rid d).2)
  /\ (forall postal_lookup post_invoice series_request getenv today sqlite_fault
             u st order text json,
        db st = d ->
        check_smartbill_credentials u = true ->
        post_invoice (generate_invoice_data_from_order postal_lookup
                        series_request getenv today u order u true)
        = Http 200 text json ->
        j_error json = None ->
        Py.truthy (get_str (j_series json)) && Py.truthy (get_str (j_number json))
          && Py.truthy (get_str (orderNumber order)) = true ->
        sqlite_fault order = None ->
        db (process_order postal_lookup post_invoice series_request getenv today
              sqlite_fault u st order)
        = {| rows := (List.filter
                        (fun r => negb (has_key (id u) (get_str (orderNumber order)) r))
                        (rows d)
                      ++ [{| row_id := next_id d;
                             user_id := id u;
                             order_id := get_str (orderNumber order);
                             invoice_series := get_str (j_series json);
                             invoice_number := get_str (j_number json) |}])%list;
             next_id := next_id d + 1 |})
  /\ (forall upstream format_date postal_lookup post_invoice series_request
             getenv today sqlite_fault u page_fuel fuel rq all_orders tr0
             response d' tr order text json,
        check_credentials u = true ->
        check_smartbill_credentials u = true ->
        gather_orders upstream format_date page_fuel fuel rq 0 [] []
        = Some (inr all_orders, tr0) ->
        bulk_send_to_smartbill upstream format_date postal_lookup post_invoice
          series_request getenv today sqlite_fault u page_fuel fuel rq d
        = Some (response, d', tr) ->
        NoDup (map (fun o => get_str (orderNumber o))
                 (orders_to_process u rq d all_orders)) ->
        In order (orders_to_process u rq d all_orders) ->
        post_invoice (generate_invoice_data_from_order postal_lookup
                        series_request getenv today u order u true)
        = Http 200 text json ->
        j_error json = None ->
        Py.truthy (get_str (j_series json)) && Py.truthy (get_str (j_number json))
          && Py.truthy (get_str (orderNumber order)) = true ->
        sqlite_fault order = None ->
        count_rows (id u) (get_str (orderNumber order)) d' = 1%nat
        /\ exists r,
             select_one (id u) (get_str (orderNumber order)) d' = Some r
             /\ invoice_series r = get_str (j_series json)
             /\ invoice_number r = get_str (j_number json)).
Proof.
  intros Hwf.
  split; [intros uid oid; apply unique_count; apply Hwf |].
  split; [intros; eapply record_mapping_wf; eassumption |].
  split.
  { intros. assert (well_formed d') as Hd' by (eapply run_wf; eassumption).
    split; [exact Hd' | intros uid oid; apply unique_count; apply Hd']. }
  split; [intros; apply create_wf; assumption |].
  split; [intros; apply admin_add_wf; assumption |].
  split; [intros; apply admin_edit_wf; assumption |].
  split; [intros; apply admin_delete_wf; assumption |].
  split.
  { intros pl pi sr ge td sf u st order text json <- Hc Hp He Hm Hf.
    apply (step_replaces pl pi sr ge td sf u st order text json Hc Hp He Hm Hf). }
  intros up fd pl pi sr ge td sf u page_fuel fuel rq all_orders tr0 response d' tr
    order text json H1 H2 Hg Hrun Hnd Hin Hp He Hm Hf.
  assert (Hd' : well_formed d') by (eapply run_wf; eassumption).
  unfold bulk_send_to_smartbill in Hrun. rewrite H1, H2, Hg in Hrun.
  cbn [negb] in Hrun. cbv zeta in Hrun. injection Hrun as _ <- _.
  destruct (loop_records pl pi sr ge td sf u (orders_to_process u rq d all_orders)
              (initial_state d tr0) order text json Hnd Hin H2 Hp He Hm Hf)
    as (r & Hr & Hs & Hn).
  split.
  - apply Nat.le_antisymm; [apply unique_count; apply Hd' |].
    eapply found_is_counted. exact Hr.
  - exists r. auto.
Qed.

Lemma one_mapping_per_order_witness :
  (exists d',
     record_mapping Scenario.no_fault Scenario.seller Scenario.o2 "TRD" "0008" "A2"
       Scenario.db_with_A2 = inl d'
     /\ count_rows 7 "A2" d' = 1%nat
     /\ exists r, select_one 7 "A2" d' = Some r /\ invoice_number r = "0008")
  /\ db (process_order Scenario.no_postal Scenario.provider_ok Scenario.one_series
           Scenario.no_env "2025-01-31" Scenario.no_fault Scenario.seller
           (initial_state Scenario.db_with_A2 []) Scenario.o2)
     = {| rows := [{| row_id := 2; user_id := 7; order_id := "A2";
                      invoice_series := "TRD"; invoice_number := "0001" |}];
          next_id := 3 |}.
Proof.
  assert (Hwf : well_formed Scenario.db_with_A2).
  { split; [| split]; cbn.
    - apply NoDup_cons_intro; [intros [] | constructor].
    - apply NoDup_cons_intro; [intros [] | constructor].
    - constructor; [cbn; lia | constructor]. }
  destruct (one_mapping_per_order Scenario.db_with_A2 Hwf)
    as (_ & Hrec & _ & _ & _ & _ & _ & Hstep & _).
  split.
  - destruct (record_mapping Scenario.no_fault Scenario.seller Scenario.o2
                "TRD" "0008" "A2" Scenario.db_with_A2) as [d'|e] eqn:E;
      [| vm_compute in E; discriminate].
    exists d'. split; [reflexivity |].
    destruct (Hrec _ _ _ _ _ _ _ E) as (_ & Hc & r & Hs & _ & Hn).
    split; [exact Hc | exists r; split; [exact Hs | exact Hn]].
  - rewrite (Hstep Scenario.no_postal Scenario.provider_ok Scenario.one_series
               Scenario.no_env "2025-01-31" Scenario.no_fault Scenario.seller
               (initial_state Scenario.db_with_A2 []) Scenario.o2 ""
               {| j_error := None; j_series := Some "TRD"; j_number := Some "0001" |}
               eq_refl eq_refl ltac:(vm_compute; reflexivity) eq_refl eq_refl
               eq_refl).
    reflexivity.
Defined.

End StoreFacts.

(** ** The order fetch *)

Module FetchFacts.

Import TrendyolService MultiStatusSpec FetchSpec.

(** *** Comma-separated status strings *)

Lemma prefix_empty (s : string) : String.prefix "" s = true.
Proof. destruct s; reflexivity. Qed.

Lemma contains_cons_false (a : string) (c : ascii) (s : string) :
  Py.contains a (String c s) = false ->
  String.prefix a (String c s) = false /\ Py.contains a s = false.
Proof. cbn [Py.contains]. intros H. apply orb_false_iff in H. exact H. Qed.

Lemma no_comma_head (c : ascii) (s : string) :
  Py.contains "," (String c s) = false ->
  Ascii.eqb c "," = false /\ Py.contains "," s = false.
Proof.
  intros H. apply contains_cons_false in H. destruct H as [Hp Hc].
  split; [| exact Hc].
  destruct (Ascii.eqb c ",") eqn:E; [| reflexivity].
  apply Ascii.eqb_eq in E. subst c. cbn in Hp.
  rewrite prefix_empty in Hp. discriminate.
Qed.

Lemma contains_comma_app (A B : string) :
  Py.contains "," (A ++ "," ++ B) = true.
Proof.
  induction A as [|c A IH].
  - change ("" ++ "," ++ B) with (String "," B).
    cbn. rewrite prefix_empty. reflexivity.
  - change (String c A ++ "," ++ B) with (String c (A ++ "," ++ B)).
    cbn [Py.contains]. rewrite IH. apply orb_true_r.
Qed.

Lemma truthy_comma_app (A B : string) : Py.truthy (A ++ "," ++ B) = true.
Proof. destruct A; reflexivity. Qed.

Lemma split_no_comma (s : string) :
  Py.contains "," s = false -> Py.split "," s = [s].
Proof.
  induction s as [|c s IH]; intros H; [reflexivity |].
  apply no_comma_head in H. destruct H as [Hc Hs].
  cbn [Py.split]. rewrite Hc, (IH Hs). reflexivity.
Qed.

Lemma split_comma_app (A B : string) :
  Py.contains "," A = false ->
  Py.split "," (A ++ "," ++ B) = A :: Py.split "," B.
Proof.
  induction A as [|c A IH]; intros H; [reflexivity |].
  apply no_comma_head in H. destruct H as [Hc Hs].
  change (String c A ++ "," ++ B) with (String c (A ++ "," ++ B)).
  cbn [Py.split]. rewrite Hc, (IH Hs). reflexivity.
Qed.

Lemma split_pair (A B : string) :
  Py.contains "," A = false -> Py.contains "," B = false ->
  Py.split "," (A ++ "," ++ B) = [A; B].
Proof.
  intros HA HB. rewrite (split_comma_app _ _ HA), (split_no_comma _ HB).
  reflexivity.
Qed.

(** *** The seen-set accumulation is a de-duplication *)

Lemma filter_filter_absorb {A} (P Q : A -> bool) (l : list A) :
  (forall x, P x = true -> Q x = true) ->
  List.filter P (List.filter Q l) = List.filter P l.
Proof.
  intros H. induction l as [|x l IH]; [reflexivity |].
  cbn. destruct (Q x) eqn:EQ; cbn.
  - rewrite IH. reflexivity.
  - destruct (P x) eqn:EP; [| exact IH].
    apply H in EP. congruence.
Qed.

Lemma filter_filter_and {A} (P Q R : A -> bool) (l : list A) :
  (forall x, R x = P x && Q x) ->
  List.filter P (List.filter Q l) = List.filter R l.
Proof.
  intros H. induction l as [|x l IH]; [reflexivity |].
  cbn. rewrite H. destruct (Q x); cbn.
  - destruct (P x); cbn; rewrite IH; reflexivity.
  - rewrite andb_false_r. exact IH.
Qed.

Lemma fold_add_unseen (l : list Order) (acc : list Order)
    (seen : gset (option (Z + string))) :
  (fold_left add_unseen l (acc, seen)).1
  = (acc ++ List.filter (unseen seen) (dedup_by_key l))%list.
Proof.
  revert acc seen. induction l as [|o l IH]; intros acc seen.
  - cbn. rewrite app_nil_r. reflexivity.
  - cbn [fold_left dedup_by_key]. unfold add_unseen at 2. cbn [fst snd].
    destruct (decide (order_key o ∈ seen)) as [Hin|Hout].
    + rewrite IH. f_equal. cbn [List.filter].
      unfold unseen at 2. rewrite (bool_decide_eq_true_2 _ Hin). cbn [negb].
      symmetry. apply filter_filter_absorb.
      intros x Hx. unfold unseen in Hx.
      apply negb_true_iff, bool_decide_eq_false in Hx.
      apply negb_true_iff, bool_decide_eq_false.
      intros E. apply Hx. rewrite E. exact Hin.
    + rewrite IH. rewrite <- app_assoc. f_equal. cbn [List.filter app].
      unfold unseen at 2. rewrite (bool_decide_eq_false_2 _ Hout). cbn [negb].
      f_equal. symmetry. apply filter_filter_and.
      intros x. unfold unseen.
      destruct (decide (order_key x = order_key o)) as [E|E].
      * rewrite (bool_decide_eq_true_2 _ E). cbn. rewrite andb_false_r.
        apply negb_false_iff, bool_decide_eq_true. rewrite E. set_solver.
      * rewrite (bool_decide_eq_false_2 _ E). cbn. rewrite andb_true_r.
        f_equal. apply bool_decide_ext.
        rewrite elem_of_union, elem_of_singleton. tauto.
Qed.

Lemma filter_unseen_empty (l : list Order) : List.filter (unseen ∅) l = l.
Proof.
  induction l as [|x l IH]; [reflexivity |].
  cbn. unfold unseen at 1.
  rewrite bool_decide_eq_false_2 by set_solver. cbn. rewrite IH. reflexivity.
Qed.

Lemma fold_add_unseen_fresh (l : list Order) :
  (fold_left add_unseen l ([], ∅)).1 = dedup_by_key l.
Proof. rewrite fold_add_unseen. cbn. apply filter_unseen_empty. Qed.


(** *** Sorting by date *)

Lemma insert_by_date_perm (x : Order) (l : list Order) :
  Permutation (x :: l) (insert_by_date x l).
Proof.
  induction l as [|y l IH]; cbn; [reflexivity |].
  destruct (date_key x <=? date_key y); [reflexivity |].
  rewrite perm_swap. apply perm_skip. exact IH.
Qed.

Lemma sort_by_date_perm (l : list Order) : Permutation l (sort_by_date l).
Proof.
  induction l as [|x l IH]; cbn; [reflexivity |].
  rewrite <- insert_by_date_perm. apply perm_skip. exact IH.
Qed.

Lemma insert_by_date_sorted (x : Order) (l : list Order) :
  ascending_by_date l -> ascending_by_date (insert_by_date x l).
Proof.
  unfold ascending_by_date.
  induction l as [|y l IH]; intros Hs; cbn.
  - constructor; constructor.
  - inversion Hs as [|? ? Hl Hy]; subst.
    destruct (date_key x <=? date_key y) eqn:E.
    + apply Z.leb_le in E. constructor; [exact Hs |].
      constructor; [exact E |].
      eapply List.Forall_impl; [| exact Hy]. cbn. intros; lia.
    + apply Z.leb_gt in E. constructor; [apply IH; exact Hl |].
      eapply Permutation_Forall; [apply insert_by_date_perm |].
      constructor; [lia | exact Hy].
Qed.

Lemma sort_by_date_sorted (l : list Order) : ascending_by_date (sort_by_date l).
Proof.
  induction l as [|x l IH]; cbn; [constructor |].
  apply insert_by_date_sorted. exact IH.
Qed.

(** *** The page loops *)

Section Loops.

Variable upstream : Params -> Response.
Variable format_date : string -> string.

Lemma status_loop_spec (fuel : nat) (status start_date end_date
    order_number : string) (fetch_page : Z)
    (acc : list Order * gset (option (Z + string))) :
  status_fetch_loop upstream format_date fuel status start_date end_date
    order_number fetch_page acc
  = (fun l => fold_left add_unseen l acc)
      <$> fetch_status upstream format_date fuel status start_date end_date
            order_number fetch_page.
Proof.
  revert fetch_page acc. induction fuel as [|fuel IH]; intros fetch_page acc;
    [reflexivity |].
  cbn [status_fetch_loop fetch_status].
  destruct (upstream _) as [result| |]; [| reflexivity | reflexivity].
  cbv zeta. destruct (_ <? _); [reflexivity |].
  rewrite IH. destruct (fetch_status _ _ _ _ _ _ _ _) as [l|]; [| reflexivity].
  cbn. rewrite fold_left_app. reflexivity.
Qed.

Lemma two_statuses_spec (fuel : nat) (A B : string) (page size : Z)
    (start_date end_date order_number sku_filter : string) :
  _get_orders_multiple_statuses upstream format_date fuel [A; B] page size
    start_date end_date order_number sku_filter
  = merged_fetch upstream format_date fuel A B page size start_date end_date
      order_number sku_filter.
Proof.
  unfold _get_orders_multiple_statuses, merged_fetch. cbn [statuses_loop].
  rewrite status_loop_spec.
  destruct (fetch_status _ _ _ A _ _ _ _) as [la|]; [| reflexivity].
  cbn [fmap option_fmap option_map]. rewrite status_loop_spec.
  destruct (fetch_status _ _ _ B _ _ _ _) as [lb|]; [| reflexivity].
  cbn [fmap option_fmap option_map]. rewrite <- fold_left_app.
  pose proof (fold_add_unseen_fresh (la ++ lb)) as Hd.
  destruct (fold_left add_unseen (la ++ lb) ([], ∅)) as [all seen].
  cbn [fst] in Hd. subst all. reflexivity.
Qed.

(** C4.  For comma-free [A] and [B], the fetch with the status string
    ["A,B"] returns what the specification describes: one paginated fetch for
    [A] (stripped of surrounding blanks) and one for [B], merged, one order
    kept per identifier (id, else order number), the SKU filter if any,
    sorted by date, and the page window taken from that list.  The sort
    returns the same orders with dates that never decrease. *)
Theorem multi_status_fetch_is_merge (fuel : nat) (A B : string) (page size : Z)
    (start_date end_date order_number sku_filter : string) :
  Py.contains "," A = false ->
  Py.contains "," B = false ->
  get_orders upstream format_date fuel page size (A ++ "," ++ B) start_date
    end_date order_number sku_filter
  = OrdersPage <$> merged_fetch upstream format_date fuel (Py.strip A)
                     (Py.strip B) page size start_date end_date order_number
                     sku_filter
  /\ forall l, Permutation l (sort_by_date l) /\ ascending_by_date (sort_by_date l).
Proof.
  intros HA HB. split.
  - unfold get_orders.
    rewrite truthy_comma_app, contains_comma_app. cbn [andb].
    rewrite (split_pair _ _ HA HB). cbn [map].
    rewrite two_statuses_spec. reflexivity.
  - intros l. split; [apply sort_by_date_perm | apply sort_by_date_sorted].
Qed.

End Loops.

Lemma multi_status_fetch_is_merge_witness :
  Py.contains "," "Created" = false
  /\ Py.contains "," " Picking" = false
  /\ get_orders
       (Scenario.marketplace_by_status [Scenario.o3; Scenario.o1]
          [Scenario.o1; Scenario.o2])
       Scenario.same_date 3 0 2 ("Created" ++ "," ++ " Picking") "" "" "" ""
     = Some (OrdersPage {| content := [Scenario.o1; Scenario.o2]; page := 0;
                           size := 2; totalElements := 3; totalPages := 2 |}).
Proof.
  split; [reflexivity |]. split; [reflexivity |].
  destruct (multi_status_fetch_is_merge
              (Scenario.marketplace_by_status [Scenario.o3; Scenario.o1]
                 [Scenario.o1; Scenario.o2])
              Scenario.same_date 3 "Created" " Picking" 0 2 "" "" "" ""
              eq_refl eq_refl) as [H _].
  etransitivity; [exact H |]. vm_compute. reflexivity.
Defined.


(** *** Failures in the multi-status path *)

Lemma slice_nil {A} (a b : Z) : Py.slice (@nil A) a b = [].
Proof. unfold Py.slice. rewrite skipn_nil, firstn_nil. reflexivity. Qed.

Lemma total_pages_zero (size : Z) : total_pages 0 size = 0.
Proof.
  unfold total_pages, Py.floordiv.
  destruct (0 <? size) eqn:E; [| reflexivity].
  apply Z.ltb_lt in E. apply Z.div_small. lia.
Qed.

Lemma paginate_nil (page size : Z) :
  paginate [] page size
  = {| content := []; page := page; size := 0; totalElements := 0;
       totalPages := 0 |}.
Proof.
  unfold paginate. cbv zeta. rewrite slice_nil. cbn [length Z.of_nat].
  rewrite total_pages_zero. reflexivity.
Qed.

Section Failures.

Variable upstream : Params -> Response.
Variable format_date : string -> string.

Lemma fetch_status_total (fuel : nat) (status start_date end_date
    order_number : string) (fetch_page : Z) :
  (exists k, (k < fuel)%nat
             /\ stops (upstream (multi_params format_date
                                   (fetch_page + Z.of_nat k) status start_date
                                   end_date order_number)) = true) ->
  is_Some (fetch_status upstream format_date fuel status start_date end_date
             order_number fetch_page).
Proof.
  revert fetch_page. induction fuel as [|fuel IH]; intros fetch_page (k & Hk & Hs);
    [lia |].
  cbn [fetch_status].
  destruct (upstream (multi_params format_date fetch_page _ _ _ _))
    as [result| |] eqn:E; [| eexists; reflexivity | eexists; reflexivity].
  destruct (_ <? _) eqn:Hshort; [eexists; reflexivity |].
  destruct k as [|k].
  - rewrite Z.add_0_r in Hs. rewrite E in Hs. cbn in Hs. congruence.
  - destruct (IH (fetch_page + 1)) as [l Hl].
    + exists k. split; [lia |].
      replace (fetch_page + 1 + Z.of_nat k) with (fetch_page + Z.of_nat (S k)) by lia.
      exact Hs.
    + rewrite Hl. eexists; reflexivity.
Qed.

Lemma statuses_loop_total (fuel : nat) (statuses : list string)
    (start_date end_date order_number : string)
    (acc : list Order * gset (option (Z + string))) :
  (forall s, In s statuses ->
     exists k, (k < fuel)%nat
               /\ stops (upstream (multi_params format_date (Z.of_nat k) s
                                     start_date end_date order_number)) = true) ->
  is_Some (statuses_loop upstream format_date fuel statuses start_date end_date
             order_number acc).
Proof.
  revert acc. induction statuses as [|s rest IH]; intros acc H;
    [eexists; reflexivity |].
  cbn [statuses_loop]. rewrite status_loop_spec.
  destruct (fetch_status_total fuel s start_date end_date order_number 0) as [l Hl].
  { destruct (H s (or_introl eq_refl)) as (k & Hk & Hs). exists k. split; [exact Hk |].
    rewrite Z.add_0_l. exact Hs. }
  rewrite Hl. cbn. apply IH. intros s' Hs'. apply H. right. exact Hs'.
Qed.

Lemma statuses_loop_all_failed (fuel : nat) (statuses : list string)
    (start_date end_date order_number : string)
    (acc : list Order * gset (option (Z + string))) :
  (forall params, failed (upstream params) = true) ->
  statuses_loop upstream format_date (S fuel) statuses start_date end_date
    order_number acc = Some acc.
Proof.
  intros H. induction statuses as [|s rest IH]; [reflexivity |].
  cbn [statuses_loop status_fetch_loop].
  specialize (H (multi_params format_date 0 s start_date end_date order_number)).
  destruct (upstream _); [discriminate | exact IH | exact IH].
Qed.

(** C9.  With a comma in a non-empty status string, [get_orders] is the
    multi-status path and never answers with an error record.  When, for
    each status, some page within the fuel is short or fails, the answer is
    a page record for the requested page.  When every request fails, the
    answer is the empty page record with [totalElements = 0] and
    [totalPages = 0]. *)
Theorem multi_status_never_errors (fuel : nat) (page size : Z)
    (status start_date end_date order_number sku_filter : string) :
  Py.truthy status = true ->
  Py.contains "," status = true ->
  (forall error code,
     get_orders upstream format_date fuel page size status start_date end_date
       order_number sku_filter <> Some (OrdersError error code))
  /\ ((forall s, In s (map Py.strip (Py.split "," status)) ->
         exists k, (k < fuel)%nat
                   /\ stops (upstream (multi_params format_date (Z.of_nat k) s
                                         start_date end_date order_number)) = true) ->
      exists p,
        get_orders upstream format_date fuel page size status start_date end_date
          order_number sku_filter = Some (OrdersPage p)
        /\ TrendyolService.page p = page
        /\ TrendyolService.size p = Z.of_nat (length (content p)))
  /\ ((0 < fuel)%nat ->
      (forall params, failed (upstream params) = true) ->
      get_orders upstream format_date fuel page size status start_date end_date
        order_number sku_filter
      = Some (OrdersPage {| content := []; page := page; size := 0;
                            totalElements := 0; totalPages := 0 |})).
Proof.
  intros Ht Hc. unfold get_orders. rewrite Ht, Hc. cbn [andb].
  unfold _get_orders_multiple_statuses.
  split; [| split].
  - intros error code.
    destruct (statuses_loop _ _ _ _ _ _ _ _) as [[all seen]|]; cbn; congruence.
  - intros Hstop.
    destruct (statuses_loop_total fuel _ start_date end_date order_number
                ([], ∅) Hstop) as [[all seen] Hl].
    rewrite Hl. cbn. eexists. split; [reflexivity |]. split; reflexivity.
  - intros Hfuel Hfail. destruct fuel as [|fuel]; [lia |].
    rewrite (statuses_loop_all_failed fuel _ start_date end_date order_number
               ([], ∅) Hfail).
    cbn [fmap option_fmap option_map].
    assert (Hnil : (if Py.truthy sku_filter
                    then sku_filter_orders sku_filter []
                    else []) = @nil Order) by (destruct (Py.truthy sku_filter); reflexivity).
    rewrite Hnil. cbn [sort_by_date]. rewrite paginate_nil. reflexivity.
Qed.

End Failures.

Lemma multi_status_never_errors_witness :
  get_orders Scenario.marketplace_down Scenario.same_date 1 0 50
    "Created,Picking" "" "" "" ""
  = Some (OrdersPage {| content := []; page := 0; size := 0;
                        totalElements := 0; totalPages := 0 |}).
Proof.
  destruct (multi_status_never_errors Scenario.marketplace_down
              Scenario.same_date 1 0 50 "Created,Picking" "" "" "" ""
              eq_refl eq_refl) as (_ & _ & H).
  apply H; [lia | intros params; reflexivity].
Defined.


(** *** The fetch-all loop of the SKU path *)

Lemma http_error_status_500 (code : Z) :
  400 <= code < 600 -> http_error_status code = 500.
Proof.
  intros H. unfold http_error_status, response_ok.
  destruct (400 <=? code) eqn:E1; [| apply Z.leb_gt in E1; lia].
  destruct (code <? 600) eqn:E2; [reflexivity | apply Z.ltb_ge in E2; lia].
Qed.

Section FetchAll.

Variable upstream : Params -> Response.
Variable format_date : string -> string.

(** Full pages [ps] served from [fetch_page] on, then a failed request:
    the loop keeps what it has. *)
Lemma sku_fetch_loop_truncated (params : Params) (ps : list Page) :
  forall (fuel : nat) (fetch_page : Z) (all_orders : list Order),
  (length ps < fuel)%nat ->
  (forall i b, ps !! i = Some b ->
     upstream (with_page params (fetch_page + Z.of_nat i)) = Resp200 b
     /\ fetch_size <= Z.of_nat (length (content b))) ->
  failed (upstream (with_page params (fetch_page + Z.of_nat (length ps)))) = true ->
  fetch_page + Z.of_nat (length ps) <> 0 ->
  sku_fetch_loop upstream fuel params fetch_page all_orders
  = Some (Fetched (all_orders ++ concat (map content ps))).
Proof.
  induction ps as [|b ps IH]; intros fuel fetch_page all_orders Hfuel Hfull Hfail Hnz;
    (destruct fuel as [|fuel]; [cbn in Hfuel; lia |]); cbn [sku_fetch_loop].
  - cbn [length Z.of_nat] in Hfail, Hnz. rewrite Z.add_0_r in Hfail, Hnz.
    cbn [map concat]. rewrite app_nil_r.
    destruct (upstream _); [discriminate | |];
      (destruct (fetch_page =? 0) eqn:E; [apply Z.eqb_eq in E; lia | reflexivity]).
  - destruct (Hfull 0%nat b eq_refl) as [Hb Hlen].
    rewrite Z.add_0_r in Hb. rewrite Hb. cbv zeta.
    destruct (_ <? _) eqn:E; [apply Z.ltb_lt in E; lia |].
    rewrite (IH fuel (fetch_page + 1)).
    + cbn [map concat]. rewrite app_assoc. reflexivity.
    + cbn [length] in Hfuel. lia.
    + intros i b' Hi.
      replace (fetch_page + 1 + Z.of_nat i) with (fetch_page + Z.of_nat (S i)) by lia.
      apply Hfull. exact Hi.
    + replace (fetch_page + 1 + Z.of_nat (length ps))
        with (fetch_page + Z.of_nat (length (b :: ps))) by (cbn [length]; lia).
      exact Hfail.
    + cbn [length] in Hnz. lia.
Qed.

(** Every order the loop returns was in the accumulator or in a page the
    marketplace served. *)
Lemma sku_fetch_loop_sound (params : Params) (fuel : nat) :
  forall (fetch_page : Z) (all_orders all : list Order),
  sku_fetch_loop upstream fuel params fetch_page all_orders = Some (Fetched all) ->
  forall o, In o all ->
    In o all_orders
    \/ exists i b, fetch_page <= i
                   /\ upstream (with_page params i) = Resp200 b
                   /\ In o (content b).
Proof.
  induction fuel as [|fuel IH]; intros fetch_page all_orders all H o Ho;
    [discriminate |].
  cbn [sku_fetch_loop] in H.
  destruct (upstream (with_page params fetch_page)) as [b| |] eqn:E.
  - cbv zeta in H. destruct (_ <? _).
    + simplify_eq. apply in_app_or in Ho. destruct Ho as [Ho|Ho]; [left; exact Ho |].
      right. exists fetch_page, b. split; [lia |]. split; assumption.
    + destruct (IH _ _ _ H o Ho) as [Hacc | (i & b' & Hi & Hb & Hin)].
      * apply in_app_or in Hacc. destruct Hacc as [Hacc|Hacc]; [left; exact Hacc |].
        right. exists fetch_page, b. split; [lia |]. split; assumption.
      * right. exists i, b'. split; [lia |]. split; assumption.
  - destruct (fetch_page =? 0); simplify_eq. left. exact Ho.
  - destruct (fetch_page =? 0); simplify_eq. left. exact Ho.
Qed.

(** C8.  In the single-status fetch with a SKU filter: a failure of the
    request for page 0 is returned as an error record with a status code
    (the one computed from the HTTP error, or 500); after one or more full
    pages [ps], a failure of the next request is not reported, and the
    answer is the filtered, paginated list of the pages already fetched. *)
Theorem sku_fetch_first_page_fatal_later_truncates (fuel : nat) (page size : Z)
    (status start_date end_date order_number sku_filter : string) :
  Py.truthy status && Py.contains "," status = false ->
  Py.truthy sku_filter = true ->
  (0 < fuel)%nat ->
  let params := single_params format_date page size status start_date end_date
                  order_number in
  let answer := get_orders upstream format_date fuel page size status start_date
                  end_date order_number sku_filter in
  (forall code text,
     upstream (with_page params 0) = RespHTTPError code text ->
     answer = Some (OrdersError ("Failed to fetch orders: " ++ text)
                      (http_error_status code)))
  /\ (forall text,
        upstream (with_page params 0) = RespRequestException text ->
        answer = Some (OrdersError ("Failed to fetch orders: " ++ text) 500))
  /\ (forall ps : list Page,
        ps <> [] ->
        (length ps < fuel)%nat ->
        (forall i b, ps !! i = Some b ->
           upstream (with_page params (Z.of_nat i)) = Resp200 b
           /\ fetch_size <= Z.of_nat (length (content b))) ->
        failed (upstream (with_page params (Z.of_nat (length ps)))) = true ->
        answer = Some (OrdersPage
                         (paginate
                            (sku_filter_orders sku_filter (concat (map content ps)))
                            page size))).
Proof.
  intros Hsingle Hsku Hfuel params answer. subst answer.
  unfold get_orders. rewrite Hsingle, Hsku. fold params.
  split; [| split].
  - intros code text H. destruct fuel as [|fuel]; [lia |].
    cbn [sku_fetch_loop]. rewrite H. reflexivity.
  - intros text H. destruct fuel as [|fuel]; [lia |].
    cbn [sku_fetch_loop]. rewrite H. reflexivity.
  - intros ps Hne Hlen Hfull Hfail.
    rewrite (sku_fetch_loop_truncated params ps fuel 0 []); [reflexivity | exact Hlen | | | ].
    + intros i b Hi. rewrite Z.add_0_l. apply Hfull. exact Hi.
    + rewrite Z.add_0_l. exact Hfail.
    + destruct ps; [congruence | cbn [length]; lia].
Qed.

End FetchAll.


Lemma sku_fetch_first_page_fatal_later_truncates_witness :
  get_orders Scenario.marketplace_down Scenario.same_date 2 0 10 "Created" "" ""
    "" "one"
  = Some (OrdersError "Failed to fetch orders: 503 Server Error" 500)
  /\ get_orders (Scenario.marketplace_flaky (repeat Scenario.o1 200))
       Scenario.same_date 2 0 10 "Created" "" "" "" "one"
     = Some (OrdersPage {| content := repeat Scenario.o1 10; page := 0;
                           size := 10; totalElements := 200; totalPages := 20 |}).
Proof.
  split.
  - pose proof (sku_fetch_first_page_fatal_later_truncates
                  Scenario.marketplace_down Scenario.same_date 2 0 10 "Created"
                  "" "" "" "one" eq_refl eq_refl) as H.
    cbv zeta in H. destruct H as (H & _ & _); [lia |].
    apply (H 503 "503 Server Error"). reflexivity.
  - pose proof (sku_fetch_first_page_fatal_later_truncates
                  (Scenario.marketplace_flaky (repeat Scenario.o1 200))
                  Scenario.same_date 2 0 10 "Created" "" "" "" "one"
                  eq_refl eq_refl) as H.
    cbv zeta in H. destruct H as (_ & _ & H); [lia |].
    etransitivity.
    + apply (H [{| content := repeat Scenario.o1 200; page := 0; size := 200;
                   totalElements := 400; totalPages := 2 |}]).
      * discriminate.
      * cbn. lia.
      * intros [|[|i]] b Hb; cbn in Hb; simplify_eq.
        split; [reflexivity |]. vm_compute. discriminate.
      * reflexivity.
    + vm_compute. reflexivity.
Defined.


(** *** The SKU filter *)

Lemma order_matches_line (sku_filter : string) (o : Order) :
  order_matches sku_filter o = true <->
  exists l, In l (lines o)
            /\ (Py.contains (Py.lower sku_filter)
                  (Py.lower (get_str (merchantSku l))) = true
                \/ Py.contains (Py.lower sku_filter)
                     (Py.lower (get_str (barcode l))) = true).
Proof.
  unfold order_matches. rewrite existsb_exists. unfold line_matches.
  split; intros (l & Hl & H); exists l; (split; [exact Hl |]).
  - apply orb_true_iff in H. exact H.
  - apply orb_true_iff. exact H.
Qed.

Lemma total_pages_ceiling (total size : Z) :
  0 < size ->
  (total_pages total size - 1) * size < total <= total_pages total size * size.
Proof.
  intros Hs. unfold total_pages, Py.floordiv.
  destruct (0 <? size) eqn:E; [| apply Z.ltb_ge in E; lia].
  pose proof (Z.div_mod (total + size - 1) size ltac:(lia)) as Hdm.
  pose proof (Z.mod_pos_bound (total + size - 1) size Hs) as Hb.
  nia.
Qed.

Lemma in_skipn {A} (n : nat) (l : list A) (x : A) :
  In x (skipn n l) -> In x l.
Proof.
  revert l. induction n as [|n IH]; intros l H; [exact H |].
  destruct l as [|y l]; [exact H |]. right. apply IH. exact H.
Qed.

Section SkuFilter.

Variable upstream : Params -> Response.
Variable format_date : string -> string.

Lemma sku_fetch_loop_fetched (params : Params) (fuel : nat) :
  forall (fetch_page : Z) (all_orders : list Order),
  0 <= fetch_page ->
  (exists k, (k < fuel)%nat
             /\ stops (upstream (with_page params (fetch_page + Z.of_nat k))) = true) ->
  (fetch_page = 0 -> failed (upstream (with_page params 0)) = false) ->
  exists all, sku_fetch_loop upstream fuel params fetch_page all_orders
              = Some (Fetched all).
Proof.
  induction fuel as [|fuel IH]; intros fetch_page all_orders Hp (k & Hk & Hs) H0;
    [lia |].
  cbn [sku_fetch_loop].
  destruct (upstream (with_page params fetch_page)) as [b| |] eqn:E.
  - cbv zeta. destruct (_ <? _) eqn:Hshort; [eexists; reflexivity |].
    destruct k as [|k].
    + rewrite Z.add_0_r, E in Hs. cbn in Hs. congruence.
    + apply IH; [lia | | lia].
      exists k. split; [lia |].
      replace (fetch_page + 1 + Z.of_nat k) with (fetch_page + Z.of_nat (S k)) by lia.
      exact Hs.
  - destruct (fetch_page =? 0) eqn:E0; [| eexists; reflexivity].
    apply Z.eqb_eq in E0. specialize (H0 E0). subst fetch_page.
    rewrite E in H0. discriminate.
  - destruct (fetch_page =? 0) eqn:E0; [| eexists; reflexivity].
    apply Z.eqb_eq in E0. specialize (H0 E0). subst fetch_page.
    rewrite E in H0. discriminate.
Qed.

Lemma unfiltered_page (i : Z) (status start_date end_date order_number : string)
    (page size : Z) (b : Page) :
  Py.truthy status && Py.contains "," status = false ->
  upstream (with_page (single_params format_date page size status start_date
                         end_date order_number) i) = Resp200 b ->
  get_orders upstream format_date 1 i fetch_size status start_date end_date
    order_number "" = Some (OrdersPage b).
Proof.
  intros Hsingle H. unfold get_orders. rewrite Hsingle. cbn [Py.truthy].
  change (single_params format_date i fetch_size status start_date end_date
            order_number)
    with (with_page (single_params format_date page size status start_date
                       end_date order_number) i).
  rewrite H. reflexivity.
Qed.

(** C5.  Single-status fetch with a non-empty SKU filter, when the request
    for page 0 does not fail and some page within the fuel is short or
    fails: the answer is a page record; each returned order is in a page
    that the fetch without SKU filter returns for the same status, dates and
    order number, and has a line whose merchant SKU or barcode contains the
    filter, letter case ignored; [totalElements] is the number of matching
    orders among all fetched ones; for [size > 0], [totalPages] is the
    ceiling of [totalElements / size]; for [page >= 0] and [size >= 0],
    [content] is the window of [size] orders from index [page * size] of the
    filtered list. *)
Theorem sku_filtered_fetch (fuel : nat) (page size : Z)
    (status start_date end_date order_number sku_filter : string) :
  Py.truthy status && Py.contains "," status = false ->
  Py.truthy sku_filter = true ->
  let params := single_params format_date page size status start_date end_date
                  order_number in
  failed (upstream (with_page params 0)) = false ->
  (exists k, (k < fuel)%nat
             /\ stops (upstream (with_page params (Z.of_nat k))) = true) ->
  exists all p,
    sku_fetch_loop upstream fuel params 0 [] = Some (Fetched all)
    /\ get_orders upstream format_date fuel page size status start_date end_date
         order_number sku_filter = Some (OrdersPage p)
    /\ (forall o, In o (content p) ->
          (exists i b,
              0 <= i
              /\ get_orders upstream format_date 1 i fetch_size status start_date
                   end_date order_number "" = Some (OrdersPage b)
              /\ In o (content b))
          /\ exists l, In l (lines o)
                       /\ (Py.contains (Py.lower sku_filter)
                             (Py.lower (get_str (merchantSku l))) = true
                           \/ Py.contains (Py.lower sku_filter)
                                (Py.lower (get_str (barcode l))) = true))
    /\ (forall o, In o (sku_filter_orders sku_filter all) <->
                  In o all /\ order_matches sku_filter o = true)
    /\ totalElements p = Z.of_nat (length (sku_filter_orders sku_filter all))
    /\ (0 < size ->
        (totalPages p - 1) * size < totalElements p <= totalPages p * size)
    /\ (0 <= page -> 0 <= size ->
        content p = firstn (Z.to_nat size)
                      (skipn (Z.to_nat (page * size))
                         (sku_filter_orders sku_filter all))).
Proof.
  intros Hsingle Hsku params Hfirst Hstop.
  destruct (sku_fetch_loop_fetched params fuel 0 []) as [all Hall].
  { lia. }
  { destruct Hstop as (k & Hk & Hs). exists k. split; [exact Hk |].
    rewrite Z.add_0_l. exact Hs. }
  { intros _. exact Hfirst. }
  exists all, (paginate (sku_filter_orders sku_filter all) page size).
  split; [exact Hall |]. split.
  { unfold get_orders. rewrite Hsingle, Hsku. fold params. rewrite Hall.
    reflexivity. }
  assert (Hsub : forall o, In o (Py.slice (sku_filter_orders sku_filter all)
                                   (page * size) (page * size + size)) ->
                           In o (sku_filter_orders sku_filter all)).
  { intros o Ho. unfold Py.slice in Ho.
    apply PyFacts.in_firstn in Ho. eapply in_skipn. exact Ho. }
  split; [| split; [| split; [| split]]].
  - intros o Ho. cbn [paginate content] in Ho. apply Hsub in Ho.
    apply filter_In in Ho. destruct Ho as [Hin Hm]. split.
    + destruct (sku_fetch_loop_sound upstream params fuel 0 [] all Hall o Hin)
        as [[] | (i & b & Hi & Hb & Hob)].
      exists i, b. split; [exact Hi |]. split; [| exact Hob].
      eapply unfiltered_page; eassumption.
    + apply order_matches_line. exact Hm.
  - intros o. apply filter_In.
  - reflexivity.
  - intros Hs. cbn [paginate totalPages totalElements].
    apply total_pages_ceiling. exact Hs.
  - intros Hp Hs. cbn [paginate content].
    apply PyFacts.slice_window; [nia | exact Hs].
Qed.

End SkuFilter.


Lemma sku_filtered_fetch_witness :
  exists p,
    get_orders (Scenario.marketplace Scenario.ten_orders) Scenario.same_date 2
      0 2 "" "" "" "" "E" = Some (OrdersPage p)
    /\ content p = [Scenario.o1; Scenario.o3]
    /\ totalElements p = 7
    /\ totalPages p = 4.
Proof.
  pose proof (sku_filtered_fetch (Scenario.marketplace Scenario.ten_orders)
                Scenario.same_date 2 0 2 "" "" "" "" "E" eq_refl eq_refl) as H.
  cbv zeta in H.
  destruct H as (all & p & _ & Hget & _); [reflexivity | |].
  - exists 0%nat. split; [lia | reflexivity].
  - exists p. split; [exact Hget |].
    vm_compute in Hget. injection Hget as <-.
    repeat split; reflexivity.
Defined.

(** The fetch without SKU filter asks the marketplace for one page of the
    requested size, while the SKU path reads every page: for the same
    [page] and [size] the second can hold an order that the first does
    not. *)
Example sku_page_is_not_within_same_page :
  get_orders (Scenario.marketplace [Scenario.o1; Scenario.o2])
    Scenario.same_date 2 0 1 "" "" "" "" ""
  = Some (OrdersPage {| content := [Scenario.o1]; page := 0; size := 1;
                        totalElements := 2; totalPages := 2 |})
  /\ get_orders (Scenario.marketplace [Scenario.o1; Scenario.o2])
       Scenario.same_date 2 0 1 "" "" "" "" "two"
     = Some (OrdersPage {| content := [Scenario.o2]; page := 0; size := 1;
                           totalElements := 1; totalPages := 1 |}).
Proof. split; vm_compute; reflexivity. Qed.

End FetchFacts.

(** ** Bulk invoicing: what a run does to the counters and the table *)

Module BatchFacts.

Import UserManager SmartBillService App BatchSpec.

Lemma filter_others_delete (uid : Z) (oid : string) (d : DB) :
  rows_of_others uid (delete_order uid oid d) = rows_of_others uid d.
Proof.
  unfold rows_of_others, delete_order. cbn [rows].
  induction (rows d) as [|r l IH]; [reflexivity |].
  cbn [List.filter]. unfold has_key at 1.
  destruct (user_id r =? uid) eqn:E; cbn [andb negb].
  - destruct (String.eqb (order_id r) oid); cbn [negb];
      [exact IH | cbn [List.filter]; rewrite E; cbn [negb]; exact IH].
  - cbn [List.filter]. rewrite E. cbn [negb]. rewrite IH. reflexivity.
Qed.

Lemma filter_others_insert (uid : Z) (oid series number : string) (d d' : DB) :
  insert uid oid series number d = Some d' ->
  rows_of_others uid d' = rows_of_others uid d.
Proof.
  unfold insert. destruct (existsb _ _); [discriminate |].
  intros [= <-]. unfold rows_of_others. cbn [rows].
  rewrite List.filter_app. cbn [List.filter user_id].
  rewrite Z.eqb_refl. cbn [negb]. apply app_nil_r.
Qed.

Section Run.

Variable upstream : TrendyolService.Params -> TrendyolService.Response.
Variable format_date : string -> string.
Variable postal_lookup : string -> option (string * string).
Variable post_invoice : InvoiceData -> HttpOutcome.
Variable series_request : Service -> SeriesResult.
Variable getenv : string -> option string.
Variable today : string.
Variable sqlite_fault : Order -> option string.
Variable current_user : User.

Let step := process_order postal_lookup post_invoice series_request getenv
              today sqlite_fault current_user.
Let run := bulk_send_to_smartbill upstream format_date postal_lookup
             post_invoice series_request getenv today sqlite_fault current_user.
Let draft (order : Order) :=
  generate_invoice_data_from_order postal_lookup series_request getenv today
    current_user order current_user true.

(** X1.  Bulk-create, once the orders are gathered and when recording a
    mapping never raises: the two counters add up to [total], and the
    response carries [min failed 10] error messages. *)
Theorem bulk_counters_add_up page_fuel fuel rq d all_orders tr0 :
  check_credentials current_user = true ->
  check_smartbill_credentials current_user = true ->
  gather_orders upstream format_date page_fuel fuel rq 0 [] []
    = Some (inr all_orders, tr0) ->
  (forall o, sqlite_fault o = None) ->
  exists n_ok n_failed reported d' tr,
    run page_fuel fuel rq d
      = Some (BulkSummary
                (Z.of_nat (length (orders_to_process current_user rq d all_orders)))
                n_ok n_failed reported, d', tr)
    /\ 0 <= n_ok /\ 0 <= n_failed
    /\ n_ok + n_failed
       = Z.of_nat (length (orders_to_process current_user rq d all_orders))
    /\ Z.of_nat (length reported) = Z.min n_failed 10.
Proof.
  intros H1 H2 Hg Hnf.
  destruct (SummaryFacts.batch_summary upstream format_date postal_lookup
              post_invoice series_request getenv today sqlite_fault current_user
              page_fuel fuel rq d all_orders tr0 H1 H2 Hg)
    as (n_ok & n_failed & all_errors & d' & tr & Hrun & _ & Hok & Hfail & _ & Hlen
        & _ & Hsum).
  exists n_ok, n_failed, (firstn 10 all_errors), d', tr.
  split; [exact Hrun |]. split; [lia |]. split; [lia |]. split.
  - apply Hsum. apply Forall_forall. intros o _. apply Hnf.
  - rewrite length_firstn. lia.
Qed.

(** X2.  A fetch error on any page of the gathering loop ends bulk-create
    with a 500 whose message is the fetch error behind a second
    ["Failed to fetch orders: "]; the table is left as it was and the only
    calls made are order fetches. *)
Theorem bulk_fetch_error_creates_nothing page_fuel fuel rq d error tr :
  check_credentials current_user = true ->
  check_smartbill_credentials current_user = true ->
  gather_orders upstream format_date page_fuel fuel rq 0 [] [] = Some (inl error, tr) ->
  run page_fuel fuel rq d = Some (BulkError error 500, d, tr)
  /\ (exists upstream_error, error = "Failed to fetch orders: " ++ upstream_error)
  /\ forallb is_fetch tr = true
  /\ attempted tr = [].
Proof.
  intros H1 H2 Hg. subst run. unfold bulk_send_to_smartbill.
  rewrite H1, H2, Hg. cbn [negb]. split; [reflexivity |].
  assert (Hgen : forall fuel page all_orders tr0,
             forallb is_fetch tr0 = true ->
             gather_orders upstream format_date page_fuel fuel rq page all_orders tr0
             = Some (inl error, tr) ->
             (exists upstream_error, error = "Failed to fetch orders: " ++ upstream_error)
             /\ forallb is_fetch tr = true).
  { clear Hg. intros fuel0. induction fuel0 as [|fuel0 IH];
      intros page all_orders tr0 Htr H; [discriminate |].
    cbn [gather_orders] in H.
    assert (Htr' : forallb is_fetch (tr0 ++ [GetOrders page]) = true)
      by (rewrite forallb_app, Htr; reflexivity).
    repeat case_match; simplify_eq.
    - split; [eexists; reflexivity | exact Htr'].
    - eapply IH; eassumption. }
  destruct (Hgen fuel 0 [] [] eq_refl Hg) as [He Ht].
  split; [exact He |]. split; [exact Ht |].
  rewrite (BulkFacts.gather_attempted upstream format_date _ _ _ _ _ _ _ _ Hg).
  reflexivity.
Qed.

(** X3.  An order whose invoice request gets anything but a 200 response
    (another status, a connection error, any exception) is counted as
    failed and only as failed, one message is added for it, and the table
    is left as it was. *)
Theorem rejected_order_counts_failed (st : BulkState) (order : Order) :
  check_smartbill_credentials current_user = true ->
  rejected (post_invoice (draft order)) = true ->
  successful (step st order) = successful st
  /\ failed (step st order) = failed st + 1
  /\ db (step st order) = db st
  /\ exists msg, errors (step st order) = (errors st ++ [error_line order msg])%list.
Proof.
  intros Hc Hr. subst step draft. unfold process_order. cbv zeta.
  destruct (CredentialFacts.service_of_checked getenv current_user Hc) as (svc & Hs & Hh & Hcif).
  rewrite Hs. unfold create_invoice. rewrite Hh, Hcif. cbn [negb].
  destruct (post_invoice _) as [code text json| |]; cbn [rejected] in Hr.
  - apply negb_true_iff in Hr. rewrite Hr.
    destruct (code =? 400), (code =? 401), (code =? 403); cbn;
      repeat split; eexists; reflexivity.
  - cbn. repeat split. eexists; reflexivity.
  - cbn. repeat split. eexists; reflexivity.
Qed.

(** X4.  When the provider answers 200 without an error but the answer
    lacks the series or the number (or the order has no number), the order
    is counted as successful and no row is written for it. *)
Theorem invoice_without_number_not_recorded (st : BulkState) (order : Order)
    (text : string) (json : InvoiceJson) :
  check_smartbill_credentials current_user = true ->
  post_invoice (draft order) = Http 200 text json ->
  j_error json = None ->
  Py.truthy (get_str (j_series json)) && Py.truthy (get_str (j_number json))
    && Py.truthy (get_str (orderNumber order)) = false ->
  successful (step st order) = successful st + 1
  /\ failed (step st order) = failed st
  /\ errors (step st order) = errors st
  /\ db (step st order) = db st.
Proof.
  intros Hc Hp He Hm. subst step draft. unfold process_order. cbv zeta.
  destruct (CredentialFacts.service_of_checked getenv current_user Hc) as (svc & Hs & Hh & Hcif).
  rewrite Hs. unfold create_invoice. rewrite Hh, Hcif. cbn [negb].
  rewrite Hp. cbn. rewrite He, Hm. cbn. repeat split.
Qed.

Lemma step_keeps_others (st : BulkState) (order : Order) :
  rows_of_others (id current_user) (db (step st order))
  = rows_of_others (id current_user) (db st).
Proof.
  subst step. unfold process_order, record_mapping. cbv zeta.
  repeat case_match; simplify_eq; cbn [db count_failure log]; try reflexivity.
  match goal with
  | H : insert _ _ _ _ _ = Some _ |- _ =>
      apply filter_others_insert in H; rewrite H
  end.
  apply filter_others_delete.
Qed.

Lemma loop_keeps_others (todo : list Order) (st : BulkState) :
  rows_of_others (id current_user) (db (fold_left step todo st))
  = rows_of_others (id current_user) (db st).
Proof.
  revert st. induction todo as [|o todo IH]; intros st; [reflexivity |].
  cbn [fold_left]. rewrite IH. apply step_keeps_others.
Qed.

(** X5.  Bulk-create never adds, changes or removes a row of another
    user. *)
Theorem bulk_keeps_rows_of_others page_fuel fuel rq d response d' tr :
  run page_fuel fuel rq d = Some (response, d', tr) ->
  rows_of_others (id current_user) d' = rows_of_others (id current_user) d.
Proof.
  subst run. unfold bulk_send_to_smartbill. intros H.
  repeat case_match; simplify_eq; try reflexivity.
  fold step. rewrite loop_keeps_others. reflexivity.
Qed.

End Run.

Lemma bulk_counters_add_up_witness :
  exists n_ok n_failed reported d' tr,
    bulk_send_to_smartbill (Scenario.marketplace Scenario.five_orders)
      Scenario.same_date Scenario.no_postal (Scenario.provider_rejecting "A3")
      Scenario.one_series Scenario.no_env "2025-01-31" Scenario.no_fault
      Scenario.seller 3 3 (Scenario.request 5 "") Scenario.empty_db
    = Some (BulkSummary 5 n_ok n_failed reported, d', tr)
    /\ n_ok + n_failed = 5.
Proof.
  destruct (bulk_counters_add_up (Scenario.marketplace Scenario.five_orders)
              Scenario.same_date Scenario.no_postal
              (Scenario.provider_rejecting "A3") Scenario.one_series
              Scenario.no_env "2025-01-31" Scenario.no_fault Scenario.seller
              3 3 (Scenario.request 5 "") Scenario.empty_db
              Scenario.five_orders [GetOrders 0]
              eq_refl eq_refl ltac:(vm_compute; reflexivity)
              (fun _ => eq_refl))
    as (n_ok & n_failed & reported & d' & tr & Hrun & _ & _ & Hsum & _).
  exists n_ok, n_failed, reported, d', tr.
  split; [exact Hrun | exact Hsum].
Defined.

Lemma bulk_fetch_error_creates_nothing_witness :
  bulk_send_to_smartbill
    (Scenario.marketplace_flaky (repeat Scenario.o1 200))
    Scenario.same_date Scenario.no_postal Scenario.provider_ok
    Scenario.one_series Scenario.no_env "2025-01-31" Scenario.no_fault
    Scenario.seller 3 3 (Scenario.request 5 "") Scenario.empty_db
  = Some (BulkError
            "Failed to fetch orders: Failed to fetch orders: Connection aborted"
            500, Scenario.empty_db, [GetOrders 0; GetOrders 1]).
Proof.
  destruct (bulk_fetch_error_creates_nothing
              (Scenario.marketplace_flaky (repeat Scenario.o1 200))
              Scenario.same_date Scenario.no_postal Scenario.provider_ok
              Scenario.one_series Scenario.no_env "2025-01-31"
              Scenario.no_fault Scenario.seller
              3 3 (Scenario.request 5 "") Scenario.empty_db
              "Failed to fetch orders: Failed to fetch orders: Connection aborted"
              [GetOrders 0; GetOrders 1]
              eq_refl eq_refl ltac:(vm_compute; reflexivity)) as [H _].
  exact H.
Defined.

Lemma rejected_order_counts_failed_witness :
  let st := process_order Scenario.no_postal (Scenario.provider_rejecting "A3")
              Scenario.one_series Scenario.no_env "2025-01-31" Scenario.no_fault
              Scenario.seller (initial_state Scenario.empty_db []) Scenario.o3 in
  successful st = 0 /\ failed st = 1 /\ db st = Scenario.empty_db.
Proof.
  destruct (rejected_order_counts_failed Scenario.no_postal
              (Scenario.provider_rejecting "A3") Scenario.one_series
              Scenario.no_env "2025-01-31" Scenario.no_fault Scenario.seller
              (initial_state Scenario.empty_db []) Scenario.o3
              eq_refl eq_refl) as (H1 & H2 & H3 & _).
  cbv zeta. split; [exact H1 | split; [exact H2 | exact H3]].
Defined.

Lemma invoice_without_number_not_recorded_witness :
  let st := process_order Scenario.no_postal Scenario.provider_without_number
              Scenario.one_series Scenario.no_env "2025-01-31" Scenario.no_fault
              Scenario.seller (initial_state Scenario.empty_db []) Scenario.o1 in
  successful st = 1 /\ failed st = 0 /\ db st = Scenario.empty_db.
Proof.
  destruct (invoice_without_number_not_recorded Scenario.no_postal
              Scenario.provider_without_number Scenario.one_series
              Scenario.no_env "2025-01-31" Scenario.no_fault Scenario.seller
              (initial_state Scenario.empty_db []) Scenario.o1
              "" {| j_error := None; j_series := Some "TRD"; j_number := None |}
              eq_refl eq_refl eq_refl eq_refl) as (H1 & H2 & _ & H4).
  cbv zeta. split; [exact H1 | split; [exact H2 | exact H4]].
Defined.

Lemma bulk_keeps_rows_of_others_witness :
  exists response d' tr,
    bulk_send_to_smartbill (Scenario.marketplace [Scenario.o2])
      Scenario.same_date Scenario.no_postal Scenario.provider_ok
      Scenario.one_series Scenario.no_env "2025-01-31" Scenario.no_fault
      Scenario.seller 3 3 (Scenario.request 5 "") Scenario.db_of_other_seller
    = Some (response, d', tr)
    /\ length (rows d') = 2%nat
    /\ rows_of_others 7 d' = [Scenario.other_seller_row].
Proof.
  destruct (bulk_send_to_smartbill (Scenario.marketplace [Scenario.o2])
              Scenario.same_date Scenario.no_postal Scenario.provider_ok
              Scenario.one_series Scenario.no_env "2025-01-31" Scenario.no_fault
              Scenario.seller 3 3 (Scenario.request 5 "")
              Scenario.db_of_other_seller) as [[[response d'] tr]|] eqn:E;
    [| vm_compute in E; discriminate].
  exists response, d', tr. split; [reflexivity |]. split.
  - vm_compute in E. injection E as <- <- <-. reflexivity.
  - exact (bulk_keeps_rows_of_others _ _ _ _ _ _ _ _ _ _ _ _ _ _ _ _ E).
Defined.

End BatchFacts.

(** ** The invoice draft: series, client block and product codes *)

Module InvoiceDataFacts.

Import UserManager SmartBillService App.

Lemma elif_chain_none (k : string) (branches : list (string * string)) :
  ~ In k (map fst branches) -> elif_chain k branches = None.
Proof.
  induction branches as [|[key value] rest IH]; intros H; [reflexivity |].
  cbn [elif_chain]. destruct (String.eqb k key) eqn:E.
  - apply String.eqb_eq in E. subst key. exfalso. apply H. left. reflexivity.
  - apply IH. intros Hin. apply H. right. exact Hin.
Qed.

Lemma elif_chain_some (k v : string) (branches : list (string * string)) :
  elif_chain k branches = Some v -> In (k, v) branches.
Proof.
  induction branches as [|[key value] rest IH]; intros H; [discriminate |].
  cbn [elif_chain] in H. destruct (String.eqb k key) eqn:E.
  - apply String.eqb_eq in E. simplify_eq. left. reflexivity.
  - right. apply IH. exact H.
Qed.

(** X6.  The product code of an order line: when the raw SKU is none of
    the keys of the override chain, it is the merchant SKU, or the raw SKU
    when the merchant SKU is the literal ["merchantSku"]; in every case it is
    a code of the chain paired with the raw SKU, the merchant SKU or the raw
    SKU. *)
Theorem product_code_without_override (line : Line) :
  (~ In (get_str (sku line)) (map fst sku_overrides) ->
   codul line = if String.eqb (get_str (merchantSku line)) "merchantSku"
                then get_str (sku line) else get_str (merchantSku line))
  /\ (In (get_str (sku line), codul line) sku_overrides
      \/ codul line = get_str (merchantSku line)
      \/ codul line = get_str (sku line)).
Proof.
  split.
  - intros H. unfold codul. rewrite (elif_chain_none _ _ H). reflexivity.
  - unfold codul.
    destruct (elif_chain (get_str (sku line)) sku_overrides) as [code|] eqn:E.
    + left. apply elif_chain_some. exact E.
    + destruct (String.eqb _ _); [right; right | right; left]; reflexivity.
Qed.

Lemma product_code_without_override_witness :
  codul (Scenario.line_of "S1" "M-ONE" "111") = "M-ONE"
  /\ codul (Scenario.line_of "S1" "merchantSku" "111") = "S1".
Proof.
  split.
  - refine (eq_trans
              (proj1 (product_code_without_override
                        (Scenario.line_of "S1" "M-ONE" "111")) _) eq_refl).
    vm_compute. intuition discriminate.
  - refine (eq_trans
              (proj1 (product_code_without_override
                        (Scenario.line_of "S1" "merchantSku" "111")) _) eq_refl).
    vm_compute. intuition discriminate.
Defined.

Section Draft.

Variable postal_lookup : string -> option (string * string).
Variable series_request : Service -> SeriesResult.
Variable getenv : string -> option string.
Variable today : string.
Variable current_user : User.

(** X7.  The series name a draft starts from is the name of the first
    series the provider lists for the user's service, and
    ["SERIE_FACTURA"] in every other case: no service, a failed or raised
    series request, no list, an empty list, a first series without a name.
    Without e-mail or token no series request decides it. *)
Theorem series_name_is_first_listed_or_placeholder :
  (first_series_name series_request getenv current_user = "SERIE_FACTURA"
   \/ exists svc name rest,
        get_smartbill_service getenv current_user = Some svc
        /\ series_request svc = SeriesDict (Some (Some name :: rest))
        /\ first_series_name series_request getenv current_user = name)
  /\ (forall svc name rest,
        get_smartbill_service getenv current_user = Some svc ->
        has_headers svc = true ->
        Py.truthy_opt (company_cif svc) = true ->
        series_request svc = SeriesDict (Some (Some name :: rest)) ->
        first_series_name series_request getenv current_user = name)
  /\ (forall svc,
        get_smartbill_service getenv current_user = Some svc ->
        has_headers svc && Py.truthy_opt (company_cif svc) = false ->
        first_series_name series_request getenv current_user = "SERIE_FACTURA").
Proof.
  unfold first_series_name, get_document_series.
  split; [| split].
  - destruct (get_smartbill_service getenv current_user) as [svc|];
      [| left; reflexivity].
    destruct (has_headers svc); cbn [negb]; [| left; reflexivity].
    destruct (Py.truthy_opt (company_cif svc)); cbn [negb]; [| left; reflexivity].
    destruct (series_request svc) as [[[|[name|] rest]|]|] eqn:E;
      try (left; reflexivity).
    right. exists svc, name, rest. repeat split. exact E.
  - intros svc name rest Hs Hh Hc Hr. rewrite Hs, Hh, Hc. cbn [negb].
    rewrite Hr. reflexivity.
  - intros svc Hs H. rewrite Hs.
    destruct (has_headers svc); cbn [negb]; [| reflexivity].
    cbn [andb] in H. rewrite H. reflexivity.
Qed.

(** X8.  City and county of the client block.  The city is the invoice
    address's, else the shipment address's; the county likewise from the
    districts.  When one of the addresses has a postal code and the lookup
    of that code answers with a city and a county, the county of the lookup
    replaces the order's district, and the city of the lookup is used only
    when the order has none.  The country falls back to ["RO"] and the name
    to ["N/A"]. *)
Theorem draft_client_block (order : Order) (user : User) (g : bool) :
  let d := generate_invoice_data_from_order postal_lookup series_request getenv
             today current_user order user g in
  let inv := invoiceAddress order in
  let ship := shipmentAddress order in
  let own_city := por (get_str (city inv)) (get_str (city ship)) in
  let own_county := por (get_str (district inv)) (get_str (district ship)) in
  let code := por (get_str (postalCode inv)) (get_str (postalCode ship)) in
  (forall looked_city looked_county,
     Py.truthy code = true ->
     postal_lookup code = Some (looked_city, looked_county) ->
     c_county (client d) = looked_county
     /\ c_city (client d) = if Py.truthy own_city then own_city else looked_city)
  /\ (Py.truthy code = false \/ postal_lookup code = None ->
      c_county (client d) = own_county /\ c_city (client d) = own_city)
  /\ (countryCode inv = None -> countryCode ship = None ->
      c_country (client d) = "RO")
  /\ (customerFirstName order = None -> customerLastName order = None ->
      c_name (client d) = "N/A").
Proof.
  cbv zeta. unfold generate_invoice_data_from_order.
  set (code := por (get_str (postalCode (invoiceAddress order)))
                   (get_str (postalCode (shipmentAddress order)))).
  split; [| split; [| split]].
  - intros lc lco Ht Hl. rewrite Ht, Hl. cbn. split; reflexivity.
  - intros [Ht | Hl].
    + rewrite Ht. cbn. split; reflexivity.
    + rewrite Hl. destruct (Py.truthy code); cbn; split; reflexivity.
  - intros H1 H2.
    destruct (if Py.truthy code then _ else _) as [c1 c2].
    cbn. rewrite H1, H2. reflexivity.
  - intros H1 H2.
    destruct (if Py.truthy code then _ else _) as [c1 c2].
    cbn. rewrite H1, H2. reflexivity.
Qed.

End Draft.

Lemma series_name_is_first_listed_or_placeholder_witness :
  first_series_name Scenario.one_series Scenario.no_env Scenario.seller = "TRD"
  /\ first_series_name Scenario.one_series Scenario.no_env Scenario.admin = "TRD".
Proof.
  destruct (series_name_is_first_listed_or_placeholder Scenario.one_series
              Scenario.no_env Scenario.seller) as (_ & H & _).
  destruct (series_name_is_first_listed_or_placeholder Scenario.one_series
              Scenario.no_env Scenario.admin) as (_ & H' & _).
  split.
  - eapply H; reflexivity.
  - eapply H'; reflexivity.
Defined.

Lemma draft_client_block_witness :
  let d := generate_invoice_data_from_order Scenario.postal_site
             Scenario.one_series Scenario.no_env "2025-01-31" Scenario.seller
             Scenario.order_to_cluj Scenario.seller true in
  c_county (client d) = "Cluj" /\ c_city (client d) = "Cluj"
  /\ c_country (client d) = "RO" /\ c_name (client d) = "N/A".
Proof.
  pose proof (draft_client_block Scenario.postal_site Scenario.one_series
                Scenario.no_env "2025-01-31" Scenario.seller
                Scenario.order_to_cluj Scenario.seller true) as H.
  cbv zeta in H. destruct H as (H1 & _ & H3 & H4).
  destruct (H1 "Cluj-Napoca" "Cluj" eq_refl eq_refl) as [Hcounty Hcity].
  cbv zeta. split; [exact Hcounty |]. split; [exact Hcity |].
  split; [exact (H3 eq_refl eq_refl) | exact (H4 eq_refl eq_refl)].
Defined.

End InvoiceDataFacts.

(** ** The single-invoice endpoints and the admin endpoints *)

Module EndpointFacts.

Import UserManager SmartBillService App BatchSpec.

Lemma select_none_insert (uid : Z) (oid series number : string) (d : DB) :
  select_one uid oid d = None ->
  exists d', insert uid oid series number d = Some d'.
Proof.
  unfold select_one, insert. intros H.
  assert (He : existsb (has_key uid oid) (rows d) = false).
  { induction (rows d) as [|r l IH]; [reflexivity |].
    cbn in *. destruct (has_key uid oid r); [discriminate |]. apply IH. exact H. }
  rewrite He. eexists. reflexivity.
Qed.

Lemma insert_needs_no_row (uid : Z) (oid series number : string) (d d' : DB) :
  insert uid oid series number d = Some d' -> select_one uid oid d = None.
Proof.
  unfold select_one, insert. destruct (existsb _ _) eqn:He; [discriminate |].
  intros _. induction (rows d) as [|r l IH]; [reflexivity |].
  cbn in *. apply orb_false_iff in He as [Hr Hl]. rewrite Hr. apply IH. exact Hl.
Qed.

Lemma others_delete_by_id (rid uid : Z) (d : DB) :
  rows_of_others uid (delete_by_id rid uid d).1 = rows_of_others uid d.
Proof.
  unfold rows_of_others, delete_by_id. cbn [fst rows].
  induction (rows d) as [|r l IH]; [reflexivity |].
  cbn [List.filter].
  destruct (user_id r =? uid) eqn:E; cbn [negb andb].
  - destruct (row_id r =? rid); cbn [andb negb];
      [exact IH | cbn [List.filter]; rewrite E; exact IH].
  - rewrite andb_false_r. cbn [negb List.filter]. rewrite E. cbn [negb].
    rewrite IH. reflexivity.
Qed.

Lemma others_update_by_id (rid uid : Z) (oid series number : string) (d d' : DB) :
  update_by_id rid uid oid series number d = Some d' ->
  rows_of_others uid d' = rows_of_others uid d.
Proof.
  unfold update_by_id. destruct (_ && _); [discriminate |].
  intros [= <-]. unfold rows_of_others. cbn [rows].
  induction (rows d) as [|r l IH]; [reflexivity |].
  cbn [map List.filter].
  destruct (user_id r =? uid) eqn:E.
  - destruct (row_id r =? rid); cbn [andb user_id]; rewrite E; cbn [negb]; exact IH.
  - rewrite andb_false_r. rewrite E. cbn [negb]. rewrite IH. reflexivity.
Qed.

Lemma no_hit_filter (rid uid : Z) (l : list Row) :
  (forall r, In r l -> row_id r = rid -> user_id r <> uid) ->
  List.filter (fun r => (row_id r =? rid) && (user_id r =? uid)) l = []
  /\ existsb (fun r => (row_id r =? rid) && (user_id r =? uid)) l = false.
Proof.
  induction l as [|r l IH]; intros H; [split; reflexivity |].
  assert (Hr : (row_id r =? rid) && (user_id r =? uid) = false).
  { destruct (row_id r =? rid) eqn:E1; [| reflexivity].
    destruct (user_id r =? uid) eqn:E2; [| reflexivity].
    apply Z.eqb_eq in E1, E2. exfalso. exact (H r (or_introl eq_refl) E1 E2). }
  cbn. rewrite Hr. cbn. apply IH. intros r' Hin. apply H. right. exact Hin.
Qed.

(** X9.  Adding a mapping through the admin endpoint and looking it up
    afterwards: for an admin, non-blank fields and no earlier row for the
    order, the answer is a success, the row found for the order holds the
    series and the number stripped of blanks, and adding the same order again
    answers 409 and leaves the table as it is. *)
Theorem admin_add_then_lookup (u : User) (order_id series number : string) (d : DB) :
  is_authenticated u = true ->
  is_admin u = true ->
  Py.truthy (Py.strip order_id) = true ->
  Py.truthy (Py.strip series) = true ->
  Py.truthy (Py.strip number) = true ->
  select_one (id u) (Py.strip order_id) d = None ->
  exists d',
    admin_add_invoice u order_id series number d
    = (Json 200 None (Some "Invoice added successfully"), d')
    /\ (exists r, select_one (id u) (Py.strip order_id) d' = Some r
                  /\ invoice_series r = Py.strip series
                  /\ invoice_number r = Py.strip number)
    /\ forall series' number',
         Py.truthy (Py.strip series') = true ->
         Py.truthy (Py.strip number') = true ->
         admin_add_invoice u order_id series' number' d'
         = (Json 409 (Some ("Invoice already exists for order " ++ Py.strip order_id))
              None, d').
Proof.
  intros Ha Hadm Ho Hs Hn Hnone.
  destruct (select_none_insert (id u) (Py.strip order_id) (Py.strip series)
              (Py.strip number) d Hnone) as [d' Hins].
  exists d'.
  destruct (StoreFacts.insert_recorded _ _ _ _ _ _ Hins) as (_ & r & Hr & Hser & Hnum).
  split; [| split].
  - unfold admin_add_invoice, admin_required. rewrite Ha, Hadm. cbn [negb orb].
    cbv zeta. rewrite Ho, Hs, Hn. cbn [negb orb]. rewrite Hnone, Hins. reflexivity.
  - exists r. auto.
  - intros series' number' Hs' Hn'.
    unfold admin_add_invoice, admin_required. rewrite Ha, Hadm. cbn [negb orb].
    cbv zeta. rewrite Ho, Hs', Hn'. cbn [negb orb]. rewrite Hr. reflexivity.
Qed.

(** X10.  The admin endpoints for mappings act on the rows of the
    signed-in admin only: whatever the input, the rows of every other user
    are the same afterwards; and an id that is not the id of one of the
    admin's own rows gets 404 from delete and from edit, with the table left
    as it is. *)
Theorem admin_changes_own_rows_only (u : User) (d : DB) :
  (forall a b c,
     rows_of_others (id u) (admin_add_invoice u a b c d).2 = rows_of_others (id u) d)
  /\ (forall rid a b c,
        rows_of_others (id u) (admin_edit_invoice u rid a b c d).2
        = rows_of_others (id u) d)
  /\ (forall rid,
        rows_of_others (id u) (admin_delete_invoice u rid d).2
        = rows_of_others (id u) d)
  /\ (forall rid,
        is_authenticated u = true ->
        is_admin u = true ->
        (forall r, In r (rows d) -> row_id r = rid -> user_id r <> id u) ->
        admin_delete_invoice u rid d = (Json 404 (Some "Invoice not found") None, d)
        /\ forall a b c,
             Py.truthy (Py.strip a) = true ->
             Py.truthy (Py.strip b) = true ->
             Py.truthy (Py.strip c) = true ->
             admin_edit_invoice u rid a b c d
             = (Json 404 (Some "Invoice not found") None, d)).
Proof.
  split; [| split; [| split]].
  - intros a b c. unfold admin_add_invoice, admin_required.
    repeat case_match; cbn [snd]; try reflexivity.
    eapply BatchFacts.filter_others_insert. eassumption.
  - intros rid a b c. unfold admin_edit_invoice, admin_required.
    repeat case_match; cbn [snd]; try reflexivity.
    eapply others_update_by_id. eassumption.
  - intros rid. unfold admin_delete_invoice, admin_required.
    pose proof (others_delete_by_id rid (id u) d) as H.
    repeat case_match; simplify_eq; cbn [snd fst] in *; try reflexivity.
    exact H.
  - intros rid Ha Hadm Hno.
    destruct (no_hit_filter rid (id u) (rows d) Hno) as [Hf He].
    split.
    + unfold admin_delete_invoice, admin_required, delete_by_id.
      rewrite Ha, Hadm. cbn [negb orb]. rewrite Hf. reflexivity.
    + intros a b c Hsa Hsb Hsc.
      unfold admin_edit_invoice, admin_required.
      rewrite Ha, Hadm. cbn [negb orb]. cbv zeta.
      rewrite Hsa, Hsb, Hsc. cbn [negb orb]. rewrite He. reflexivity.
Qed.

Section CreateOne.

Variable getenv : string -> option string.
Variable current_user : User.

(** X11.  Single invoice creation and the mapping table.  With a row
    already recorded for the order, the answer is 409 and the table is left
    as it is, whatever the provider would answer.  After a creation that
    answered 200 the order has a row, so creating it again answers 409.  The
    rows of other users are never touched. *)
Theorem create_refuses_second_invoice (post_invoice : InvoiceData -> HttpOutcome)
    (invoice_data : InvoiceData) (d : DB) :
  check_smartbill_credentials current_user = true ->
  Py.truthy (inv_orderNumber invoice_data) = true ->
  let conflict :=
    Json 409 (Some ("Invoice already exists for order "
                    ++ inv_orderNumber invoice_data)) None in
  (forall r post_invoice',
     select_one (id current_user) (inv_orderNumber invoice_data) d = Some r ->
     create_smartbill_invoice post_invoice' getenv current_user invoice_data d
     = (conflict, d))
  /\ (forall message d' post_invoice',
        create_smartbill_invoice post_invoice getenv current_user invoice_data d
        = (Json 200 None message, d') ->
        select_one (id current_user) (inv_orderNumber invoice_data) d = None
        /\ create_smartbill_invoice post_invoice' getenv current_user invoice_data d'
           = (conflict, d'))
  /\ rows_of_others (id current_user)
       (create_smartbill_invoice post_invoice getenv current_user invoice_data d).2
     = rows_of_others (id current_user) d.
Proof.
  intros Hc Ho conflict. subst conflict.
  assert (Hconf : forall r post_invoice' d0,
             select_one (id current_user) (inv_orderNumber invoice_data) d0 = Some r ->
             create_smartbill_invoice post_invoice' getenv current_user invoice_data d0
             = (Json 409 (Some ("Invoice already exists for order "
                                ++ inv_orderNumber invoice_data)) None, d0)).
  { intros r post' d0 Hr. unfold create_smartbill_invoice.
    rewrite Hc, Ho. cbn [negb]. rewrite Hr. reflexivity. }
  split; [| split].
  - intros r post' Hr. eapply Hconf. exact Hr.
  - intros message d' post' H.
    unfold create_smartbill_invoice in H. rewrite Hc, Ho in H. cbn [negb] in H.
    destruct (select_one _ _ d) as [r0|] eqn:Hsel; [discriminate |].
    split; [reflexivity |].
    repeat case_match; simplify_eq.
    match goal with
    | Hins : insert _ _ _ _ _ = Some _ |- _ =>
        destruct (StoreFacts.insert_recorded _ _ _ _ _ _ Hins) as (_ & r & Hr & _)
    end.
    eapply Hconf. exact Hr.
  - unfold create_smartbill_invoice.
    repeat case_match; cbn [snd]; try reflexivity.
    eapply BatchFacts.filter_others_insert. eassumption.
Qed.

End CreateOne.

Lemma admin_add_then_lookup_witness :
  exists d',
    admin_add_invoice Scenario.admin " A7 " "TRD" " 0009" Scenario.empty_db
    = (Json 200 None (Some "Invoice added successfully"), d')
    /\ exists r, select_one 1 "A7" d' = Some r /\ invoice_number r = "0009".
Proof.
  destruct (admin_add_then_lookup Scenario.admin " A7 " "TRD" " 0009"
              Scenario.empty_db eq_refl eq_refl eq_refl eq_refl eq_refl eq_refl)
    as (d' & Hadd & (r & Hr & _ & Hn) & _).
  exists d'. split; [exact Hadd |]. exists r. split; [exact Hr | exact Hn].
Defined.

Lemma admin_changes_own_rows_only_witness :
  admin_delete_invoice Scenario.admin 1 Scenario.db_with_A2
  = (Json 404 (Some "Invoice not found") None, Scenario.db_with_A2).
Proof.
  destruct (admin_changes_own_rows_only Scenario.admin Scenario.db_with_A2)
    as (_ & _ & _ & H).
  apply (H 1); [reflexivity | reflexivity |].
  intros r [<- | []] _. cbn. lia.
Defined.

Lemma create_refuses_second_invoice_witness :
  create_smartbill_invoice Scenario.provider_ok Scenario.no_env Scenario.seller
    (generate_invoice_data_from_order Scenario.no_postal Scenario.one_series
       Scenario.no_env "2025-01-31" Scenario.seller Scenario.o2 Scenario.seller
       true)
    Scenario.db_with_A2
  = (Json 409 (Some "Invoice already exists for order A2") None,
     Scenario.db_with_A2).
Proof.
  pose proof (create_refuses_second_invoice Scenario.no_env Scenario.seller
                Scenario.provider_ok
                (generate_invoice_data_from_order Scenario.no_postal
                   Scenario.one_series Scenario.no_env "2025-01-31"
                   Scenario.seller Scenario.o2 Scenario.seller true)
                Scenario.db_with_A2 eq_refl eq_refl) as H.
  cbv zeta in H. destruct H as (H & _ & _).
  exact (H _ Scenario.provider_ok eq_refl).
Defined.

End EndpointFacts.

(** ** Pages: what a fetch hands back *)

Module PageFacts.

Import TrendyolService MultiStatusSpec FetchSpec.

Lemma sorted_skipn (n : nat) (l : list Order) :
  ascending_by_date l -> ascending_by_date (skipn n l).
Proof.
  unfold ascending_by_date. revert l.
  induction n as [|n IH]; intros l H; [exact H |].
  destruct l as [|x l]; [exact H |].
  apply StronglySorted_inv in H as [H _]. cbn. apply IH. exact H.
Qed.

Lemma sorted_firstn (n : nat) (l : list Order) :
  ascending_by_date l -> ascending_by_date (firstn n l).
Proof.
  unfold ascending_by_date. revert n.
  induction l as [|x l IH]; intros n H; [rewrite firstn_nil; constructor |].
  destruct n as [|n]; [constructor |].
  apply StronglySorted_inv in H as [H Hx]. cbn. constructor; [apply IH; exact H |].
  apply List.Forall_forall. intros y Hy. apply PyFacts.in_firstn in Hy.
  rewrite List.Forall_forall in Hx. apply Hx. exact Hy.
Qed.

Lemma map_sublist {A B} (f : A -> B) (l1 l2 : list A) :
  l1 `sublist_of` l2 -> map f l1 `sublist_of` map f l2.
Proof. induction 1; cbn; constructor; assumption. Qed.

Lemma bool_filter_sublist {A} (f : A -> bool) (l : list A) :
  List.filter f l `sublist_of` l.
Proof.
  induction l as [|x l IH]; cbn; [constructor |].
  destruct (f x); constructor; exact IH.
Qed.

Lemma slice_sublist {A} (l : list A) (a b : Z) : Py.slice l a b `sublist_of` l.
Proof.
  unfold Py.slice. cbv zeta.
  etransitivity; [apply sublist_take | apply sublist_drop].
Qed.

Lemma add_unseen_keeps (acc : list Order * gset (option (Z + string))) (o : Order) :
  kept_are_seen acc -> kept_are_seen (add_unseen acc o).
Proof.
  intros [Hnd Hseen]. unfold add_unseen.
  destruct (decide (order_key o ∈ acc.2)) as [Hin|Hout]; [split; assumption |].
  split; cbn [fst snd].
  - rewrite map_app. apply NoDup_app. split; [exact Hnd |]. split.
    + intros k Hk Hk'. cbn in Hk'. apply list_elem_of_singleton in Hk'. subst k.
      apply list_elem_of_In, in_map_iff in Hk as (o' & Hk & Ho').
      apply Hout. rewrite <- Hk. apply Hseen. exact Ho'.
    + cbn. apply NoDup_singleton.
  - intros o' Ho'. apply in_app_or in Ho' as [Ho' | [<- | []]].
    + apply elem_of_union_r. apply Hseen. exact Ho'.
    + apply elem_of_union_l, elem_of_singleton. reflexivity.
Qed.

Lemma fold_add_unseen_keeps (l : list Order)
    (acc : list Order * gset (option (Z + string))) :
  kept_are_seen acc -> kept_are_seen (fold_left add_unseen l acc).
Proof.
  revert acc. induction l as [|o l IH]; intros acc H; [exact H |].
  cbn. apply IH. apply add_unseen_keeps. exact H.
Qed.

Section Pages.

Variable upstream : Params -> Response.
Variable format_date : string -> string.

Lemma status_loop_keeps (fuel : nat) (status start_date end_date
    order_number : string) :
  forall (fetch_page : Z) (acc acc' : list Order * gset (option (Z + string))),
  kept_are_seen acc ->
  status_fetch_loop upstream format_date fuel status start_date end_date
    order_number fetch_page acc = Some acc' ->
  kept_are_seen acc'.
Proof.
  induction fuel as [|fuel IH]; intros fetch_page acc acc' Hacc H; [discriminate |].
  cbn [status_fetch_loop] in H.
  destruct (upstream _) as [result| |]; simplify_eq; try exact Hacc.
  cbv zeta in H. destruct (_ <? _).
  - simplify_eq. apply fold_add_unseen_keeps. exact Hacc.
  - eapply IH; [| exact H]. apply fold_add_unseen_keeps. exact Hacc.
Qed.

Lemma statuses_loop_keeps (fuel : nat) (statuses : list string)
    (start_date end_date order_number : string) :
  forall (acc acc' : list Order * gset (option (Z + string))),
  kept_are_seen acc ->
  statuses_loop upstream format_date fuel statuses start_date end_date
    order_number acc = Some acc' ->
  kept_are_seen acc'.
Proof.
  induction statuses as [|s rest IH]; intros acc acc' Hacc H;
    [cbn in H; simplify_eq; exact Hacc |].
  cbn [statuses_loop] in H.
  destruct (status_fetch_loop _ _ _ _ _ _ _ _ _) as [acc1|] eqn:E; [| discriminate].
  eapply IH; [| exact H]. eapply status_loop_keeps; eassumption.
Qed.

(** X12.  A page of the multi-status fetch, for any list of statuses:
    no two orders in it have the same identifier, the order dates never
    decrease along it, and with a SKU filter every order in it matches the
    filter. *)
Theorem multi_status_page_distinct_ascending (fuel : nat)
    (statuses : list string) (page size : Z)
    (start_date end_date order_number sku_filter : string) (p : Page) :
  _get_orders_multiple_statuses upstream format_date fuel statuses page size
    start_date end_date order_number sku_filter = Some p ->
  NoDup (map order_key (content p))
  /\ ascending_by_date (content p)
  /\ (Py.truthy sku_filter = true ->
      forall o, In o (content p) -> order_matches sku_filter o = true).
Proof.
  unfold _get_orders_multiple_statuses. intros H.
  destruct (statuses_loop _ _ _ _ _ _ _ _) as [[all seen]|] eqn:E; [| discriminate].
  assert (Hall : NoDup (map order_key all)).
  { eapply (statuses_loop_keeps _ _ _ _ _ ([], ∅) (all, seen)); [| exact E].
    split; [constructor | intros o []]. }
  simplify_eq. cbn [paginate content].
  set (kept := if Py.truthy sku_filter then sku_filter_orders sku_filter all else all).
  assert (Hkept : NoDup (map order_key kept)).
  { subst kept. destruct (Py.truthy sku_filter); [| exact Hall].
    unfold sku_filter_orders.
    eapply sublist_NoDup; [exact Hall |].
    apply map_sublist. apply bool_filter_sublist. }
  split; [| split].
  - eapply sublist_NoDup; [| apply map_sublist, slice_sublist].
    eapply NoDup_Permutation_proper; [| exact Hkept].
    apply Permutation_map. symmetry. apply FetchFacts.sort_by_date_perm.
  - unfold Py.slice. cbv zeta. apply sorted_firstn, sorted_skipn.
    apply FetchFacts.sort_by_date_sorted.
  - intros Hs o Ho. subst kept. rewrite Hs in Ho.
    apply list_elem_of_In in Ho.
    apply (fun H => elem_of_sublist _ _ _ H (slice_sublist _ _ _)) in Ho.
    apply list_elem_of_In in Ho.
    eapply Permutation_in in Ho;
      [| symmetry; apply FetchFacts.sort_by_date_perm].
    apply filter_In in Ho. apply Ho.
Qed.

(** X13.  The fetch without SKU filter for one status makes one request
    and hands the marketplace's answer on: a body is returned as it is, with
    the marketplace's own totals; an HTTP error of any status from 400 to 599
    becomes an error record with status 500, as does any other request
    failure. *)
Theorem unfiltered_fetch_passes_through (fuel : nat) (page size : Z)
    (status start_date end_date order_number : string) :
  Py.truthy status && Py.contains "," status = false ->
  let request := single_params format_date page size status start_date end_date
                   order_number in
  let answer := get_orders upstream format_date fuel page size status start_date
                  end_date order_number "" in
  (forall body, upstream request = Resp200 body -> answer = Some (OrdersPage body))
  /\ (forall code text,
        400 <= code < 600 ->
        upstream request = RespHTTPError code text ->
        answer = Some (OrdersError ("Failed to fetch orders: " ++ text) 500))
  /\ (forall text,
        upstream request = RespRequestException text ->
        answer = Some (OrdersError ("Failed to fetch orders: " ++ text) 500)).
Proof.
  intros Hsingle request answer. subst request answer.
  unfold get_orders. rewrite Hsingle. cbn [Py.truthy].
  split; [| split].
  - intros body H. rewrite H. reflexivity.
  - intros code text Hcode H. rewrite H.
    rewrite (FetchFacts.http_error_status_500 code Hcode). reflexivity.
  - intros text H. rewrite H. reflexivity.
Qed.

End Pages.

Lemma multi_status_page_distinct_ascending_witness :
  exists p,
    _get_orders_multiple_statuses
      (Scenario.marketplace_by_status [Scenario.o3; Scenario.o1]
         [Scenario.o1; Scenario.o2])
      Scenario.same_date 3 ["Created"; "Picking"; "Created"] 0 10 "" "" "" ""
    = Some p
    /\ content p = [Scenario.o1; Scenario.o2; Scenario.o3]
    /\ NoDup (map order_key (content p)).
Proof.
  destruct (_get_orders_multiple_statuses
              (Scenario.marketplace_by_status [Scenario.o3; Scenario.o1]
                 [Scenario.o1; Scenario.o2])
              Scenario.same_date 3 ["Created"; "Picking"; "Created"] 0 10
              "" "" "" "") as [p|] eqn:E; [| vm_compute in E; discriminate].
  exists p. split; [reflexivity |].
  destruct (multi_status_page_distinct_ascending _ _ _ _ _ _ _ _ _ _ _ E)
    as (Hnd & _ & _).
  split; [| exact Hnd].
  vm_compute in E. injection E as <-. reflexivity.
Defined.

Lemma unfiltered_fetch_passes_through_witness :
  get_orders Scenario.marketplace_down Scenario.same_date 1 0 50 "Created" ""
    "" "" ""
  = Some (OrdersError "Failed to fetch orders: 503 Server Error" 500).
Proof.
  pose proof (unfiltered_fetch_passes_through Scenario.marketplace_down
                Scenario.same_date 1 0 50 "Created" "" "" "" eq_refl) as H.
  cbv zeta in H. destruct H as (_ & H & _).
  apply (H 503 "503 Server Error"); [lia | reflexivity].
Defined.

Lemma windows_concat {A} (l : list A) (n k : nat) :
  concat (map (fun i => firstn n (skipn (i * n) l)) (seq 0 k)) = firstn (k * n) l.
Proof.
  induction k as [|k IH]; [reflexivity |].
  rewrite seq_S, map_app, concat_app, IH. cbn [map concat plus].
  rewrite app_nil_r, take_take_drop. f_equal. lia.
Qed.

Lemma page_window (l : list Order) (page size : Z) :
  0 <= page -> 0 < size ->
  content (paginate l page size)
  = firstn (Z.to_nat size) (skipn (Z.to_nat page * Z.to_nat size) l).
Proof.
  intros Hp Hs. cbn [paginate content].
  rewrite PyFacts.slice_window by nia. do 2 f_equal. nia.
Qed.

(** X14.  The pages built from an in-memory list, for [size > 0]: put
    one after the other, pages [0 .. totalPages - 1] give back the list, each
    order once and in order; a page holds at most [size] orders; and a page
    [>= 0] is empty exactly when its number is [totalPages] or more. *)
Theorem pages_tile_the_list (l : list Order) (size : Z) :
  0 < size ->
  concat (map (fun i => content (paginate l (Z.of_nat i) size))
            (seq 0 (Z.to_nat (total_pages (Z.of_nat (length l)) size))))
  = l
  /\ forall page,
       0 <= page ->
       Z.of_nat (length (content (paginate l page size))) <= size
       /\ totalPages (paginate l page size)
          = total_pages (Z.of_nat (length l)) size
       /\ (content (paginate l page size) = []
           <-> total_pages (Z.of_nat (length l)) size <= page).
Proof.
  intros Hs.
  pose proof (FetchFacts.total_pages_ceiling (Z.of_nat (length l)) size Hs) as Hc.
  set (tp := total_pages (Z.of_nat (length l)) size) in *.
  split.
  - erewrite map_ext; [| intros i; rewrite page_window by lia;
                         rewrite Nat2Z.id; reflexivity].
    rewrite windows_concat. apply firstn_all2. nia.
  - intros page Hp. rewrite page_window by assumption.
    split; [rewrite length_firstn; lia |]. split; [reflexivity |].
    rewrite <- length_zero_iff_nil, length_firstn, length_skipn.
    split; intros H; nia.
Qed.

Lemma pages_tile_the_list_witness :
  (content (paginate Scenario.ten_orders 0 4)
   ++ content (paginate Scenario.ten_orders 1 4)
   ++ content (paginate Scenario.ten_orders 2 4))%list
  = Scenario.ten_orders.
Proof.
  destruct (pages_tile_the_list Scenario.ten_orders 4 ltac:(lia)) as [H _].
  etransitivity; [| exact H]. vm_compute. reflexivity.
Defined.

End PageFacts.

(** ** Bulk upload of invoice PDFs *)

Module UploadFacts.

Import UserManager SmartBillService App InvoiceUpload.

Lemma mappings_come_from_rows (uid : Z) (d : DB) (k series number : string) :
  invoice_mappings uid d !! k = Some (series, number) ->
  exists r, In r (rows d) /\ user_id r = uid /\ order_id r = k
            /\ invoice_series r = series /\ invoice_number r = number.
Proof.
  unfold invoice_mappings. intros H.
  apply elem_of_list_to_map_2 in H.
  apply list_elem_of_In, in_rev, in_map_iff in H as (r & Hr & Hin).
  apply filter_In in Hin as [Hin Hu]. apply Z.eqb_eq in Hu.
  exists r. simplify_eq. auto.
Qed.

Lemma no_rows_no_mappings (uid : Z) (d : DB) :
  (forall r, In r (rows d) -> user_id r <> uid) -> invoice_mappings uid d = ∅.
Proof.
  intros H. unfold invoice_mappings.
  assert (Hf : List.filter (fun r => user_id r =? uid) (rows d) = []).
  { induction (rows d) as [|r l IH]; [reflexivity |].
    cbn. destruct (user_id r =? uid) eqn:E.
    - apply Z.eqb_eq in E. exfalso. exact (H r (or_introl eq_refl) E).
    - apply IH. intros r' Hr'. apply H. right. exact Hr'. }
  rewrite Hf. reflexivity.
Qed.

Lemma selected_have_mapping (mappings : gmap string (string * string))
    (all_orders : list Order) (order : Order) (invoice : string * string) :
  In (order, invoice) (orders_to_upload_all mappings all_orders) ->
  In order all_orders
  /\ (exists order_number, orderNumber order = Some order_number
                           /\ mappings !! order_number = Some invoice)
  /\ Py.truthy_opt (invoiceLink order) = false.
Proof.
  unfold orders_to_upload_all. intros H.
  apply list_elem_of_In, list_elem_of_omap in H as (o & Ho & H).
  apply list_elem_of_In in Ho.
  destruct (orderNumber o) as [k|] eqn:Ek; [| discriminate].
  destruct (mappings !! k) as [inv|] eqn:Em; [| discriminate].
  destruct (Py.truthy_opt (invoiceLink o)) eqn:El; cbn in H; [discriminate |].
  simplify_eq. split; [exact Ho |]. split; [| exact El]. eauto.
Qed.

Section Bulk.

Variable upstream : TrendyolService.Params -> TrendyolService.Response.
Variable format_date : string -> string.
Variable pdf_request : string -> string -> PdfOutcome.
Variable upload_request : Z -> string -> string -> UploadOutcome.
Variable getenv : string -> option string.
Variable current_user : User.

Let step := upload_item pdf_request upload_request getenv current_user.
Let run := bulk_upload_to_trendyol upstream format_date pdf_request
             upload_request getenv current_user.

Lemma item_counted_once (st : UploadState) (item : Order * (string * string)) :
  (up_successful (step st item) = up_successful st + 1
   /\ up_failed (step st item) = up_failed st
   /\ up_errors (step st item) = up_errors st)
  \/ (up_successful (step st item) = up_successful st
      /\ up_failed (step st item) = up_failed st + 1
      /\ exists msg,
           up_errors (step st item)
           = (up_errors st ++ [error_line item.1 msg])%list).
Proof.
  subst step. unfold upload_item. destruct item as [order [series number]].
  cbv zeta. cbn [fst].
  repeat case_match; cbn [up_fail up_successful up_failed up_errors];
    first [ left; repeat split; reflexivity
          | right; split; [reflexivity | split; [reflexivity | eexists; reflexivity]] ].
Qed.

Lemma loop_counted_once (items : list (Order * (string * string)))
    (st : UploadState) :
  let st' := fold_left step items st in
  up_successful st <= up_successful st'
  /\ up_failed st <= up_failed st'
  /\ up_successful st' + up_failed st'
     = up_successful st + up_failed st + Z.of_nat (length items)
  /\ Z.of_nat (length (up_errors st'))
     = Z.of_nat (length (up_errors st)) + (up_failed st' - up_failed st).
Proof.
  revert st. induction items as [|item items IH]; intros st; cbv zeta.
  - cbn. lia.
  - cbn [fold_left length]. specialize (IH (step st item)). cbv zeta in IH.
    destruct (item_counted_once st item)
      as [(H1 & H2 & H3) | (H1 & H2 & msg & H3)];
      rewrite H1, H2, H3 in IH; rewrite ?length_app in IH; cbn [length] in IH; lia.
Qed.

(** X15.  Whenever bulk upload returns a summary, each item was counted
    once: [successful + failed = total], both counters are non-negative, and
    the summary carries [min failed 10] error messages, whatever the
    providers answered or raised. *)
Theorem upload_counters_add_up page_fuel fuel rq d total n_ok n_failed reported tr :
  run page_fuel fuel rq d
    = Some (BulkSummary total n_ok n_failed reported, tr) ->
  n_ok + n_failed = total
  /\ 0 <= n_ok /\ 0 <= n_failed
  /\ Z.of_nat (length reported) = Z.min n_failed 10.
Proof.
  subst run. unfold bulk_upload_to_trendyol. intros H.
  repeat case_match; simplify_eq.
  fold step.
  match goal with
  | |- context [fold_left step ?items ?st0] =>
      pose proof (loop_counted_once items st0) as Hl; cbv zeta in Hl;
      set (st := fold_left step items st0) in *
  end.
  cbn [up_successful up_failed up_errors length Z.of_nat] in Hl.
  destruct Hl as (Hok & Hfail & Hsum & Hlen).
  split; [lia |]. split; [lia |]. split; [lia |].
  unfold Py.slice_to. rewrite length_firstn. unfold Py.clamp. cbn. lia.
Qed.

(** X16.  A user without any row in the mapping table gets 400 from bulk
    upload before any order is fetched and before any provider is called. *)
Theorem upload_without_mappings page_fuel fuel rq d :
  check_credentials current_user = true ->
  check_smartbill_credentials current_user = true ->
  (forall r, In r (rows d) -> user_id r <> id current_user) ->
  run page_fuel fuel rq d
  = Some (BulkError "No SmartBill invoices found in database" 400, []).
Proof.
  intros H1 H2 Hno. subst run. unfold bulk_upload_to_trendyol.
  rewrite H1, H2. cbn [negb]. cbv zeta.
  rewrite (no_rows_no_mappings _ _ Hno).
  rewrite bool_decide_eq_true_2 by reflexivity. reflexivity.
Qed.

Lemma item_asks_once (st : UploadState) (item : Order * (string * string)) :
  check_smartbill_credentials current_user = true ->
  pdfs_asked (up_trace (step st item)) = (pdfs_asked (up_trace st) ++ [item.2])%list.
Proof.
  intros Hc. subst step. unfold upload_item.
  destruct item as [order [series number]]. cbv zeta. cbn [snd].
  destruct (CredentialFacts.service_of_checked getenv current_user Hc)
    as (svc & Hs & _). rewrite Hs.
  assert (Happ : forall a b, pdfs_asked (a ++ b) = (pdfs_asked a ++ pdfs_asked b)%list).
  { intros a b. induction a as [|e a IH]; [reflexivity |].
    destruct e; cbn; rewrite IH; reflexivity. }
  repeat case_match; cbn [up_fail up_trace]; rewrite Happ; reflexivity.
Qed.

(** X17.  Which invoices a bulk upload asks for: with both checks
    passed, the orders gathered and [upload_count >= 0], a PDF is requested,
    in order, for the first [upload_count] gathered orders that have a row in
    the user's mapping table and no invoice link, and the series and number
    asked for are those of a row of that user and order. *)
Theorem upload_asks_recorded_invoices page_fuel fuel rq d all_orders tr0 :
  check_credentials current_user = true ->
  check_smartbill_credentials current_user = true ->
  invoice_mappings (id current_user) d <> ∅ ->
  gather_orders upstream format_date page_fuel fuel (filters_of rq) 0 [] []
    = Some (inr all_orders, tr0) ->
  0 <= upload_count rq ->
  let chosen :=
    firstn (Z.to_nat (upload_count rq))
      (orders_to_upload_all (invoice_mappings (id current_user) d) all_orders) in
  exists response tr,
    run page_fuel fuel rq d = Some (response, tr)
    /\ pdfs_asked tr = map snd chosen
    /\ forall order series number,
         In (order, (series, number)) chosen ->
         In order all_orders
         /\ Py.truthy_opt (invoiceLink order) = false
         /\ exists r, In r (rows d)
                      /\ user_id r = id current_user
                      /\ Some (order_id r) = orderNumber order
                      /\ invoice_series r = series
                      /\ invoice_number r = number.
Proof.
  intros H1 H2 Hne Hg Hn chosen. subst run. unfold bulk_upload_to_trendyol.
  rewrite H1, H2. cbn [negb]. cbv zeta.
  rewrite bool_decide_eq_false_2 by exact Hne. rewrite Hg.
  rewrite PyFacts.slice_to_firstn by exact Hn. fold chosen. fold step.
  eexists _, _. split; [reflexivity |]. split.
  - assert (Hloop : forall items st,
               pdfs_asked (up_trace (fold_left step items st))
               = (pdfs_asked (up_trace st) ++ map snd items)%list).
    { induction items as [|item items IH]; intros st;
        [cbn; rewrite app_nil_r; reflexivity |].
      cbn [fold_left map]. rewrite IH, (item_asks_once st item H2), <- app_assoc.
      reflexivity. }
    rewrite Hloop. cbn [up_trace].
    assert (Hf : forall evs, pdfs_asked (map Fetch evs) = []).
    { intros evs. induction evs as [|e l IH]; [reflexivity | exact IH]. }
    rewrite Hf. reflexivity.
  - intros order series number Hin. subst chosen.
    apply PyFacts.in_firstn in Hin.
    apply selected_have_mapping in Hin as (Ho & (k & Hk & Hm) & Hl).
    split; [exact Ho |]. split; [exact Hl |].
    apply mappings_come_from_rows in Hm as (r & Hr & Hu & Hoid & Hs & Hnum).
    exists r. rewrite Hk, Hoid. auto.
Qed.

End Bulk.

(** What [int] accepts and what it rejects. *)
Example py_int_examples :
  py_int "101" = inl 101
  /\ py_int "+5" = inl 5
  /\ py_int "-5" = inl (-5)
  /\ py_int " 5" = inl 5
  /\ py_int "5 " = inl 5
  /\ py_int "1_0" = inl 10
  /\ py_int "007" = inl 7
  /\ py_int "" = inr "invalid literal for int() with base 10: ''"
  /\ py_int "1__0" = inr "invalid literal for int() with base 10: '1__0'"
  /\ py_int "_1" = inr "invalid literal for int() with base 10: '_1'"
  /\ py_int "- 5" = inr "invalid literal for int() with base 10: '- 5'"
  /\ py_int "12a" = inr "invalid literal for int() with base 10: '12a'".
Proof. vm_compute. repeat split. Qed.

(** X18.  [upload_invoice_file] on failure: a package id that [int]
    rejects raises before any request is made; an HTTP error with a status
    from 400 to 599 is reported with status 500 and the message
    ["Failed to upload invoice file: ..."], whatever ['message'] the
    marketplace put in its JSON body. *)
Theorem upload_failure_is_500 (upload_request : Z -> string -> string -> UploadOutcome)
    (shipment_package_id pdf_content filename : string) :
  (forall text,
     py_int shipment_package_id = inr text ->
     forall upload_request',
       upload_invoice_file upload_request' shipment_package_id pdf_content filename
       = inr text)
  /\ (forall package code text message,
        py_int shipment_package_id = inl package ->
        400 <= code < 600 ->
        upload_request package pdf_content filename
        = UploadHTTPError code text message ->
        upload_invoice_file upload_request shipment_package_id pdf_content filename
        = inl (UploadError ("Failed to upload invoice file: " ++ text) 500)).
Proof.
  unfold upload_invoice_file. split.
  - intros text H up'. rewrite H. reflexivity.
  - intros package code text message Hp Hc Hr. rewrite Hp, Hr. cbv zeta.
    rewrite (FetchFacts.http_error_status_500 code Hc).
    unfold TrendyolService.response_ok.
    destruct (400 <=? code) eqn:E1; [| apply Z.leb_gt in E1; lia].
    destruct (code <? 600) eqn:E2; [| apply Z.ltb_ge in E2; lia].
    reflexivity.
Qed.

Lemma upload_counters_add_up_witness :
  bulk_upload_to_trendyol (Scenario.marketplace Scenario.five_orders)
    Scenario.same_date (Scenario.pdf_missing_for "0003") Scenario.upload_ok
    Scenario.no_env Scenario.seller 3 3 (Scenario.upload_rq 5)
    Scenario.db_two_invoices
  = Some (BulkSummary 2 1 1 ["Order A3: Invoice not found: TRD-0003"],
          [Fetch (GetOrders 0);
           GetInvoicePdf "TRD" "0001";
           UploadInvoiceFile "101" "invoice_101_TRD_0001.pdf";
           GetInvoicePdf "TRD" "0003"])
  /\ 1 + 1 = 2.
Proof.
  assert (E : bulk_upload_to_trendyol (Scenario.marketplace Scenario.five_orders)
                Scenario.same_date (Scenario.pdf_missing_for "0003")
                Scenario.upload_ok Scenario.no_env Scenario.seller 3 3
                (Scenario.upload_rq 5) Scenario.db_two_invoices
              = Some (BulkSummary 2 1 1 ["Order A3: Invoice not found: TRD-0003"],
                      [Fetch (GetOrders 0);
                       GetInvoicePdf "TRD" "0001";
                       UploadInvoiceFile "101" "invoice_101_TRD_0001.pdf";
                       GetInvoicePdf "TRD" "0003"]))
    by (vm_compute; reflexivity).
  split; [exact E |].
  exact (proj1 (upload_counters_add_up _ _ _ _ _ _ _ _ _ _ _ _ _ _ _ E)).
Defined.

Lemma upload_without_mappings_witness :
  bulk_upload_to_trendyol (Scenario.marketplace Scenario.five_orders)
    Scenario.same_date Scenario.pdf_ok Scenario.upload_ok
    Scenario.no_env Scenario.seller 3 3 (Scenario.upload_rq 5)
    Scenario.db_of_other_seller
  = Some (BulkError "No SmartBill invoices found in database" 400, []).
Proof.
  apply upload_without_mappings; [reflexivity | reflexivity |].
  intros r [<- | []]. cbn. lia.
Defined.

Lemma upload_asks_recorded_invoices_witness :
  exists response tr,
    bulk_upload_to_trendyol (Scenario.marketplace Scenario.five_orders)
      Scenario.same_date Scenario.pdf_ok Scenario.upload_ok
      Scenario.no_env Scenario.seller 3 3 (Scenario.upload_rq 5)
      Scenario.db_two_invoices
    = Some (response, tr)
    /\ pdfs_asked tr = [("TRD", "0001"); ("TRD", "0003")].
Proof.
  pose proof (upload_asks_recorded_invoices
                (Scenario.marketplace Scenario.five_orders)
                Scenario.same_date Scenario.pdf_ok Scenario.upload_ok
                Scenario.no_env Scenario.seller 3 3 (Scenario.upload_rq 5)
                Scenario.db_two_invoices Scenario.five_orders [GetOrders 0]
                eq_refl eq_refl) as H.
  cbv zeta in H.
  destruct H as (response & tr & Hrun & Hasked & _).
  - intros Hempty.
    assert (Hl : invoice_mappings 7 Scenario.db_two_invoices !! "A1" = None)
      by (cbn [id Scenario.seller] in Hempty; rewrite Hempty; apply lookup_empty).
    vm_compute in Hl. discriminate.
  - vm_compute. reflexivity.
  - cbn. lia.
  - exists response, tr. split; [exact Hrun |].
    etransitivity; [exact Hasked |]. vm_compute. reflexivity.
Defined.

Lemma upload_failure_is_500_witness :
  upload_invoice_file Scenario.upload_refused "101" "%PDF" "invoice.pdf"
  = inl (UploadError "Failed to upload invoice file: 400 Client Error" 500)
  /\ upload_invoice_file Scenario.upload_ok "" "%PDF" "invoice.pdf"
     = inr "invalid literal for int() with base 10: ''".
Proof.
  split.
  - destruct (upload_failure_is_500 Scenario.upload_refused "101" "%PDF"
                "invoice.pdf") as [_ H].
    apply (H 101 400 "400 Client Error" (Some "Invoice already sent"));
      [reflexivity | lia | reflexivity].
  - destruct (upload_failure_is_500 Scenario.upload_ok "" "%PDF" "invoice.pdf")
      as [H _].
    apply H. reflexivity.
Defined.

End UploadFacts.

(** ** Shipping labels: what the download answers *)

Module LabelFacts.

Import UserManager App ShippingLabel.

Lemma response_ok_iff (code : Z) :
  TrendyolService.response_ok code = false <-> 400 <= code < 600.
Proof.
  unfold TrendyolService.response_ok.
  destruct (400 <=? code) eqn:E1; destruct (code <? 600) eqn:E2; cbn;
    try apply Z.leb_le in E1; try apply Z.leb_gt in E1;
    try apply Z.ltb_lt in E2; try apply Z.ltb_ge in E2;
    split; intros H; try discriminate; try reflexivity; lia.
Qed.

Lemma error_messages_ok (code : Z) :
  TrendyolService.response_ok code = true ->
  error_messages code = "Label not available".
Proof.
  intros H. unfold error_messages.
  assert (Hn : ~ 400 <= code < 600).
  { intros Hc. apply response_ok_iff in Hc. congruence. }
  destruct (code =? 401) eqn:E1; [apply Z.eqb_eq in E1; lia |].
  destruct (code =? 403) eqn:E2; [apply Z.eqb_eq in E2; lia |].
  destruct (code =? 404) eqn:E3; [apply Z.eqb_eq in E3; lia |].
  destruct (code =? 429) eqn:E4; [apply Z.eqb_eq in E4; lia |].
  destruct (code =? 500) eqn:E5; [apply Z.eqb_eq in E5; lia |].
  reflexivity.
Qed.

(** X19.  What [download_label] answers to a user who passes the
    credential check.  The file is sent for a 200 with content.  Every
    HTTP error of the marketplace, whatever its status (401, 403, 404, 429,
    ...), and every failed request is answered 500 with ["Server error while
    fetching label"].  A 204 or an empty body is answered 404.  So the
    messages for 401, 403 and 429 are never sent. *)
Theorem label_download_answers (label_request : string -> LabelResponse)
    (u : User) (package_id : string) :
  check_credentials u = true ->
  let reply := download_label label_request u package_id in
  (forall code content,
     label_request package_id = LabelHttp code content ->
     (code = 200 -> Py.truthy content = true ->
      reply = LabelFile content ("label_" ++ package_id ++ ".pdf"))
     /\ (400 <= code < 600 ->
         reply = LabelJson "Server error while fetching label" 500)
     /\ (~ 400 <= code < 600 -> code = 204 \/ Py.truthy content = false ->
         reply = LabelJson "Label not found or not generated yet" 404))
  /\ (forall text,
        label_request package_id = LabelRequestException text ->
        reply = LabelJson "Server error while fetching label" 500)
  /\ (forall error status,
        reply = LabelJson error status ->
        error <> "Unauthorized: Invalid or expired credentials"
        /\ error <> "Forbidden: Access denied"
        /\ error <> "Rate limited: Please try again later").
Proof.
  intros Hc reply. subst reply. unfold download_label, get_shipping_label.
  rewrite Hc. cbn [negb].
  split; [| split].
  - intros code content Hr. rewrite Hr.
    split; [| split].
    + intros -> Ht. cbn. rewrite Ht. reflexivity.
    + intros Hcode. pose proof (proj2 (response_ok_iff code) Hcode) as Hok.
      rewrite Hok. cbn [negb].
      unfold TrendyolService.http_error_status. rewrite Hok. reflexivity.
    + intros Hcode Hempty.
      destruct (TrendyolService.response_ok code) eqn:Hok;
        [| apply response_ok_iff in Hok; contradiction].
      cbn [negb]. destruct Hempty as [-> | Ht]; [reflexivity |].
      rewrite Ht. cbn [negb]. rewrite orb_true_r. reflexivity.
  - intros text Hr. rewrite Hr. reflexivity.
  - intros error status.
    destruct (label_request package_id) as [code content|text].
    + destruct (TrendyolService.response_ok code) eqn:Hok; cbn [negb].
      * destruct ((code =? 204) || negb (Py.truthy content)).
        -- intros [= <- <-]. cbn. repeat split; discriminate.
        -- destruct (code =? 200); [discriminate |].
           intros [= <- <-]. rewrite (error_messages_ok code Hok).
           repeat split; discriminate.
      * unfold TrendyolService.http_error_status. rewrite Hok.
        intros [= <- <-]. cbn. repeat split; discriminate.
    + intros [= <- <-]. cbn. repeat split; discriminate.
Qed.

Lemma label_download_answers_witness :
  download_label (fun _ => LabelHttp 401 "Unauthorized") Scenario.seller "101"
  = LabelJson "Server error while fetching label" 500
  /\ download_label (fun _ => LabelHttp 204 "") Scenario.seller "101"
     = LabelJson "Label not found or not generated yet" 404.
Proof.
  split.
  - pose proof (label_download_answers (fun _ => LabelHttp 401 "Unauthorized")
                  Scenario.seller "101" eq_refl) as H.
    cbv zeta in H. destruct H as (H & _ & _).
    destruct (H 401 "Unauthorized" eq_refl) as (_ & H401 & _).
    apply H401. lia.
  - pose proof (label_download_answers (fun _ => LabelHttp 204 "")
                  Scenario.seller "101" eq_refl) as H.
    cbv zeta in H. destruct H as (H & _ & _).
    destruct (H 204 "" eq_refl) as (_ & _ & H204).
    apply H204; [lia | left; reflexivity].
Defined.

End LabelFacts.

(** ** The [users] table: accounts *)

Module AccountFacts.

Import UserManager Accounts.

Lemma find_none_existsb {A} (f : A -> bool) (l : list A) :
  existsb f l = false -> List.find f l = None.
Proof.
  induction l as [|x l IH]; [reflexivity |].
  cbn. destruct (f x); [discriminate | exact IH].
Qed.

Lemma find_snoc_fresh {A} (f : A -> bool) (l : list A) (x : A) :
  existsb f l = false -> f x = true -> List.find f (l ++ [x]) = Some x.
Proof.
  induction l as [|y l IH]; cbn; intros Hl Hx; [rewrite Hx; reflexivity |].
  destruct (f y); [discriminate |]. apply IH; assumption.
Qed.

Lemma ids_below_not_found (db : UsersDB) :
  Forall (fun r => u_id r < next_user_id db) (users db) ->
  existsb (fun r => u_id r =? next_user_id db) (users db) = false.
Proof.
  induction 1 as [|r l Hr Hl IH]; [reflexivity |].
  cbn. rewrite IH. destruct (u_id r =? next_user_id db) eqn:E;
    [apply Z.eqb_eq in E; lia | reflexivity].
Qed.

Section Crypto.

Variable hash_password : string -> string.
Variable check_password_hash : string -> string -> bool.
Variable encrypt : string -> string.
Variable decrypt : string -> string.

Lemma secrets_round_trip (s : Secrets) :
  (forall v, decrypt (encrypt v) = v) ->
  on_secrets (_decrypt decrypt) (on_secrets (_encrypt encrypt) s) = s.
Proof.
  intros H. destruct s as [[a|] [b|] [c|] [d|] [e|] [f|] [g|]];
    unfold on_secrets, _decrypt, _encrypt; cbn; rewrite ?H; reflexivity.
Qed.

(** X20.  Creating an account and signing in.  For a username that no
    row holds, with a hash that accepts its own password and a cipher whose
    decryption undoes its encryption: [create_user] returns [True];
    [authenticate_user] with the same username and password, and
    [get_user_by_id] with the new id, return the user with the credentials
    as they were given and the role given, or ['user'] when none was; and a
    second [create_user] with that username returns [False] and leaves the
    table as it is. *)
Theorem account_round_trip (username password : string) (secrets : Secrets)
    (role : option string) (db : UsersDB) :
  check_password_hash (hash_password password) password = true ->
  (forall v, decrypt (encrypt v) = v) ->
  Forall (fun r => u_id r < next_user_id db) (users db) ->
  existsb (fun r => String.eqb (u_username r) username) (users db) = false ->
  let created :=
    {| id := next_user_id db;
       UserManager.username := username;
       trendyol_api_key := s_trendyol_api_key secrets;
       trendyol_api_secret := s_trendyol_api_secret secrets;
       trendyol_supplier_id := s_trendyol_supplier_id secrets;
       smartbill_api_token := s_smartbill_api_token secrets;
       smartbill_email := s_smartbill_email secrets;
       smartbill_company_cif := s_smartbill_company_cif secrets;
       smartbill_gestiune := s_smartbill_gestiune secrets;
       UserManager.role := if Py.truthy_opt role then default "" role else "user";
       is_authenticated := true |} in
  exists db',
    create_user hash_password encrypt username password secrets role db = (true, db')
    /\ authenticate_user check_password_hash decrypt username password db'
       = Some created
    /\ get_user_by_id decrypt (next_user_id db) db' = Some created
    /\ forall password' secrets' role',
         create_user hash_password encrypt username password' secrets' role' db'
         = (false, db').
Proof.
  intros Hcheck Hdec Hids Hfresh created.
  unfold create_user. rewrite Hfresh. eexists. split; [reflexivity |].
  assert (Huser : user_of_row decrypt
                    {| u_id := next_user_id db;
                       u_username := username;
                       u_password_hash := hash_password password;
                       u_secrets := on_secrets (_encrypt encrypt) secrets;
                       u_role := role |} = created).
  { unfold user_of_row. cbv zeta. cbn [u_secrets u_id u_username u_role].
    rewrite (secrets_round_trip secrets Hdec). reflexivity. }
  split; [| split].
  - unfold authenticate_user. cbn [users].
    rewrite (find_snoc_fresh _ _ _ Hfresh) by (cbn; apply String.eqb_refl).
    cbn [u_password_hash]. rewrite Hcheck, Huser. reflexivity.
  - unfold get_user_by_id. cbn [users].
    rewrite (find_snoc_fresh _ _ _ (ids_below_not_found db Hids))
      by (cbn; apply Z.eqb_refl).
    cbn. rewrite Huser. reflexivity.
  - intros password' secrets' role'. cbn [users].
    rewrite existsb_app. cbn. rewrite String.eqb_refl, orb_true_r. reflexivity.
Qed.

(** X21.  [update_user] at its edges: with every argument [None] it
    returns [False] and leaves the table as it is; with something to set and
    an id that no row has it returns [True] and the table is as it was. *)
Theorem update_user_edges (user_id : Z) (username password : option string)
    (secrets : Secrets) (role : option string) (db : UsersDB) :
  (nothing_to_update username password secrets role = true ->
   update_user hash_password encrypt user_id username password secrets role db
   = (false, db))
  /\ (nothing_to_update username password secrets role = false ->
      existsb (fun r => u_id r =? user_id) (users db) = false ->
      update_user hash_password encrypt user_id username password secrets role db
      = (true, db)).
Proof.
  unfold update_user. split.
  - intros H. rewrite H. reflexivity.
  - intros H Hno. rewrite H, Hno. cbn [andb].
    assert (Hmap : forall l,
               existsb (fun r => u_id r =? user_id) l = false ->
               map (fun r => if u_id r =? user_id
                             then updated_row hash_password encrypt username
                                    password secrets role r
                             else r) l = l).
    { induction l as [|r l IH]; [reflexivity |]. cbn. intros Hl.
      apply orb_false_iff in Hl as [Hr Hl]. rewrite Hr, (IH Hl). reflexivity. }
    rewrite (Hmap _ Hno). destruct db, username; reflexivity.
Qed.

(** X22.  [delete_user] and the lookups: it returns [True] exactly when
    a row has the id; afterwards no user is found under that id, and every
    other id finds what it found before.  Through [admin_delete_user] an
    admin's own id leaves the table as it is. *)
Theorem delete_user_then_lookup (user_id : Z) (db : UsersDB) :
  ((delete_user user_id db).1 = true <-> get_user_by_id decrypt user_id db <> None)
  /\ get_user_by_id decrypt user_id (delete_user user_id db).2 = None
  /\ (forall other, other <> user_id ->
        get_user_by_id decrypt other (delete_user user_id db).2
        = get_user_by_id decrypt other db)
  /\ (forall admin,
        (admin_delete_user decrypt admin (id admin) db).2 = db).
Proof.
  unfold delete_user, get_user_by_id. cbn [fst snd users].
  split; [| split; [| split]].
  - induction (users db) as [|r l IH]; cbn; [split; [discriminate | congruence] |].
    destruct (u_id r =? user_id); cbn; [split; [discriminate | reflexivity] |].
    exact IH.
  - induction (users db) as [|r l IH]; [reflexivity |].
    cbn. destruct (u_id r =? user_id) eqn:E; cbn; [exact IH |].
    rewrite E. exact IH.
  - intros other Hne. induction (users db) as [|r l IH]; [reflexivity |].
    cbn. destruct (u_id r =? user_id) eqn:E; cbn.
    + apply Z.eqb_eq in E. destruct (u_id r =? other) eqn:E';
        [apply Z.eqb_eq in E'; lia | exact IH].
    + destruct (u_id r =? other); [reflexivity | exact IH].
  - intros admin. unfold admin_delete_user.
    destruct (negb (is_authenticated admin) || negb (is_admin admin));
      [reflexivity |].
    rewrite Z.eqb_refl. reflexivity.
Qed.

Lemma usernames_after_update (name : string) (user_id : Z)
    (upd : UserRow -> UserRow) (l : list UserRow) :
  (forall r, u_id (upd r) = u_id r /\ u_username (upd r) = name) ->
  NoDup (map u_username l) ->
  NoDup (map u_id l) ->
  (forall r, In r l -> u_username r = name -> u_id r = user_id) ->
  NoDup (map u_username
           (map (fun r => if u_id r =? user_id then upd r else r) l)).
Proof.
  intros Hupd. induction l as [|r l IH]; intros Hn Hi Hname; [constructor |].
  cbn [map] in *.
  apply StoreFacts.NoDup_cons_In in Hn as [Hn1 Hn2].
  apply StoreFacts.NoDup_cons_In in Hi as [Hi1 Hi2].
  apply StoreFacts.NoDup_cons_intro.
  - intros Hin. apply in_map_iff in Hin as (r' & Hr' & Hin).
    apply in_map_iff in Hin as (r0 & <- & Hin0).
    destruct (u_id r =? user_id) eqn:E; destruct (u_id r0 =? user_id) eqn:E0.
    + apply Z.eqb_eq in E, E0. apply Hi1. apply in_map_iff.
      exists r0. split; [congruence | exact Hin0].
    + apply Z.eqb_neq in E0. apply E0.
      apply (Hname r0 (or_intror Hin0)).
      rewrite Hr'. apply (Hupd r).
    + apply Z.eqb_neq in E. apply E.
      apply (Hname r (or_introl eq_refl)).
      rewrite <- Hr'. apply (Hupd r0).
    + apply Hn1. apply in_map_iff. exists r0. split; [exact Hr' | exact Hin0].
  - apply IH; [exact Hn2 | exact Hi2 |].
    intros r' Hr'. apply Hname. right. exact Hr'.
Qed.

(** X23.  The constraints of the [users] table (unique usernames,
    unique ids, ids below the counter) hold after [create_user],
    [update_user] and [delete_user] whenever they held before, whatever the
    arguments and the result. *)
Theorem accounts_stay_consistent (db : UsersDB) :
  accounts_ok db ->
  (forall username password secrets role,
     accounts_ok (create_user hash_password encrypt username password secrets
                    role db).2)
  /\ (forall user_id username password secrets role,
        accounts_ok (update_user hash_password encrypt user_id username password
                       secrets role db).2)
  /\ (forall user_id, accounts_ok (delete_user user_id db).2).
Proof.
  intros (Hnames & Hids & Hbelow). split; [| split].
  - intros username password secrets role. unfold create_user.
    destruct (existsb _ _) eqn:He; [repeat split; assumption |].
    cbn [snd]. unfold accounts_ok. cbn [users next_user_id].
    split; [| split].
    + apply StoreFacts.NoDup_map_snoc; [exact Hnames |]. cbn [u_username].
      intros Hin. apply in_map_iff in Hin as (r & Hr & Hin).
      assert (Ht : existsb (fun r => String.eqb (u_username r) username)
                     (users db) = true).
      { apply existsb_exists. exists r. split; [exact Hin |].
        apply String.eqb_eq. exact Hr. }
      congruence.
    + apply StoreFacts.NoDup_map_snoc; [exact Hids |]. cbn [u_id].
      intros Hin. apply in_map_iff in Hin as (r & Hr & Hin).
      rewrite List.Forall_forall in Hbelow. specialize (Hbelow r Hin). lia.
    + apply Forall_app. split.
      * eapply List.Forall_impl; [| exact Hbelow]. cbn. intros; lia.
      * constructor; [cbn; lia | constructor].
  - intros user_id username password secrets role. unfold update_user.
    destruct (nothing_to_update _ _ _ _); [repeat split; assumption |].
    cbv zeta.
    destruct (match username with Some _ => _ | None => _ end) eqn:Hclash;
      [repeat split; assumption |].
    cbn [snd]. unfold accounts_ok. cbn [users next_user_id].
    set (upd := updated_row hash_password encrypt username password secrets role).
    assert (Hid : forall l,
               map u_id (map (fun r => if u_id r =? user_id then upd r else r) l)
               = map u_id l).
    { induction l as [|r l IH]; [reflexivity |]. cbn.
      rewrite IH. destruct (u_id r =? user_id); reflexivity. }
    split; [| split].
    + destruct username as [name|].
      * destruct (existsb (fun r => u_id r =? user_id) (users db)) eqn:Hex.
        -- cbn [andb] in Hclash.
           apply (usernames_after_update name user_id upd);
             [intros r; split; reflexivity | exact Hnames | exact Hids |].
           intros r Hin Hr.
           destruct (u_id r =? user_id) eqn:E; [apply Z.eqb_eq in E; exact E |].
           assert (Ht : existsb (fun r => String.eqb (u_username r) name
                                          && negb (u_id r =? user_id))
                          (users db) = true).
           { apply existsb_exists. exists r. split; [exact Hin |].
             rewrite E. cbn. rewrite andb_true_r. apply String.eqb_eq. exact Hr. }
           congruence.
        -- assert (Hsame : forall l,
                      existsb (fun r => u_id r =? user_id) l = false ->
                      map (fun r => if u_id r =? user_id then upd r else r) l = l).
           { induction l as [|r l IH]; [reflexivity |]. cbn. intros Hl.
             apply orb_false_iff in Hl as [Hr Hl]. rewrite Hr, (IH Hl).
             reflexivity. }
           rewrite (Hsame _ Hex). exact Hnames.
      * assert (Hsame : forall l,
                   map u_username
                     (map (fun r => if u_id r =? user_id then upd r else r) l)
                   = map u_username l).
        { induction l as [|r l IH]; [reflexivity |]. cbn.
          rewrite IH. destruct (u_id r =? user_id); reflexivity. }
        rewrite Hsame. exact Hnames.
    + rewrite Hid. exact Hids.
    + apply List.Forall_forall. intros r Hin.
      apply in_map_iff in Hin as (r0 & <- & Hin).
      rewrite List.Forall_forall in Hbelow. specialize (Hbelow r0 Hin).
      destruct (u_id r0 =? user_id); exact Hbelow.
  - intros user_id. unfold delete_user, accounts_ok. cbn [snd users next_user_id].
    split; [| split].
    + apply StoreFacts.NoDup_map_filter. exact Hnames.
    + apply StoreFacts.NoDup_map_filter. exact Hids.
    + apply StoreFacts.Forall_filter_keep. exact Hbelow.
Qed.

End Crypto.

Lemma account_round_trip_witness :
  exists db',
    create_user Scenario.toy_hash Scenario.toy_encrypt "seller" "pw"
      Scenario.seller_secrets (Some "") Scenario.only_admin = (true, db')
    /\ (role <$> authenticate_user Scenario.toy_check Scenario.toy_decrypt
                   "seller" "pw" db') = Some "user"
    /\ (smartbill_email <$> get_user_by_id Scenario.toy_decrypt 2 db')
       = Some (Some "a@b.ro").
Proof.
  pose proof (account_round_trip Scenario.toy_hash Scenario.toy_check
                Scenario.toy_encrypt Scenario.toy_decrypt "seller" "pw"
                Scenario.seller_secrets (Some "") Scenario.only_admin
                eq_refl (fun v => eq_refl)) as H.
  cbv zeta in H.
  destruct H as (db' & Hc & Ha & Hg & _).
  - constructor; [cbn; lia | constructor].
  - reflexivity.
  - exists db'. split; [exact Hc |]. split.
    + rewrite Ha. reflexivity.
    + change 2 with (next_user_id Scenario.only_admin). rewrite Hg. reflexivity.
Defined.

Lemma update_user_edges_witness :
  update_user Scenario.toy_hash Scenario.toy_encrypt 1 None None
    Scenario.no_secrets None Scenario.only_admin = (false, Scenario.only_admin)
  /\ update_user Scenario.toy_hash Scenario.toy_encrypt 9 (Some "ghost") None
       Scenario.no_secrets None Scenario.only_admin = (true, Scenario.only_admin).
Proof.
  split.
  - apply (proj1 (update_user_edges Scenario.toy_hash Scenario.toy_encrypt 1
                    None None Scenario.no_secrets None Scenario.only_admin)).
    reflexivity.
  - apply (proj2 (update_user_edges Scenario.toy_hash Scenario.toy_encrypt 9
                    (Some "ghost") None Scenario.no_secrets None
                    Scenario.only_admin)); reflexivity.
Defined.

Lemma delete_user_then_lookup_witness :
  (delete_user 1 Scenario.only_admin).1 = true
  /\ get_user_by_id Scenario.toy_decrypt 1 (delete_user 1 Scenario.only_admin).2
     = None
  /\ (admin_delete_user Scenario.toy_decrypt Scenario.admin 1
        Scenario.only_admin).2 = Scenario.only_admin.
Proof.
  destruct (delete_user_then_lookup Scenario.toy_decrypt 1 Scenario.only_admin)
    as (H1 & H2 & _ & H4).
  split; [apply H1; discriminate |]. split; [exact H2 |].
  exact (H4 Scenario.admin).
Defined.

Lemma accounts_stay_consistent_witness :
  accounts_ok (create_user Scenario.toy_hash Scenario.toy_encrypt "seller" "pw"
                 Scenario.seller_secrets (Some "user") Scenario.only_admin).2
  /\ accounts_ok (update_user Scenario.toy_hash Scenario.toy_encrypt 1
                    (Some "root") None Scenario.no_secrets None
                    Scenario.only_admin).2.
Proof.
  assert (Hok : accounts_ok Scenario.only_admin).
  { split; [| split]; cbn.
    - apply StoreFacts.NoDup_cons_intro; [intros [] | constructor].
    - apply StoreFacts.NoDup_cons_intro; [intros [] | constructor].
    - constructor; [cbn; lia | constructor]. }
  destruct (accounts_stay_consistent Scenario.toy_hash Scenario.toy_encrypt
              Scenario.only_admin Hok) as (Hc & Hu & _).
  split; [apply Hc | apply Hu].
Defined.

End AccountFacts.

(** ** The single-invoice upload routes: validation before the checks *)

Module SingleUploadFacts.

Import UserManager SmartBillService App InvoiceUpload SingleUpload.

Section Routes.

Variable secure_filename : string -> string.
Variable pdf_request : string -> string -> PdfOutcome.
Variable upload_request : Z -> string -> string -> UploadOutcome.
Variable getenv : string -> option string.
Variable current_user : User.

Let upload_file := upload_invoice_to_trendyol secure_filename upload_request
                     current_user.
Let upload_recorded := upload_smartbill_invoice_to_trendyol pdf_request
                         upload_request getenv current_user.

(** X24.  The two single-invoice upload routes look at their input
    before they look at the credentials.  For a signed-in user, admin or
    not: a blank order id or a missing file is answered 400, a file whose
    name does not end in [.pdf] (letter case ignored) is answered 400, a blank
    package id, series or number is answered 400; only with valid input does
    a user who fails the marketplace check (every admin does) get 401.  None
    of these answers depends on what a provider would say. *)
Theorem upload_routes_validate_first :
  is_authenticated current_user = true ->
  (forall order_id pdf_file,
     Py.truthy (Py.strip order_id) = false \/ Py.truthy (file_name pdf_file) = false ->
     upload_file order_id pdf_file
     = Json 400 (Some "Order ID and PDF file are required") None)
  /\ (forall order_id pdf_file,
        Py.truthy (Py.strip order_id) = true ->
        Py.truthy (file_name pdf_file) = true ->
        endswith ".pdf" (Py.lower (file_name pdf_file)) = false ->
        upload_file order_id pdf_file
        = Json 400 (Some "Only PDF files are allowed") None)
  /\ (forall order_id pdf_file,
        Py.truthy (Py.strip order_id) = true ->
        Py.truthy (file_name pdf_file) = true ->
        endswith ".pdf" (Py.lower (file_name pdf_file)) = true ->
        check_credentials current_user = false ->
        upload_file order_id pdf_file
        = Json 401 (Some "Trendyol credentials not configured.") None)
  /\ (forall package series number,
        Py.truthy (Py.strip package) = false \/ Py.truthy (Py.strip series) = false
        \/ Py.truthy (Py.strip number) = false ->
        upload_recorded package series number
        = Json 400 (Some "Shipment package ID, series, and number are required") None)
  /\ (forall package series number,
        Py.truthy (Py.strip package) = true ->
        Py.truthy (Py.strip series) = true ->
        Py.truthy (Py.strip number) = true ->
        check_credentials current_user = false ->
        upload_recorded package series number
        = Json 401 (Some "Trendyol credentials not configured.") None).
Proof.
  intros Ha. subst upload_file upload_recorded.
  unfold upload_invoice_to_trendyol, upload_smartbill_invoice_to_trendyol,
    login_required.
  rewrite Ha. cbv zeta.
  split; [| split; [| split; [| split]]].
  - intros order_id pdf_file [H | H]; rewrite H; cbn [negb orb];
      [reflexivity | rewrite orb_true_r; reflexivity].
  - intros order_id pdf_file Ho Hf He. rewrite Ho, Hf, He. reflexivity.
  - intros order_id pdf_file Ho Hf He Hc. rewrite Ho, Hf, He, Hc. reflexivity.
  - intros package series number [H | [H | H]]; rewrite H; cbn [negb orb];
      rewrite ?orb_true_r; reflexivity.
  - intros package series number Hp Hs Hn Hc. rewrite Hp, Hs, Hn, Hc. reflexivity.
Qed.

End Routes.

Lemma upload_routes_validate_first_witness :
  upload_invoice_to_trendyol (fun name => name) Scenario.upload_ok Scenario.admin
    "  " (Some ("factura.pdf", "%PDF"))
  = Json 400 (Some "Order ID and PDF file are required") None
  /\ upload_invoice_to_trendyol (fun name => name) Scenario.upload_ok
       Scenario.admin "101" (Some ("Factura.PDF", "%PDF"))
     = Json 401 (Some "Trendyol credentials not configured.") None.
Proof.
  destruct (upload_routes_validate_first (fun name => name) Scenario.pdf_ok
              Scenario.upload_ok Scenario.no_env Scenario.admin eq_refl)
    as (H400 & _ & H401 & _).
  split.
  - apply H400. left. reflexivity.
  - apply H401; reflexivity.
Defined.

End SingleUploadFacts.

(** ** Gathering the orders of a bulk run *)

Module GatherFacts.

Import UserManager SmartBillService App TrendyolService.

Section Gather.

Variable upstream : Params -> Response.
Variable format_date : string -> string.

Lemma sku_fetch_loop_same_filters (fuel : nat) (params params' : Params) :
  (forall i, with_page params i = with_page params' i) ->
  forall fetch_page all_orders,
    sku_fetch_loop upstream fuel params fetch_page all_orders
    = sku_fetch_loop upstream fuel params' fetch_page all_orders.
Proof.
  intros H. induction fuel as [|fuel IH]; intros fetch_page all_orders;
    [reflexivity |].
  cbn [sku_fetch_loop]. rewrite (H fetch_page).
  destruct (upstream _); try reflexivity.
  cbv zeta. destruct (_ <? _); [reflexivity | apply IH].
Qed.

Variable page_fuel : nat.
Variable rq : BulkRequest.
Variable all : list Order.

Hypothesis single_status :
  Py.truthy (rq_status rq) && Py.contains "," (rq_status rq) = false.
Hypothesis sku_given : Py.truthy (rq_sku rq) = true.
Hypothesis fetched :
  sku_fetch_loop upstream page_fuel
    (single_params format_date 0 200 (rq_status rq) (rq_startDate rq)
       (rq_endDate rq) (rq_orderNumber rq)) 0 []
  = Some (Fetched all).

Let matching := sku_filter_orders (rq_sku rq) all.

Lemma filtered_page (p : nat) :
  get_orders upstream format_date page_fuel (Z.of_nat p) 200 (rq_status rq)
    (rq_startDate rq) (rq_endDate rq) (rq_orderNumber rq) (rq_sku rq)
  = Some (OrdersPage (paginate matching (Z.of_nat p) 200)).
Proof.
  unfold get_orders. rewrite single_status, sku_given.
  rewrite (sku_fetch_loop_same_filters page_fuel _
             (single_params format_date 0 200 (rq_status rq) (rq_startDate rq)
                (rq_endDate rq) (rq_orderNumber rq)))
    by (intros i; reflexivity).
  rewrite fetched. reflexivity.
Qed.

Lemma gather_from_page (fuel p : nat) (tr : list Event) :
  (p * 200 <= length matching)%nat ->
  (length matching < (p + fuel) * 200)%nat ->
  exists tr',
    gather_orders upstream format_date page_fuel fuel rq (Z.of_nat p)
      (firstn (p * 200) matching) tr
    = Some (inr matching, tr').
Proof.
  revert p tr. induction fuel as [|fuel IH]; intros p tr Hlo Hhi; [lia |].
  cbn [gather_orders]. cbv zeta. rewrite filtered_page.
  rewrite (PageFacts.page_window matching (Z.of_nat p) 200) by lia.
  rewrite Nat2Z.id. change (Z.to_nat 200) with 200%nat.
  set (w := firstn 200 (skipn (p * 200) matching)).
  assert (Hw : length w = Nat.min 200 (length matching - p * 200))
    by (subst w; rewrite length_firstn, length_skipn; reflexivity).
  assert (Hcat : (firstn (p * 200) matching ++ w)%list
                 = firstn (p * 200 + 200) matching)
    by (subst w; apply take_take_drop).
  destruct w as [|o w'] eqn:Ew.
  - eexists. f_equal. f_equal. f_equal.
    apply firstn_all2. cbn [length] in Hw. lia.
  - rewrite <- Ew in *. clear Ew.
    destruct (Z.of_nat (length w) <? 200) eqn:Hshort.
    + apply Z.ltb_lt in Hshort. eexists. f_equal. f_equal. f_equal.
      rewrite Hcat. apply firstn_all2. lia.
    + apply Z.ltb_ge in Hshort.
      replace (Z.of_nat p + 1) with (Z.of_nat (S p)) by lia.
      rewrite Hcat. replace (p * 200 + 200)%nat with (S p * 200)%nat by lia.
      apply IH; lia.
Qed.

(** X25.  Bulk-create with a SKU filter and one status.  Each page the
    gathering loop asks for is a window of the same filtered list, so when
    the fetch-all loop returns [all] and the fuel covers the pages, the
    orders gathered are all the fetched orders that match the filter, each
    once and in the fetched order, however many pages that takes. *)
Theorem bulk_gathers_all_matching (fuel : nat) :
  (length matching < fuel * 200)%nat ->
  exists tr,
    gather_orders upstream format_date page_fuel fuel rq 0 [] []
    = Some (inr (sku_filter_orders (rq_sku rq) all), tr).
Proof.
  intros H. apply (gather_from_page fuel 0 []); cbn; lia.
Qed.

End Gather.

Lemma bulk_gathers_all_matching_witness :
  exists tr,
    gather_orders (Scenario.marketplace Scenario.ten_orders) Scenario.same_date
      2 1 (Scenario.request 5 "E") 0 [] []
    = Some (inr [Scenario.o1; Scenario.o3; Scenario.o5; Scenario.o7;
                 Scenario.o8; Scenario.o9; Scenario.o10], tr).
Proof.
  destruct (bulk_gathers_all_matching (Scenario.marketplace Scenario.ten_orders)
              Scenario.same_date 2 (Scenario.request 5 "E") Scenario.ten_orders
              eq_refl eq_refl ltac:(vm_compute; reflexivity) 1
              ltac:(vm_compute; lia)) as [tr H].
  exists tr. etransitivity; [exact H |]. vm_compute. reflexivity.
Defined.

End GatherFacts.

(** ** The read routes: which statuses reach the client *)

Module ReadRouteFacts.

Import UserManager SmartBillService App InvoiceUpload ReadRoutes.

Lemma mentions_not_found (rest : string) :
  Py.contains "not found" (Py.lower ("Invoice not found: " ++ rest)) = true.
Proof. vm_compute. reflexivity. Qed.

Section Routes.

Variable upstream : TrendyolService.Params -> TrendyolService.Response.
Variable format_date : string -> string.
Variable pdf_request : string -> string -> PdfOutcome.
Variable getenv : string -> option string.
Variable current_user : User.

Lemma fetch_all_failure_status (fuel : nat) (params : TrendyolService.Params) :
  raises_on_error_status upstream ->
  forall fetch_page all_orders error status,
    TrendyolService.sku_fetch_loop upstream fuel params fetch_page all_orders
    = Some (TrendyolService.FetchFailed error status) ->
    status = 500.
Proof.
  intros Hup. induction fuel as [|fuel IH];
    intros fetch_page all_orders error status H; [discriminate |].
  cbn [TrendyolService.sku_fetch_loop] in H.
  destruct (upstream _) as [result|code text|text] eqn:E.
  - cbv zeta in H. destruct (_ <? _); [discriminate |]. eapply IH. exact H.
  - destruct (fetch_page =? 0); [| discriminate]. simplify_eq.
    apply FetchFacts.http_error_status_500. eapply Hup. exact E.
  - destruct (fetch_page =? 0); [| discriminate]. simplify_eq. reflexivity.
Qed.

Lemma service_failure_status (fuel : nat) (page size : Z)
    (status start_date end_date order_number sku error : string) (code : Z) :
  raises_on_error_status upstream ->
  TrendyolService.get_orders upstream format_date fuel page size status
    start_date end_date order_number sku
  = Some (TrendyolService.OrdersError error code) ->
  code = 500.
Proof.
  intros Hup. unfold TrendyolService.get_orders.
  destruct (Py.truthy status && Py.contains "," status).
  - destruct (TrendyolService._get_orders_multiple_statuses _ _ _ _ _ _ _ _ _ _);
      cbn; discriminate.
  - cbv zeta. destruct (Py.truthy sku).
    + destruct (TrendyolService.sku_fetch_loop _ _ _ _ _) as [[e s|all]|] eqn:E;
        try discriminate.
      intros [= <- <-]. eapply fetch_all_failure_status; eassumption.
    + destruct (upstream _) as [result|c text|text] eqn:E; try discriminate.
      * intros [= <- <-]. apply FetchFacts.http_error_status_500.
        eapply Hup. exact E.
      * intros [= <- <-]. reflexivity.
Qed.

(** X26.  The statuses [/api/orders] answers with.  Whatever status the
    marketplace's HTTP errors carry, a failure reaches the client as 401,
    and then only because the credential check failed, or as 500: for a page
    or size that is not a number, and for every fetch error of the
    service. *)
Theorem orders_route_failure_status (fuel : nat) (arg_page arg_size : option string)
    (status start_date end_date order_number sku error : string) (code : Z) :
  raises_on_error_status upstream ->
  api_orders upstream format_date current_user fuel arg_page arg_size status
    start_date end_date order_number sku
  = Some (OrdersFail error code) ->
  (code = 401 /\ check_credentials current_user = false) \/ code = 500.
Proof.
  intros Hup. unfold api_orders.
  destruct (is_authenticated current_user); cbn [negb]; [| discriminate].
  destruct (check_credentials current_user); cbn [negb];
    [| intros [= <- <-]; left; split; reflexivity].
  destruct (int_arg 0 arg_page) as [page|text]; [| intros [= <- <-]; right; reflexivity].
  destruct (int_arg 50 arg_size) as [size|text]; [| intros [= <- <-]; right; reflexivity].
  destruct (TrendyolService.get_orders _ _ _ _ _ _ _ _ _ _) as [[e s|p]|] eqn:E;
    try discriminate.
  intros [= <- <-]. right. eapply service_failure_status; eassumption.
Qed.

(** X27.  The invoice-PDF route, for a user who passes the invoicing
    check and gives a series and a number.  A 200 of the provider is sent on
    as the file.  A 401 is answered 401 and a 403 is answered 403, with the
    service's messages.  A 404 is answered 401, 403 or 404, depending on the
    words in the series and the number.  An error is never answered with a
    status other than 401, 403, 404 or 500. *)
Theorem pdf_route_statuses (series number : string) :
  is_authenticated current_user = true ->
  check_smartbill_credentials current_user = true ->
  Py.truthy series = true ->
  Py.truthy number = true ->
  let reply := get_smartbill_invoice_pdf pdf_request getenv current_user series
                 number in
  (forall content text,
     pdf_request series number = PdfHttp 200 content text ->
     reply = PdfFile content ("invoice_" ++ series ++ "_" ++ number ++ ".pdf"))
  /\ (forall content text,
        pdf_request series number = PdfHttp 401 content text ->
        reply = PdfJson "Invalid SmartBill credentials" 401)
  /\ (forall content text,
        pdf_request series number = PdfHttp 403 content text ->
        reply = PdfJson "Access forbidden - check your SmartBill plan or permissions"
                  403)
  /\ (forall content text,
        pdf_request series number = PdfHttp 404 content text ->
        exists error status,
          reply = PdfJson error status
          /\ (status = 401 \/ status = 403 \/ status = 404))
  /\ (forall error status,
        reply = PdfJson error status ->
        status = 401 \/ status = 403 \/ status = 404 \/ status = 500).
Proof.
  intros Ha Hc Hs Hn reply. subst reply. unfold get_smartbill_invoice_pdf.
  rewrite Ha, Hc, Hs, Hn. cbn [negb orb].
  destruct (CredentialFacts.service_of_checked getenv current_user Hc)
    as (svc & Hsvc & Hh & Hcif).
  rewrite Hsvc. unfold get_invoice_pdf. rewrite Hh, Hcif. cbn [negb].
  split; [| split; [| split; [| split]]].
  - intros content text H. rewrite H. reflexivity.
  - intros content text H. rewrite H. reflexivity.
  - intros content text H. rewrite H. reflexivity.
  - intros content text H. rewrite H. cbn [Z.eqb Pos.eqb].
    destruct (Py.contains "credentials" _); [eauto 6 |].
    destruct (Py.contains "forbidden" _); [eauto 6 |].
    rewrite mentions_not_found. cbn [orb]. eauto 6.
  - intros error status.
    destruct (pdf_request series number) as [code content text|text|text].
    + destruct (code =? 200); [discriminate |].
      destruct (code =? 401); [| destruct (code =? 403); [| destruct (code =? 404)]];
        repeat match goal with
               | |- context [if ?b then _ else _] => destruct b
               end;
        intros [= <- <-]; auto.
    + repeat match goal with
             | |- context [if ?b then _ else _] => destruct b
             end;
        intros [= <- <-]; auto.
    + intros [= <- <-]. auto.
Qed.

End Routes.

Lemma orders_route_failure_status_witness :
  api_orders Scenario.marketplace_down Scenario.same_date Scenario.seller 1
    (Some "0") None "Created" "" "" "" ""
  = Some (OrdersFail "Failed to fetch orders: 503 Server Error" 500)
  /\ 500 = 500.
Proof.
  assert (E : api_orders Scenario.marketplace_down Scenario.same_date
                Scenario.seller 1 (Some "0") None "Created" "" "" "" ""
              = Some (OrdersFail "Failed to fetch orders: 503 Server Error" 500))
    by (vm_compute; reflexivity).
  split; [exact E |].
  assert (Hup : raises_on_error_status Scenario.marketplace_down).
  { intros params code text H. unfold Scenario.marketplace_down in H.
    injection H as <- _. lia. }
  destruct (orders_route_failure_status _ _ _ _ _ _ _ _ _ _ _ _ _ Hup E)
    as [[H _] | H]; [discriminate H | exact H].
Defined.

Lemma pdf_route_statuses_witness :
  get_smartbill_invoice_pdf (Scenario.pdf_missing_for "0003") Scenario.no_env
    Scenario.seller "TRD" "0003"
  = PdfJson "Invoice TRD-0003 not found" 404
  /\ get_smartbill_invoice_pdf (fun _ _ => PdfHttp 401 "" "") Scenario.no_env
       Scenario.seller "TRD" "0003"
     = PdfJson "Invalid SmartBill credentials" 401.
Proof.
  split.
  - pose proof (pdf_route_statuses (Scenario.pdf_missing_for "0003")
                  Scenario.no_env Scenario.seller "TRD" "0003"
                  eq_refl eq_refl eq_refl eq_refl) as H.
    cbv zeta in H. destruct H as (_ & _ & _ & H & _).
    destruct (H "" "not found" eq_refl) as (error & status & Hr & _).
    rewrite Hr. vm_compute in Hr. symmetry. exact Hr.
  - pose proof (pdf_route_statuses (fun _ _ => PdfHttp 401 "" "")
                  Scenario.no_env Scenario.seller "TRD" "0003"
                  eq_refl eq_refl eq_refl eq_refl) as H.
    cbv zeta in H. destruct H as (_ & H & _).
    apply (H "" ""). reflexivity.
Defined.

End ReadRouteFacts.

(** ** The routes behind the checks: the two models of the series request *)

Module CheckedRouteFacts.

Import UserManager SmartBillService App InvoicingClient CheckedRoutes.

(** The draft builder's view of [get_document_series] is the view
    [names_read] of the method as the series routes see it. *)
Lemma document_series_views_agree
    (series_get : Service -> string -> Answered SeriesJson) (self : Service) :
  SmartBillService.get_document_series
    (fun svc => names_read (InvoicingClient.get_document_series series_get svc "f"))
    self
  = names_read (InvoicingClient.get_document_series series_get self "f").
Proof.
  unfold SmartBillService.get_document_series, InvoicingClient.get_document_series.
  destruct (has_headers self); cbn [negb]; [| reflexivity].
  destruct (Py.truthy_opt (company_cif self)); reflexivity.
Qed.

(** The next invoice number is padded to four digits. *)
Example next_number_is_padded :
  get_next_invoice_number
    (fun _ _ => Answer 200 ""
                  {| se_list := Some [{| se_name := Some "TRD";
                                         se_nextNumber := Some 7 |}] |})
    Scenario.no_env Scenario.seller
  = ReplyJson {| nn_seriesName := "TRD"; nn_nextNumber := "0007";
                 nn_combined := "TRD0007"; nn_cif := "RO1" |}.
Proof. vm_compute. reflexivity. Qed.

End CheckedRouteFacts.
